(** * efimm: the EFI memory manager of GRUB legacy (src/efi/efimm.c)

    A shallow embedding of the page allocator with its allocation table,
    of the firmware memory-map reader, of the translation of the firmware
    map into the e820 table, and of the e820 iterator, followed by the
    properties established about them.

    Conventions.
    - C integers are [Z]; every operation that can wrap in the source has
      its wrap-around written out ([wrap64] for [unsigned long long] and
      [grub_efi_physical_address_t], [wrap_word] for the pointer-sized
      [grub_addr_t] and [grub_efi_uintn_t]).
    - A pointer is the integer it holds; [NULL] is [0].
    - The firmware is an oracle: its answer to a boot-service call is a
      function of the calls made so far and of the call's arguments.  Every
      call is appended to a log kept in the program state.
    - The two static tables are memory indexed by slot number.  The e820
      table is indexed by [Z] because the source forms the index [x-1]
      with [x = 0]. *)

From Stdlib Require Import ZArith List Lia Bool String.
Import ListNotations.
Local Open Scope Z_scope.

(** ** Machine integers *)

Definition wrap64 (x : Z) : Z := x mod 2 ^ 64.

(** [grub_addr_t] and [grub_efi_uintn_t] are declared in headers that are
    not part of this file; both have the width of a pointer, which is taken
    as a parameter of the development. *)
Inductive word_size : Type := Word32 | Word64.

Definition word_bits (w : word_size) : Z :=
  match w with Word32 => 32 | Word64 => 64 end.

Definition wrap_word (w : word_size) (x : Z) : Z := x mod 2 ^ word_bits w.

Definition BYTES_TO_PAGES (bytes : Z) : Z := Z.shiftr bytes 12.
Definition PAGES_TO_BYTES (pages : Z) : Z := Z.shiftl pages 12.

Definition MEMORY_MAP_SIZE : Z := 0x2000.
Definition ALLOCATED_PAGES_SIZE : Z := 0x1000.

(** ** The allocation table *)

Record allocated_page : Type := mk_allocated_page {
  ap_addr : Z;
  ap_num_pages : Z
}.

(** Two 64-bit fields. *)
Definition sizeof_allocated_page : Z := 16.

Definition MAX_ALLOCATED_PAGES : nat :=
  Z.to_nat (ALLOCATED_PAGES_SIZE / sizeof_allocated_page).

Definition zero_page : allocated_page := mk_allocated_page 0 0.

(** ** Firmware interface *)

(** The status codes, allocation types, memory types and the memory
    descriptor are declared in grub/efi/api.h, which is not part of this
    file.  The code tells a status apart only from [GRUB_EFI_SUCCESS] and
    [GRUB_EFI_BUFFER_TOO_SMALL]; every other code is
    [GRUB_EFI_OTHER_STATUS]. *)
Inductive grub_efi_status_t : Type :=
| GRUB_EFI_SUCCESS
| GRUB_EFI_BUFFER_TOO_SMALL
| GRUB_EFI_OTHER_STATUS.

Inductive grub_efi_allocate_type_t : Type :=
| GRUB_EFI_ALLOCATE_ANY_PAGES
| GRUB_EFI_ALLOCATE_MAX_ADDRESS
| GRUB_EFI_ALLOCATE_ADDRESS.

(** The memory types named by the translator; any other tag found in a
    descriptor is [GRUB_EFI_OTHER_TYPE]. *)
Inductive grub_efi_memory_type_t : Type :=
| GRUB_EFI_RESERVED_MEMORY_TYPE
| GRUB_EFI_LOADER_CODE
| GRUB_EFI_LOADER_DATA
| GRUB_EFI_BOOT_SERVICES_CODE
| GRUB_EFI_BOOT_SERVICES_DATA
| GRUB_EFI_RUNTIME_SERVICES_CODE
| GRUB_EFI_RUNTIME_SERVICES_DATA
| GRUB_EFI_CONVENTIONAL_MEMORY
| GRUB_EFI_UNUSABLE_MEMORY
| GRUB_EFI_ACPI_RECLAIM_MEMORY
| GRUB_EFI_ACPI_MEMORY_NVS
| GRUB_EFI_MEMORY_MAPPED_IO
| GRUB_EFI_MEMORY_MAPPED_IO_PORT_SPACE
| GRUB_EFI_PAL_CODE
| GRUB_EFI_OTHER_TYPE (tag : Z).

(** The fields of a descriptor that the code reads. *)
Record grub_efi_memory_descriptor_t : Type := mk_descriptor {
  md_type : grub_efi_memory_type_t;
  md_physical_start : Z;
  md_num_pages : Z
}.

(** What [get_memory_map] leaves behind: its status, the values of
    [*memory_map_size] and [*descriptor_size] after the call, and the
    buffer, read as the descriptor found at a byte offset. *)
Record memory_map_reply : Type := mk_reply {
  mm_status : grub_efi_status_t;
  mm_map_size : Z;
  mm_desc_size : Z;
  mm_buffer : Z -> grub_efi_memory_descriptor_t
}.

(** One boot-service call, with what it returned. *)
Inductive fw_event : Type :=
| AllocatePages (type : grub_efi_allocate_type_t)
                (memory_type : grub_efi_memory_type_t)
                (pages address_in : Z)
                (status : grub_efi_status_t) (address_out : Z)
| FreePages (address pages : Z)
| GetMemoryMap (size_in buffer : Z) (status : grub_efi_status_t).

(** The log holds the newest call first. *)
Record firmware : Type := mk_firmware {
  fw_allocate_pages :
    list fw_event -> grub_efi_allocate_type_t -> grub_efi_memory_type_t ->
    Z -> Z -> grub_efi_status_t * Z;
  fw_get_memory_map : list fw_event -> Z -> Z -> memory_map_reply
}.

(** ** The e820 table *)

(** [struct e820_entry] and [struct mmar_desc] are declared in shared.h,
    which is not part of this file; these are the fields the code uses. *)
Record e820_entry : Type := mk_e820 {
  e_addr : Z;
  e_size : Z;
  e_type : Z
}.

(** Modelled from the spec: the numeric type codes of shared.h, which the
    spec gives as 1, 2, 3 and 4. *)
Definition E820_RAM : Z := 1.
Definition E820_RESERVED : Z := 2.
Definition E820_ACPI : Z := 3.
Definition E820_NVS : Z := 4.

Definition MMAR_DESC_LENGTH : Z := 20.

Record mmar_desc : Type := mk_mmar {
  desc_len : Z;
  mmar_addr : Z;
  mmar_length : Z;
  mmar_type : Z
}.

(** ** Program state *)

Record mm_state : Type := mk_state {
  allocated_pages : Z;
  allocated_pages_mem : nat -> allocated_page;
  grub_e820_nr_map : Z;
  grub_e820_map : Z -> e820_entry;
  fw_calls : list fw_event;
  console : list string
}.

Definition set_allocated_pages (p : Z) (st : mm_state) : mm_state :=
  mk_state p (allocated_pages_mem st) (grub_e820_nr_map st)
           (grub_e820_map st) (fw_calls st) (console st).

Definition set_allocated_pages_mem (m : nat -> allocated_page)
  (st : mm_state) : mm_state :=
  mk_state (allocated_pages st) m (grub_e820_nr_map st)
           (grub_e820_map st) (fw_calls st) (console st).

Definition set_e820_nr_map (n : Z) (st : mm_state) : mm_state :=
  mk_state (allocated_pages st) (allocated_pages_mem st) n
           (grub_e820_map st) (fw_calls st) (console st).

Definition set_e820_map (m : Z -> e820_entry) (st : mm_state) : mm_state :=
  mk_state (allocated_pages st) (allocated_pages_mem st)
           (grub_e820_nr_map st) m (fw_calls st) (console st).

Definition log_call (e : fw_event) (st : mm_state) : mm_state :=
  mk_state (allocated_pages st) (allocated_pages_mem st)
           (grub_e820_nr_map st) (grub_e820_map st)
           (e :: fw_calls st) (console st).

Definition grub_printf (msg : string) (st : mm_state) : mm_state :=
  mk_state (allocated_pages st) (allocated_pages_mem st)
           (grub_e820_nr_map st) (grub_e820_map st)
           (fw_calls st) (msg :: console st).

(** Array stores. *)
Definition store_slot (i : nat) (p : allocated_page)
  (m : nat -> allocated_page) : nat -> allocated_page :=
  fun j => if Nat.eqb j i then p else m j.

Definition store_entry (i : Z) (e : e820_entry)
  (m : Z -> e820_entry) : Z -> e820_entry :=
  fun j => if j =? i then e else m j.

(** The loop [for (i = 0; i < MAX_ALLOCATED_PAGES; i++) if
    (allocated_pages[i].addr == key) { ...; break; }] : the value of [i]
    when the loop is left, [n] slots remaining from index [i]. *)
Fixpoint scan_slots (m : nat -> allocated_page) (key : Z) (i n : nat) : nat :=
  match n with
  | O => i
  | S n' => if ap_addr (m i) =? key then i
            else scan_slots m key (S i) n'
  end.

Definition newline : string := String (Ascii.ascii_of_nat 10) EmptyString.

(** The outcome of the newest [AllocatePages] call of a log. *)
Fixpoint last_allocation (log : list fw_event)
  : option (grub_efi_status_t * Z) :=
  match log with
  | [] => None
  | AllocatePages _ _ _ _ status address :: _ => Some (status, address)
  | _ :: log' => last_allocation log'
  end.

(** ** Reading the log of firmware calls *)

(** The bases the firmware has granted and that have not been passed to
    its free-pages service since. *)
Fixpoint unreleased (log : list fw_event) : list Z :=
  match log with
  | [] => []
  | AllocatePages _ _ _ _ GRUB_EFI_SUCCESS address :: log' =>
      address :: unreleased log'
  | FreePages address _ :: log' => remove Z.eq_dec address (unreleased log')
  | _ :: log' => unreleased log'
  end.


(** What is expected of the firmware: it never grants a base that it has
    granted before and that was not freed since, *)
Fixpoint fresh_grants (log : list fw_event) : bool :=
  match log with
  | [] => true
  | AllocatePages _ _ _ _ GRUB_EFI_SUCCESS address :: log' =>
      negb (existsb (Z.eqb address) (unreleased log')) && fresh_grants log'
  | _ :: log' => fresh_grants log'
  end.

(** and a grant made for a maximal address lies at or below it. *)
Fixpoint grants_below_limit (log : list fw_event) : bool :=
  match log with
  | [] => true
  | AllocatePages GRUB_EFI_ALLOCATE_MAX_ADDRESS _ _ limit
                  GRUB_EFI_SUCCESS address :: log' =>
      (0 <=? address) && (address <=? limit) && grants_below_limit log'
  | _ :: log' => grants_below_limit log'
  end.

Definition range_eqb (x y : Z * Z) : bool :=
  (fst x =? fst y) && (snd x =? snd y).

Fixpoint remove_range (r : Z * Z) (l : list (Z * Z)) : list (Z * Z) :=
  match l with
  | [] => []
  | x :: l' => if range_eqb r x then l' else x :: remove_range r l'
  end.

(** The page ranges (base, pages) granted and not freed since with the
    same base and page count. *)
Fixpoint outstanding (log : list fw_event) : list (Z * Z) :=
  match log with
  | [] => []
  | AllocatePages _ _ pages _ GRUB_EFI_SUCCESS address :: log' =>
      (address, pages) :: outstanding log'
  | FreePages address pages :: log' =>
      remove_range (address, pages) (outstanding log')
  | _ :: log' => outstanding log'
  end.

(** The free-pages calls that named no outstanding range: a range freed
    a second time, or one never granted. *)
Fixpoint stray_frees (log : list fw_event) : list (Z * Z) :=
  match log with
  | [] => []
  | FreePages address pages :: log' =>
      if existsb (range_eqb (address, pages)) (outstanding log')
      then stray_frees log'
      else (address, pages) :: stray_frees log'
  | _ :: log' => stray_frees log'
  end.

(** ** Sample firmwares and states, for the examples *)

(** Three descriptors at a stride of 48 bytes; the rest of the buffer is
    zero-filled and decodes as empty reserved ranges. *)
Definition sample_map (off : Z) : grub_efi_memory_descriptor_t :=
  if off =? 0 then mk_descriptor GRUB_EFI_CONVENTIONAL_MEMORY 0 0xA0
  else if off =? 48 then mk_descriptor GRUB_EFI_LOADER_CODE 0x100000 0x100
  else if off =? 96 then mk_descriptor GRUB_EFI_ACPI_MEMORY_NVS 0x200000 0x10
  else mk_descriptor GRUB_EFI_RESERVED_MEMORY_TYPE 0 0.

(** Hands out fresh ranges upwards from 1 MiB and answers the map request
    with [sample_map]. *)
Definition sample_firmware : firmware :=
  mk_firmware
    (fun log type _ pages address =>
       match type with
       | GRUB_EFI_ALLOCATE_ADDRESS => (GRUB_EFI_SUCCESS, address)
       | _ => (GRUB_EFI_SUCCESS,
               0x100000 + 0x10000 * Z.of_nat (List.length log))
       end)
    (fun _ _ _ => mk_reply GRUB_EFI_SUCCESS 144 48 sample_map).

(** Gives out page 0 on the first request of a boot. *)
Definition zero_first_firmware : firmware :=
  mk_firmware
    (fun log type _ pages address =>
       match log with
       | [] => (GRUB_EFI_SUCCESS, 0)
       | _ => (GRUB_EFI_SUCCESS,
               0x100000 + 0x10000 * Z.of_nat (List.length log))
       end)
    (fun _ _ _ => mk_reply GRUB_EFI_SUCCESS 144 48 sample_map).

(** Reports that the buffer of [0x2000] bytes is too small: it asks for
    [0x3000] bytes, gives the stride, and leaves the zero-filled buffer as
    it found it. *)
Definition short_buffer_firmware : firmware :=
  mk_firmware
    (fw_allocate_pages sample_firmware)
    (fun _ _ _ =>
       mk_reply GRUB_EFI_BUFFER_TOO_SMALL 0x3000 48
         (fun _ => mk_descriptor GRUB_EFI_RESERVED_MEMORY_TYPE 0 0)).


(** Refuses the map request. *)
Definition failing_map_firmware : firmware :=
  mk_firmware
    (fw_allocate_pages sample_firmware)
    (fun _ _ _ => mk_reply GRUB_EFI_OTHER_STATUS 0x2000 0 sample_map).

Definition empty_e820 : Z -> e820_entry := fun _ => mk_e820 0 0 0.

(** The state the program is loaded in: every static is zero. *)
Definition boot_state : mm_state :=
  mk_state 0 (fun _ => zero_page) 0 empty_e820 [] [].

(** Three stored regions. *)
Definition sample_regions (i : Z) : e820_entry :=
  if i =? 0 then mk_e820 0x100000 0x100000 E820_RAM
  else if i =? 1 then mk_e820 0x200000 0x10000 E820_NVS
  else if i =? 2 then mk_e820 0xFED00000 0x1000 E820_RESERVED
  else mk_e820 0 0 0.

Definition three_region_state : mm_state :=
  mk_state 0 (fun _ => zero_page) 3 sample_regions [] [].

Definition one_region_state : mm_state :=
  mk_state 0 (fun _ => zero_page) 1 sample_regions [] [].

(** A table of 128 RAM regions of 1 MiB, 2 MiB apart: full when
    [E820_MAX] is 128.  The last one ends at [0xFF00000]. *)
Definition full_e820_state : mm_state :=
  mk_state 0 (fun _ => zero_page) 128
    (fun i => mk_e820 (0x200000 * i) 0x100000 E820_RAM) [] [].

(** The boot state, except that the bytes just below the table read as a
    RAM region that ends at [0x90000]. *)
Definition below_aliased_state : mm_state :=
  mk_state 0 (fun _ => zero_page) 0
    (store_entry (-1) (mk_e820 0x80000 0x10000 E820_RAM) empty_e820) [] [].

(** An allocation table at [0x7f000000] whose 256 slots are all taken. *)
Definition full_state : mm_state :=
  mk_state 0x7f000000
    (fun i => mk_allocated_page (0x1000 * (Z.of_nat i + 1)) 1)
    0 empty_e820 [] [].

(** An allocation table at [0x7f000000] with slots 0 and 2 in use and
    every other slot free. *)
Definition two_slot_state : mm_state :=
  mk_state 0x7f000000
    (fun i => match i with
              | 0%nat => mk_allocated_page 0x200000 4
              | 2%nat => mk_allocated_page 0x300000 1
              | _ => zero_page
              end)
    0 empty_e820 [] [].

(** A firmware map of two descriptors, 48 bytes apart: conventional
    memory over [0x90000, 0x110000), across the hole, and ACPI tables
    over [0x110000, 0x120000). *)
Definition hole_map : Z -> grub_efi_memory_descriptor_t :=
  fun off =>
    if off =? 0 then mk_descriptor GRUB_EFI_CONVENTIONAL_MEMORY 0x90000 0x80
    else if off =? 48
         then mk_descriptor GRUB_EFI_ACPI_RECLAIM_MEMORY 0x110000 0x10
         else mk_descriptor (GRUB_EFI_OTHER_TYPE 0) 0 0.

Section Efimm.

(** [E820_MAX] is defined in shared.h, which is not part of this file. *)
Variable E820_MAX : Z.
Variable word : word_size.
Variable fw : firmware.

Definition grub_addr_t (x : Z) : Z := wrap_word word x.
Definition grub_efi_uintn_t (x : Z) : Z := wrap_word word x.

(** *** Boot-service calls *)

Definition call_allocate_pages (type : grub_efi_allocate_type_t)
  (memory_type : grub_efi_memory_type_t) (pages address : Z)
  (st : mm_state) : grub_efi_status_t * Z * mm_state :=
  let r := fw_allocate_pages fw (fw_calls st) type memory_type pages address in
  (fst r, snd r,
   log_call (AllocatePages type memory_type pages address (fst r) (snd r)) st).

Definition call_free_pages (address pages : Z) (st : mm_state) : mm_state :=
  log_call (FreePages address pages) st.

Definition call_get_memory_map (size_in buffer : Z) (st : mm_state)
  : memory_map_reply * mm_state :=
  let r := fw_get_memory_map fw (fw_calls st) size_in buffer in
  (r, log_call (GetMemoryMap size_in buffer (mm_status r)) st).

(** *** Page allocation *)

(** The statements both allocation functions end with (lines 97-116 and
    160-179 of the source are the same text). *)
Definition remember_pages (address pages : Z) (st : mm_state)
  : Z * mm_state :=
  if allocated_pages st =? 0 then (grub_addr_t address, st)
  else
    let i := scan_slots (allocated_pages_mem st) 0 0 MAX_ALLOCATED_PAGES in
    if Nat.eqb i MAX_ALLOCATED_PAGES
    then (0, grub_printf "too many page allocations" st)
    else (grub_addr_t address,
          set_allocated_pages_mem
            (store_slot i (mk_allocated_page address pages)
                        (allocated_pages_mem st)) st).

(** The local [address] is not initialised before the call; the firmware
    does not read it for this allocation type, and [0] stands for it. *)
Definition grub_efi_allocate_anypages (pages : Z) (st : mm_state)
  : Z * mm_state :=
  let '(status, address, st) :=
    call_allocate_pages GRUB_EFI_ALLOCATE_ANY_PAGES GRUB_EFI_LOADER_DATA
                        pages 0 st in
  match status with
  | GRUB_EFI_SUCCESS => remember_pages address pages st
  | _ => (0, st)
  end.

Definition grub_efi_free_pages (address pages : Z) (st : mm_state)
  : mm_state :=
  let st :=
    if negb (allocated_pages st =? 0)
       && negb (allocated_pages st =? address)
    then
      let i := scan_slots (allocated_pages_mem st) address 0
                          MAX_ALLOCATED_PAGES in
      if Nat.ltb i MAX_ALLOCATED_PAGES
      then set_allocated_pages_mem
             (store_slot i
                (mk_allocated_page 0
                   (ap_num_pages (allocated_pages_mem st i)))
                (allocated_pages_mem st)) st
      else st
    else st in
  call_free_pages address pages st.

Definition grub_efi_allocate_pages (address pages : Z) (st : mm_state)
  : Z * mm_state :=
  if 0x7fffffff <? address then (0, st)
  else
    let type := if address =? 0 then GRUB_EFI_ALLOCATE_MAX_ADDRESS
                else GRUB_EFI_ALLOCATE_ADDRESS in
    let address := if address =? 0 then 0x7fffffff else address in
    let '(status, address, st) :=
      call_allocate_pages type GRUB_EFI_LOADER_DATA pages address st in
    match status with
    | GRUB_EFI_SUCCESS =>
        if address =? 0 then
          let '(status, address, st) :=
            call_allocate_pages type GRUB_EFI_LOADER_DATA pages
                                0x7fffffff st in
          let st := grub_efi_free_pages 0 pages st in
          match status with
          | GRUB_EFI_SUCCESS => remember_pages address pages st
          | _ => (0, st)
          end
        else remember_pages address pages st
    | _ => (0, st)
    end.

(** *** Reading the firmware memory map *)

(** [map_key] and [descriptor_version] are replaced by locals when null;
    neither is read afterwards, so neither is part of the result. *)
Definition grub_efi_get_memory_map (memory_map_size memory_map : Z)
  (st : mm_state) : Z * memory_map_reply * mm_state :=
  let '(r, st) := call_get_memory_map memory_map_size memory_map st in
  match mm_status r with
  | GRUB_EFI_SUCCESS => (1, r, st)
  | GRUB_EFI_BUFFER_TOO_SMALL => (0, r, st)
  | GRUB_EFI_OTHER_STATUS => (-1, r, st)
  end.

(** *** Building the e820 table *)

(** [update_e820_map] is the only caller in this file and passes the
    static table: the parameters [e820_map] and [e820_nr_map] stand for
    [grub_e820_map] and [&grub_e820_nr_map] of the state. *)
Definition add_memory_region (start size type : Z) (st : mm_state)
  : mm_state :=
  let x := grub_e820_nr_map st in
  if x =? E820_MAX
  then grub_printf ("Too many entries in the memory map!" ++ newline) st
  else
    let prev := grub_e820_map st (x - 1) in
    if (wrap64 (e_addr prev + e_size prev) =? start)
       && (e_type prev =? type)
    then set_e820_map
           (store_entry (x - 1)
              (mk_e820 (e_addr prev) (wrap64 (e_size prev + size))
                       (e_type prev))
              (grub_e820_map st)) st
    else set_e820_nr_map (x + 1)
           (set_e820_map
              (store_entry x (mk_e820 start size type) (grub_e820_map st))
              st).

(** The body of the [for] loop of [e820_map_from_efi_map]. *)
Definition translate_descriptor (desc : grub_efi_memory_descriptor_t)
  (st : mm_state) : mm_state :=
  match md_type desc with
  | GRUB_EFI_ACPI_RECLAIM_MEMORY =>
      add_memory_region (md_physical_start desc)
        (wrap64 (Z.shiftl (md_num_pages desc) 12)) E820_ACPI st
  | GRUB_EFI_RUNTIME_SERVICES_CODE
  | GRUB_EFI_RUNTIME_SERVICES_DATA
  | GRUB_EFI_RESERVED_MEMORY_TYPE
  | GRUB_EFI_MEMORY_MAPPED_IO
  | GRUB_EFI_MEMORY_MAPPED_IO_PORT_SPACE
  | GRUB_EFI_UNUSABLE_MEMORY
  | GRUB_EFI_PAL_CODE =>
      add_memory_region (md_physical_start desc)
        (wrap64 (Z.shiftl (md_num_pages desc) 12)) E820_RESERVED st
  | GRUB_EFI_LOADER_CODE
  | GRUB_EFI_LOADER_DATA
  | GRUB_EFI_BOOT_SERVICES_CODE
  | GRUB_EFI_BOOT_SERVICES_DATA
  | GRUB_EFI_CONVENTIONAL_MEMORY =>
      let start := md_physical_start desc in
      let size := wrap64 (Z.shiftl (md_num_pages desc) 12) in
      let end_ := wrap64 (start + size) in
      if (start <? 0x100000) && (0xA0000 <? end_)
      then
        let st := if start <? 0xA0000
                  then add_memory_region start (wrap64 (0xA0000 - start))
                                         E820_RAM st
                  else st in
        if end_ <=? 0x100000 then st
        else add_memory_region 0x100000 (wrap64 (end_ - 0x100000))
                               E820_RAM st
      else add_memory_region start size E820_RAM st
  | GRUB_EFI_ACPI_MEMORY_NVS =>
      add_memory_region (md_physical_start desc)
        (wrap64 (Z.shiftl (md_num_pages desc) 12)) E820_NVS st
  | GRUB_EFI_OTHER_TYPE _ => st
  end.

(** The [for] loop itself: [off] is [desc - memory_map] in bytes.  The loop
    does not end when the stride is zero and the map is not empty, hence
    the fuel. *)
Fixpoint efi_map_loop (fuel : nat)
  (memory_map : Z -> grub_efi_memory_descriptor_t)
  (desc_size memory_map_size off : Z) (st : mm_state) : option mm_state :=
  match fuel with
  | O => None
  | S fuel' =>
      if off <? memory_map_size
      then efi_map_loop fuel' memory_map desc_size memory_map_size
             (off + desc_size) (translate_descriptor (memory_map off) st)
      else Some st
  end.

Definition e820_map_from_efi_map (fuel : nat)
  (memory_map : Z -> grub_efi_memory_descriptor_t)
  (desc_size memory_map_size : Z) (st : mm_state) : option mm_state :=
  efi_map_loop fuel memory_map desc_size memory_map_size 0
               (set_e820_nr_map 0 st).

Definition update_e820_map (fuel : nat) (st : mm_state) : option mm_state :=
  let '(memory_map, st) :=
    grub_efi_allocate_pages 0 (BYTES_TO_PAGES MEMORY_MAP_SIZE) st in
  if memory_map =? 0
  then Some (grub_printf "cannot allocate memory" st)
  else
    let '(r, reply, st) :=
      grub_efi_get_memory_map MEMORY_MAP_SIZE memory_map st in
    if r <? 0
    then Some (grub_printf "cannot get memory map" st)
    else
      match e820_map_from_efi_map fuel (mm_buffer reply)
              (mm_desc_size reply) (mm_map_size reply) st with
      | None => None
      | Some st =>
          Some (grub_efi_free_pages (grub_addr_t memory_map)
                  (BYTES_TO_PAGES MEMORY_MAP_SIZE) st)
      end.

(** *** The e820 iterator *)

Definition get_mmap_entry (desc : mmar_desc) (cont : Z) (st : mm_state)
  : Z * mmar_desc :=
  if (cont <? 0) || (grub_e820_nr_map st <=? cont)
  then (0, mk_mmar 0 (mmar_addr desc) (mmar_length desc) (mmar_type desc))
  else
    let entry := grub_e820_map st cont in
    let cont := cont + 1 in
    let desc := mk_mmar MMAR_DESC_LENGTH (e_addr entry) (e_size entry)
                        (e_type entry) in
    if cont <? grub_e820_nr_map st then (cont, desc) else (0, desc).

(** *** Start and end of the memory manager *)

Definition grub_efi_mm_init (fuel : nat) (st : mm_state) : option mm_state :=
  let '(p, st) :=
    grub_efi_allocate_pages 0 (BYTES_TO_PAGES ALLOCATED_PAGES_SIZE) st in
  let st := set_allocated_pages p st in
  if p =? 0
  then Some (grub_printf "cannot allocate memory" st)
  else update_e820_map fuel
         (set_allocated_pages_mem (fun _ => zero_page) st).

(** The loop of [grub_efi_mm_fini], [n] slots remaining from index [i]. *)
Fixpoint fini_loop (n i : nat) (st : mm_state) : mm_state :=
  match n with
  | O => st
  | S n' =>
      let p := allocated_pages_mem st i in
      fini_loop n' (S i)
        (if ap_addr p =? 0 then st
         else grub_efi_free_pages (wrap64 (grub_addr_t (ap_addr p)))
                (grub_efi_uintn_t (ap_num_pages p)) st)
  end.

Definition grub_efi_mm_fini (st : mm_state) : mm_state :=
  if allocated_pages st =? 0 then st
  else
    let st := fini_loop MAX_ALLOCATED_PAGES 0 st in
    grub_efi_free_pages (wrap64 (grub_addr_t (allocated_pages st)))
      (BYTES_TO_PAGES ALLOCATED_PAGES_SIZE) st.

(** *** Calls made by the rest of the loader *)

Inductive mm_call : Type :=
| AllocateAnypages (pages : Z)
| AllocatePagesAt (address pages : Z)
| FreePagesAt (address pages : Z).

Definition run_call (st : mm_state) (c : mm_call) : mm_state :=
  match c with
  | AllocateAnypages pages => snd (grub_efi_allocate_anypages pages st)
  | AllocatePagesAt address pages =>
      snd (grub_efi_allocate_pages address pages st)
  | FreePagesAt address pages => grub_efi_free_pages address pages st
  end.

Definition run_calls (calls : list mm_call) (st : mm_state) : mm_state :=
  fold_left run_call calls st.

(** ** Vocabulary of the properties *)

(** Every slot of the allocation table is free. *)
Definition table_empty (st : mm_state) : Prop :=
  forall i, (i < MAX_ALLOCATED_PAGES)%nat ->
            ap_addr (allocated_pages_mem st i) = 0.

(** Slot 0 records [pages] pages at [address]; the other slots are free. *)
Definition table_single (st : mm_state) (address pages : Z) : Prop :=
  allocated_pages_mem st 0%nat = mk_allocated_page address pages
  /\ forall i, (0 < i < MAX_ALLOCATED_PAGES)%nat ->
               ap_addr (allocated_pages_mem st i) = 0.

(** No two slots in use record the same base. *)
Definition slots_distinct (st : mm_state) : Prop :=
  forall i j,
    (i < MAX_ALLOCATED_PAGES)%nat -> (j < MAX_ALLOCATED_PAGES)%nat ->
    ap_addr (allocated_pages_mem st i) <> 0 ->
    ap_addr (allocated_pages_mem st i) = ap_addr (allocated_pages_mem st j) ->
    i = j.

(** The base of every slot in use was granted and has not been freed
    since. *)
Definition slots_granted (st : mm_state) : Prop :=
  forall i,
    (i < MAX_ALLOCATED_PAGES)%nat ->
    ap_addr (allocated_pages_mem st i) <> 0 ->
    In (ap_addr (allocated_pages_mem st i)) (unreleased (fw_calls st)).


(** The invariant of the allocation table while it exists. *)
Record tracker_inv (st : mm_state) : Prop := mk_tracker_inv {
  inv_present : allocated_pages st <> 0;
  inv_storage : In (allocated_pages st) (unreleased (fw_calls st));
  inv_apart : forall i, (i < MAX_ALLOCATED_PAGES)%nat ->
                ap_addr (allocated_pages_mem st i) <> allocated_pages st;
  inv_distinct : slots_distinct st;
  inv_granted : slots_granted st
}.

(** No slot of the allocation table is free. *)
Definition table_full (st : mm_state) : Prop :=
  forall i, (i < MAX_ALLOCATED_PAGES)%nat ->
            ap_addr (allocated_pages_mem st i) <> 0.

(** The entries the table holds, in stored order. *)
Definition stored_regions (st : mm_state) : list e820_entry :=
  map (fun i => grub_e820_map st (Z.of_nat i))
      (seq 0 (Z.to_nat (grub_e820_nr_map st))).

(** The e820 type a firmware type is given by the [switch] of
    [e820_map_from_efi_map]; [None] for a type it drops. *)
Definition legacy_type (t : grub_efi_memory_type_t) : option Z :=
  match t with
  | GRUB_EFI_ACPI_RECLAIM_MEMORY => Some E820_ACPI
  | GRUB_EFI_RUNTIME_SERVICES_CODE
  | GRUB_EFI_RUNTIME_SERVICES_DATA
  | GRUB_EFI_RESERVED_MEMORY_TYPE
  | GRUB_EFI_MEMORY_MAPPED_IO
  | GRUB_EFI_MEMORY_MAPPED_IO_PORT_SPACE
  | GRUB_EFI_UNUSABLE_MEMORY
  | GRUB_EFI_PAL_CODE => Some E820_RESERVED
  | GRUB_EFI_LOADER_CODE
  | GRUB_EFI_LOADER_DATA
  | GRUB_EFI_BOOT_SERVICES_CODE
  | GRUB_EFI_BOOT_SERVICES_DATA
  | GRUB_EFI_CONVENTIONAL_MEMORY => Some E820_RAM
  | GRUB_EFI_ACPI_MEMORY_NVS => Some E820_NVS
  | GRUB_EFI_OTHER_TYPE _ => None
  end.

(** A descriptor of legacy type [ty] whose range fits in 64 bits and, when
    it is RAM, fails the test of line 321: it starts at or above 1 MiB or
    ends at or below 640 KiB, so that the [switch] appends it whole. *)
Definition plain_descriptor (d : grub_efi_memory_descriptor_t) (ty : Z)
  : Prop :=
  legacy_type (md_type d) = Some ty
  /\ 0 <= md_physical_start d
  /\ 0 <= md_num_pages d
  /\ md_physical_start d + 4096 * md_num_pages d < 2 ^ 64
  /\ (ty = E820_RAM ->
      0x100000 <= md_physical_start d
      \/ md_physical_start d + 4096 * md_num_pages d <= 0xA0000).

(** The merge test of [add_memory_region] on an entry: it has type [ty] and
    ends, in 64-bit arithmetic, where the new region starts. *)
Definition ends_at (e : e820_entry) (start ty : Z) : Prop :=
  wrap64 (e_addr e + e_size e) = start /\ e_type e = ty.

(** The memory just below the table, which [e820_map[x-1]] denotes when
    the table is empty, does not look like a region of type [ty] that ends
    at [start]. *)
Definition below_table_differs (st : mm_state) (start ty : Z) : Prop :=
  ~ ends_at (grub_e820_map st (-1)) start ty.

(** The second state holds the allocation table and the log of the
    first. *)
Definition same_tracker (st st' : mm_state) : Prop :=
  allocated_pages st' = allocated_pages st
  /\ allocated_pages_mem st' = allocated_pages_mem st
  /\ fw_calls st' = fw_calls st.

(** The second state holds the e820 table of the first. *)
Definition same_e820 (st st' : mm_state) : Prop :=
  grub_e820_nr_map st' = grub_e820_nr_map st
  /\ grub_e820_map st' = grub_e820_map st.

(** The descriptor [get_mmap_entry] writes for a table entry. *)
Definition mmar_of_entry (e : e820_entry) : mmar_desc :=
  mk_mmar MMAR_DESC_LENGTH (e_addr e) (e_size e) (e_type e).

(** A buffer holding the descriptors [ds] one after the other, [stride]
    bytes apart. *)
Definition packed (stride : Z) (ds : list grub_efi_memory_descriptor_t)
  : Z -> grub_efi_memory_descriptor_t :=
  fun off => nth (Z.to_nat (off / stride)) ds
                 (mk_descriptor (GRUB_EFI_OTHER_TYPE 0) 0 0).

(** ** Vocabulary of the further properties *)

(** The number of free slots among the first [n] of the allocation
    table. *)
Fixpoint free_slots (m : nat -> allocated_page) (n : nat) : nat :=
  match n with
  | O => O
  | S n' => (if ap_addr (m n') =? 0 then 1 else 0) + free_slots m n'
  end.

(** The free-pages calls the loop of [grub_efi_mm_fini] makes for the [n]
    slots from index [i] of a table, newest first. *)
Fixpoint pending_frees (m : nat -> allocated_page) (i n : nat)
  : list fw_event :=
  match n with
  | O => []
  | S n' =>
      pending_frees m (S i) n'
      ++ (if ap_addr (m i) =? 0 then []
          else [FreePages (ap_addr (m i)) (ap_num_pages (m i))])
  end.

(** The base and the page count of every slot in use survive the casts
    of [grub_efi_mm_fini] to the width of a pointer. *)
Definition slots_fit (st : mm_state) : Prop :=
  forall i, (i < MAX_ALLOCATED_PAGES)%nat ->
    ap_addr (allocated_pages_mem st i) <> 0 ->
    wrap64 (grub_addr_t (ap_addr (allocated_pages_mem st i)))
    = ap_addr (allocated_pages_mem st i)
    /\ grub_efi_uintn_t (ap_num_pages (allocated_pages_mem st i))
       = ap_num_pages (allocated_pages_mem st i).

(** Every request for pages in the log is for loader data, and names no
    address above [0x7fffffff] unless it is for any pages. *)
Definition request_bounded (e : fw_event) : Prop :=
  match e with
  | AllocatePages type memory_type _ address_in _ _ =>
      memory_type = GRUB_EFI_LOADER_DATA
      /\ (type <> GRUB_EFI_ALLOCATE_ANY_PAGES -> address_in <= 0x7fffffff)
  | _ => True
  end.

(** The loop of a caller of [get_mmap_entry]: start at [cont], stop at a
    descriptor of length 0 or at a returned continuation of 0.  [desc] is
    what the destination holds before each call. *)
Fixpoint mmap_walk (fuel : nat) (desc : mmar_desc) (cont : Z)
  (st : mm_state) : list mmar_desc :=
  match fuel with
  | O => []
  | S fuel' =>
      let r := get_mmap_entry desc cont st in
      if desc_len (snd r) =? 0 then []
      else snd r :: (if fst r =? 0 then []
                     else mmap_walk fuel' desc (fst r) st)
  end.

(** The descriptors the loop of [e820_map_from_efi_map] reads: those at
    the multiples of the stride below the size of the map. *)
Definition visited (memory_map : Z -> grub_efi_memory_descriptor_t)
  (desc_size memory_map_size : Z) : list grub_efi_memory_descriptor_t :=
  map (fun k => memory_map (desc_size * Z.of_nat k))
      (seq 0 (Z.to_nat ((memory_map_size + desc_size - 1) / desc_size))).

(** A descriptor whose range fits in 64 bits. *)
Definition well_formed_descriptor (d : grub_efi_memory_descriptor_t) : Prop :=
  0 <= md_physical_start d
  /\ 0 <= md_num_pages d
  /\ md_physical_start d + 4096 * md_num_pages d < 2 ^ 64.

(** A stored region whose range fits in 64 bits and, when it is RAM, lies
    below [0xA0000] or from [0x100000] on. *)
Definition region_clear_of_hole (e : e820_entry) : Prop :=
  0 <= e_addr e /\ 0 <= e_size e /\ e_addr e + e_size e < 2 ^ 64
  /\ (e_type e = E820_RAM ->
      e_addr e + e_size e <= 0xA0000 \/ 0x100000 <= e_addr e).

Definition table_clear_of_hole (st : mm_state) : Prop :=
  forall i, 0 <= i < grub_e820_nr_map st ->
            region_clear_of_hole (grub_e820_map st i).

(** No stored region could have been merged into the one before it. *)
Definition no_mergeable_neighbours (st : mm_state) : Prop :=
  forall i, 0 < i < grub_e820_nr_map st ->
    ~ ends_at (grub_e820_map st (i - 1))
              (e_addr (grub_e820_map st i)) (e_type (grub_e820_map st i)).

(** The bytes of [start, end_) outside the hole [0xA0000, 0x100000). *)
Definition bytes_outside_hole (start end_ : Z) : Z :=
  (Z.min end_ 0xA0000 - Z.min start 0xA0000)
  + (Z.max end_ 0x100000 - Z.max start 0x100000).

(** The bytes of a descriptor that belong in the e820 table: none for a
    type the translation drops, those outside the hole for RAM, all for
    the other types. *)
Definition reported_bytes (d : grub_efi_memory_descriptor_t) : Z :=
  match legacy_type (md_type d) with
  | None => 0
  | Some ty =>
      if ty =? E820_RAM
      then bytes_outside_hole (md_physical_start d)
             (md_physical_start d + 4096 * md_num_pages d)
      else 4096 * md_num_pages d
  end.

Definition sum_Z (l : list Z) : Z := fold_right Z.add 0 l.

(** The bytes the stored regions cover. *)
Definition stored_bytes (st : mm_state) : Z :=
  sum_Z (map e_size (stored_regions st)).

(** Whatever lies just below the table has none of the four e820 types,
    so that no first append is merged into it. *)
Definition below_table_inert (st : mm_state) : Prop :=
  e_type (grub_e820_map st (-1)) < E820_RAM
  \/ E820_NVS < e_type (grub_e820_map st (-1)).

(** What the accounting of bytes needs of a table: a count that is not
    negative, regions clear of the hole, and nothing below the table that
    a first append could be merged into. *)
Definition sound_table (st : mm_state) : Prop :=
  0 <= grub_e820_nr_map st
  /\ table_clear_of_hole st
  /\ below_table_inert st.

(** ** Properties *)

(** *** The slot scan *)

Lemma scan_slots_range (m : nat -> allocated_page) (key : Z) (n i : nat) :
  (i <= scan_slots m key i n <= i + n)%nat.
Proof.
  revert i; induction n as [|n IH]; intros i; simpl.
  - lia.
  - destruct (ap_addr (m i) =? key); [lia|].
    specialize (IH (S i)); lia.
Qed.

Lemma scan_slots_none (m : nat -> allocated_page) (key : Z) (n i : nat) :
  (forall j, (i <= j < i + n)%nat -> ap_addr (m j) <> key) ->
  scan_slots m key i n = (i + n)%nat.
Proof.
  revert i; induction n as [|n IH]; intros i H; simpl.
  - lia.
  - destruct (Z.eqb_spec (ap_addr (m i)) key) as [E|E].
    + exfalso; apply (H i); [lia|exact E].
    + rewrite IH; [lia|]. intros j Hj; apply H; lia.
Qed.

Lemma scan_slots_hit (m : nat -> allocated_page) (key : Z) (n i : nat) :
  (scan_slots m key i n < i + n)%nat ->
  ap_addr (m (scan_slots m key i n)) = key.
Proof.
  revert i; induction n as [|n IH]; intros i H; simpl in *.
  - lia.
  - destruct (Z.eqb_spec (ap_addr (m i)) key) as [E|E]; [exact E|].
    apply IH; lia.
Qed.

Lemma scan_slots_before (m : nat -> allocated_page) (key : Z) (n i j : nat) :
  (i <= j < scan_slots m key i n)%nat -> ap_addr (m j) <> key.
Proof.
  revert i; induction n as [|n IH]; intros i H; simpl in *.
  - lia.
  - destruct (Z.eqb_spec (ap_addr (m i)) key) as [E|E]; [lia|].
    destruct (Nat.eq_dec j i) as [->|Hne]; [exact E|].
    apply (IH (S i)); lia.
Qed.

(** *** A full allocation table *)

Lemma remember_pages_full (address pages : Z) (st : mm_state) :
  allocated_pages st <> 0 -> table_full st ->
  remember_pages address pages st
  = (0, grub_printf "too many page allocations" st).
Proof.
  intros Hp Hfull. unfold remember_pages.
  destruct (Z.eqb_spec (allocated_pages st) 0) as [E|_]; [contradiction|].
  rewrite scan_slots_none by (intros j Hj; apply Hfull; lia).
  rewrite Nat.add_0_l, Nat.eqb_refl. reflexivity.
Qed.

Lemma free_page_zero_full (pages : Z) (st : mm_state) :
  table_full st ->
  grub_efi_free_pages 0 pages st = call_free_pages 0 pages st.
Proof.
  intros Hfull. unfold grub_efi_free_pages.
  destruct (negb (allocated_pages st =? 0) && negb (allocated_pages st =? 0));
    [|reflexivity].
  rewrite scan_slots_none by (intros j Hj; apply Hfull; lia).
  rewrite Nat.add_0_l, Nat.ltb_irrefl. reflexivity.
Qed.

(** C9: a request above the 2 GiB ceiling is answered with NULL and the
    state, the log of firmware calls included, is left as it was: no
    boot service is called. *)
Theorem allocate_pages_above_ceiling (address pages : Z) (st : mm_state) :
  0x7fffffff < address ->
  grub_efi_allocate_pages address pages st = (0, st).
Proof.
  intros H. unfold grub_efi_allocate_pages.
  destruct (Z.ltb_spec 0x7fffffff address) as [_|C]; [reflexivity|lia].
Qed.

(** C1 (as the code has it): while the allocation table exists and has no
    free slot, an allocation the firmware granted is answered with NULL
    after the message "too many page allocations"; the table is not
    changed and the granted pages are neither recorded nor given back.
    This holds for [grub_efi_allocate_anypages], for
    [grub_efi_allocate_pages] when the first grant is not page 0, and for
    [grub_efi_allocate_pages] when the grant after a first grant of page 0
    succeeds. *)
Theorem full_table_allocation_returns_null (pages : Z) (st : mm_state) :
  allocated_pages st <> 0 ->
  table_full st ->
  (forall a,
     fw_allocate_pages fw (fw_calls st) GRUB_EFI_ALLOCATE_ANY_PAGES
                       GRUB_EFI_LOADER_DATA pages 0 = (GRUB_EFI_SUCCESS, a) ->
     grub_efi_allocate_anypages pages st
     = (0, grub_printf "too many page allocations"
             (log_call (AllocatePages GRUB_EFI_ALLOCATE_ANY_PAGES
                          GRUB_EFI_LOADER_DATA pages 0 GRUB_EFI_SUCCESS a)
                       st)))
  /\
  (forall address,
     address <= 0x7fffffff ->
     let type := if address =? 0 then GRUB_EFI_ALLOCATE_MAX_ADDRESS
                 else GRUB_EFI_ALLOCATE_ADDRESS in
     let limit := if address =? 0 then 0x7fffffff else address in
     let first := AllocatePages type GRUB_EFI_LOADER_DATA pages limit
                                GRUB_EFI_SUCCESS in
     (forall a,
        fw_allocate_pages fw (fw_calls st) type GRUB_EFI_LOADER_DATA
                          pages limit = (GRUB_EFI_SUCCESS, a) ->
        a <> 0 ->
        grub_efi_allocate_pages address pages st
        = (0, grub_printf "too many page allocations"
                (log_call (first a) st)))
     /\
     (forall a,
        fw_allocate_pages fw (fw_calls st) type GRUB_EFI_LOADER_DATA
                          pages limit = (GRUB_EFI_SUCCESS, 0) ->
        fw_allocate_pages fw (first 0 :: fw_calls st) type
                          GRUB_EFI_LOADER_DATA pages 0x7fffffff
        = (GRUB_EFI_SUCCESS, a) ->
        grub_efi_allocate_pages address pages st
        = (0, grub_printf "too many page allocations"
                (log_call (FreePages 0 pages)
                   (log_call (AllocatePages type GRUB_EFI_LOADER_DATA pages
                                0x7fffffff GRUB_EFI_SUCCESS a)
                      (log_call (first 0) st)))))).
Proof.
  intros Hp Hfull. split.
  - intros a Ha. unfold grub_efi_allocate_anypages, call_allocate_pages.
    rewrite Ha. cbn [fst snd].
    apply remember_pages_full; assumption.
  - intros address Hle type limit first. split.
    + intros a Ha Hnz. unfold grub_efi_allocate_pages, call_allocate_pages.
      destruct (Z.ltb_spec 0x7fffffff address) as [C|_]; [lia|].
      fold type limit. rewrite Ha. cbn [fst snd].
      destruct (Z.eqb_spec a 0) as [C|_]; [contradiction|].
      apply remember_pages_full; assumption.
    + intros a H0 Ha. unfold grub_efi_allocate_pages, call_allocate_pages.
      destruct (Z.ltb_spec 0x7fffffff address) as [C|_]; [lia|].
      fold type limit. rewrite H0. cbn [fst snd fw_calls log_call].
      fold (first 0). rewrite Ha. cbn [fst snd Z.eqb].
      rewrite free_page_zero_full by exact Hfull.
      apply remember_pages_full; assumption.
Qed.

(** *** What the allocation functions do to the log *)

Lemma remember_pages_calls (address pages : Z) (st : mm_state) :
  fw_calls (snd (remember_pages address pages st)) = fw_calls st.
Proof.
  unfold remember_pages.
  destruct (allocated_pages st =? 0); [reflexivity|].
  destruct (Nat.eqb _ _); reflexivity.
Qed.

Lemma remember_pages_result (address pages : Z) (st : mm_state) :
  fst (remember_pages address pages st) = 0
  \/ fst (remember_pages address pages st) = grub_addr_t address.
Proof.
  unfold remember_pages.
  destruct (allocated_pages st =? 0); [right; reflexivity|].
  destruct (Nat.eqb _ _); [left|right]; reflexivity.
Qed.

Lemma free_pages_calls (address pages : Z) (st : mm_state) :
  fw_calls (grub_efi_free_pages address pages st)
  = FreePages address pages :: fw_calls st.
Proof.
  unfold grub_efi_free_pages.
  destruct (negb _ && negb _); [|reflexivity].
  destruct (Nat.ltb _ _); reflexivity.
Qed.

Lemma grub_addr_t_zero : grub_addr_t 0 = 0.
Proof. unfold grub_addr_t, wrap_word. destruct word; reflexivity. Qed.

(** C3: [grub_efi_allocate_pages 0 pages].  When the firmware grants page 0
    the function asks once more, again for any address up to [0x7fffffff],
    and gives page 0 back: the log grows by exactly the two requests and
    the release of page 0, and the result is NULL when the second request
    is refused.  Without a grant of page 0 there is one request and no
    more.  A result other than NULL is the base of the newest grant of the
    log, and that base is not 0. *)
Theorem allocate_pages_zero_retry (pages : Z) (st : mm_state) :
  let request := AllocatePages GRUB_EFI_ALLOCATE_MAX_ADDRESS
                               GRUB_EFI_LOADER_DATA pages 0x7fffffff in
  let first := fw_allocate_pages fw (fw_calls st)
                 GRUB_EFI_ALLOCATE_MAX_ADDRESS GRUB_EFI_LOADER_DATA
                 pages 0x7fffffff in
  let second := fw_allocate_pages fw
                  (request GRUB_EFI_SUCCESS 0 :: fw_calls st)
                  GRUB_EFI_ALLOCATE_MAX_ADDRESS GRUB_EFI_LOADER_DATA
                  pages 0x7fffffff in
  let r := fst (grub_efi_allocate_pages 0 pages st) in
  let st' := snd (grub_efi_allocate_pages 0 pages st) in
  (first = (GRUB_EFI_SUCCESS, 0) ->
   fw_calls st'
   = FreePages 0 pages :: request (fst second) (snd second)
       :: request GRUB_EFI_SUCCESS 0 :: fw_calls st
   /\ (fst second <> GRUB_EFI_SUCCESS -> r = 0))
  /\
  (first <> (GRUB_EFI_SUCCESS, 0) ->
   fw_calls st' = request (fst first) (snd first) :: fw_calls st)
  /\
  (r <> 0 ->
   exists a, last_allocation (fw_calls st') = Some (GRUB_EFI_SUCCESS, a)
             /\ a <> 0 /\ r = grub_addr_t a).
Proof.
  intros request first second r st'.
  subst r st'. unfold grub_efi_allocate_pages, call_allocate_pages.
  change (0x7fffffff <? 0) with false. change (0 =? 0) with true.
  cbv iota. fold first.
  destruct first as [s1 a1] eqn:E1. cbn [fst snd].
  destruct s1.
  2,3: (split; [intros C; discriminate C|]; split;
        [intros _; reflexivity|]; intros C; cbn [fst] in C;
        exfalso; apply C; reflexivity).
  destruct (Z.eqb_spec a1 0) as [->|Hnz].
  - cbn [fw_calls log_call]. fold (request GRUB_EFI_SUCCESS 0). fold second.
    destruct second as [s2 a2] eqn:E2. cbn [fst snd].
    set (st1 := grub_efi_free_pages 0 pages _).
    assert (Hst1 : fw_calls st1
                   = FreePages 0 pages :: request s2 a2
                       :: request GRUB_EFI_SUCCESS 0 :: fw_calls st)
      by (subst st1; rewrite free_pages_calls; reflexivity).
    split; [intros _|split; [intros C; exfalso; apply C; reflexivity|]].
    + split.
      * destruct s2; cbn [snd]; try exact Hst1.
        rewrite remember_pages_calls. exact Hst1.
      * intros Hs2. destruct s2; try reflexivity.
        exfalso; apply Hs2; reflexivity.
    + intros Hr. destruct s2; cbn [fst snd] in *;
        try (exfalso; apply Hr; reflexivity).
      exists a2. rewrite remember_pages_calls, Hst1. cbn [last_allocation].
      split; [reflexivity|].
      destruct (remember_pages_result a2 pages st1) as [R|R];
        [contradiction|].
      split; [|exact R].
      intros ->. rewrite grub_addr_t_zero in R. contradiction.
  - split; [intros C; inversion C; contradiction|].
    split.
    + intros _. rewrite remember_pages_calls. reflexivity.
    + intros Hr. exists a1. rewrite remember_pages_calls.
      cbn [fw_calls log_call last_allocation].
      split; [reflexivity|]. split; [exact Hnz|].
      destruct (remember_pages_result a1 pages
                  (log_call (request GRUB_EFI_SUCCESS a1) st)) as [R|R];
        [contradiction|exact R].
Qed.

(** *** The e820 iterator *)

(** C7: [get_mmap_entry].  A continuation that is negative or not below
    the number of stored regions makes the call write a descriptor length
    of 0 and return 0.  A continuation in range makes it write the copy of
    that entry and return the next index, or 0 after the last entry.  On a
    table of 3 entries the calls chained from continuation 0 return 1, 2
    and 0 and write the copies of the entries in stored order. *)
Theorem get_mmap_entry_protocol (st : mm_state) :
  (forall desc cont,
     cont < 0 \/ grub_e820_nr_map st <= cont ->
     fst (get_mmap_entry desc cont st) = 0
     /\ desc_len (snd (get_mmap_entry desc cont st)) = 0)
  /\
  (forall desc cont,
     0 <= cont < grub_e820_nr_map st ->
     snd (get_mmap_entry desc cont st)
     = mmar_of_entry (grub_e820_map st cont)
     /\ fst (get_mmap_entry desc cont st)
        = (if cont + 1 <? grub_e820_nr_map st then cont + 1 else 0))
  /\
  (grub_e820_nr_map st = 3 ->
   forall d0 d1 d2,
     let c1 := fst (get_mmap_entry d0 0 st) in
     let c2 := fst (get_mmap_entry d1 c1 st) in
     let c3 := fst (get_mmap_entry d2 c2 st) in
     c1 = 1 /\ c2 = 2 /\ c3 = 0
     /\ [snd (get_mmap_entry d0 0 st); snd (get_mmap_entry d1 c1 st);
         snd (get_mmap_entry d2 c2 st)]
        = map mmar_of_entry (stored_regions st)).
Proof.
  assert (Hout : forall desc cont,
             cont < 0 \/ grub_e820_nr_map st <= cont ->
             get_mmap_entry desc cont st
             = (0, mk_mmar 0 (mmar_addr desc) (mmar_length desc)
                           (mmar_type desc))).
  { intros desc cont H. unfold get_mmap_entry.
    destruct (Z.ltb_spec cont 0); [reflexivity|].
    destruct (Z.leb_spec (grub_e820_nr_map st) cont); [reflexivity|lia]. }
  assert (Hin : forall desc cont,
             0 <= cont < grub_e820_nr_map st ->
             get_mmap_entry desc cont st
             = (if cont + 1 <? grub_e820_nr_map st then cont + 1 else 0,
                mmar_of_entry (grub_e820_map st cont))).
  { intros desc cont H. unfold get_mmap_entry.
    destruct (Z.ltb_spec cont 0); [lia|].
    destruct (Z.leb_spec (grub_e820_nr_map st) cont); [lia|].
    cbn [orb]. destruct (cont + 1 <? grub_e820_nr_map st); reflexivity. }
  split; [|split].
  - intros desc cont H. rewrite (Hout desc cont H). split; reflexivity.
  - intros desc cont H. rewrite (Hin desc cont H). split; reflexivity.
  - intros H3 d0 d1 d2 c1 c2 c3. subst c1 c2 c3.
    rewrite (Hin d0 0) by lia. cbn [fst snd]. rewrite H3.
    change (0 + 1 <? 3) with true. cbv iota. change (0 + 1) with 1.
    rewrite (Hin d1 1) by lia. cbn [fst snd]. rewrite H3.
    change (1 + 1 <? 3) with true. cbv iota. change (1 + 1) with 2.
    rewrite (Hin d2 2) by lia. cbn [fst snd]. rewrite H3.
    change (2 + 1 <? 3) with false. cbv iota.
    unfold stored_regions. rewrite H3.
    repeat split; reflexivity.
Qed.

(** *** Appending to the e820 table *)

Lemma wrap64_small (x : Z) : 0 <= x < 2 ^ 64 -> wrap64 x = x.
Proof. intros H. unfold wrap64. apply Z.mod_small. exact H. Qed.

Lemma pages_to_bytes (n : Z) : Z.shiftl n 12 = 4096 * n.
Proof. rewrite Z.shiftl_mul_pow2 by lia. change (2 ^ 12) with 4096. lia. Qed.

Lemma add_memory_region_new (start size type : Z) (st : mm_state) :
  grub_e820_nr_map st <> E820_MAX ->
  ~ ends_at (grub_e820_map st (grub_e820_nr_map st - 1)) start type ->
  add_memory_region start size type st
  = set_e820_nr_map (grub_e820_nr_map st + 1)
      (set_e820_map
         (store_entry (grub_e820_nr_map st) (mk_e820 start size type)
                      (grub_e820_map st)) st).
Proof.
  intros Hmax Hdiff. unfold add_memory_region.
  destruct (Z.eqb_spec (grub_e820_nr_map st) E820_MAX); [contradiction|].
  unfold ends_at in Hdiff.
  destruct (Z.eqb_spec
              (wrap64 (e_addr (grub_e820_map st (grub_e820_nr_map st - 1))
                       + e_size (grub_e820_map st (grub_e820_nr_map st - 1))))
              start) as [E1|E1]; [|reflexivity].
  destruct (Z.eqb_spec
              (e_type (grub_e820_map st (grub_e820_nr_map st - 1))) type)
    as [E2|E2]; [|reflexivity].
  exfalso. apply Hdiff. split; assumption.
Qed.

Lemma add_memory_region_merge (start size type : Z) (st : mm_state) :
  grub_e820_nr_map st <> E820_MAX ->
  ends_at (grub_e820_map st (grub_e820_nr_map st - 1)) start type ->
  add_memory_region start size type st
  = set_e820_map
      (store_entry (grub_e820_nr_map st - 1)
         (mk_e820 (e_addr (grub_e820_map st (grub_e820_nr_map st - 1)))
            (wrap64 (e_size (grub_e820_map st (grub_e820_nr_map st - 1))
                     + size))
            (e_type (grub_e820_map st (grub_e820_nr_map st - 1))))
         (grub_e820_map st)) st.
Proof.
  intros Hmax [E1 E2]. unfold add_memory_region.
  destruct (Z.eqb_spec (grub_e820_nr_map st) E820_MAX); [contradiction|].
  rewrite E1, E2, !Z.eqb_refl. reflexivity.
Qed.

Lemma translate_plain (d : grub_efi_memory_descriptor_t) (ty : Z)
  (st : mm_state) :
  plain_descriptor d ty ->
  translate_descriptor d st
  = add_memory_region (md_physical_start d) (4096 * md_num_pages d) ty st.
Proof.
  intros (Hty & Hs & Hn & Hfit & Hram). unfold translate_descriptor.
  assert (Hsize : wrap64 (Z.shiftl (md_num_pages d) 12)
                  = 4096 * md_num_pages d).
  { rewrite pages_to_bytes. apply wrap64_small. lia. }
  rewrite Hsize.
  destruct (md_type d); cbn [legacy_type] in Hty;
    inversion Hty; subst ty; try reflexivity.
  all: specialize (Hram eq_refl); cbv zeta.
  all: rewrite (wrap64_small (md_physical_start d + 4096 * md_num_pages d))
    by lia.
  all: destruct (Z.ltb_spec (md_physical_start d) 0x100000) as [Hlo|Hlo];
    destruct (Z.ltb_spec 0xA0000
                (md_physical_start d + 4096 * md_num_pages d)) as [Hhi|Hhi];
    cbn [andb]; try reflexivity; lia.
Qed.

Lemma skipn_nth_cons {A : Type} (d : A) (l : list A) (k : nat) :
  (k < List.length l)%nat -> skipn k l = nth k l d :: skipn (S k) l.
Proof.
  revert k; induction l as [|a l IH]; intros k H; cbn [List.length] in H.
  - lia.
  - destruct k as [|k]; [reflexivity|].
    cbn [skipn nth]. rewrite (IH k) by lia. reflexivity.
Qed.

(** With a stride above zero the loop visits the packed descriptors in
    order, and fuel above their number is enough. *)
Lemma efi_map_loop_packed (stride : Z)
  (ds : list grub_efi_memory_descriptor_t) :
  0 < stride ->
  forall (n k fuel : nat) (st : mm_state),
    (k + n = List.length ds)%nat -> (n < fuel)%nat ->
    efi_map_loop fuel (packed stride ds) stride
                 (stride * Z.of_nat (List.length ds))
                 (stride * Z.of_nat k) st
    = Some (fold_left (fun s d => translate_descriptor d s) (skipn k ds) st).
Proof.
  intros Hstride. induction n as [|n IH]; intros k fuel st Hk Hfuel.
  - destruct fuel as [|fuel]; [lia|]. cbn [efi_map_loop].
    replace k with (List.length ds) by lia.
    rewrite Z.ltb_irrefl, skipn_all. reflexivity.
  - destruct fuel as [|fuel]; [lia|]. cbn [efi_map_loop].
    destruct (Z.ltb_spec (stride * Z.of_nat k)
                (stride * Z.of_nat (List.length ds))) as [_|C]; [|nia].
    replace (stride * Z.of_nat k + stride) with (stride * Z.of_nat (S k))
      by lia.
    rewrite (IH (S k)) by lia.
    rewrite (skipn_nth_cons (mk_descriptor (GRUB_EFI_OTHER_TYPE 0) 0 0)
               ds k) by lia.
    cbn [fold_left]. unfold packed.
    replace (stride * Z.of_nat k / stride) with (Z.of_nat k)
      by (rewrite Z.mul_comm, Z.div_mul; lia).
    rewrite Nat2Z.id. reflexivity.
Qed.

Lemma e820_map_from_packed (stride : Z)
  (ds : list grub_efi_memory_descriptor_t) (fuel : nat) (st : mm_state) :
  0 < stride -> (List.length ds < fuel)%nat ->
  e820_map_from_efi_map fuel (packed stride ds) stride
                        (stride * Z.of_nat (List.length ds)) st
  = Some (fold_left (fun s d => translate_descriptor d s) ds
                    (set_e820_nr_map 0 st)).
Proof.
  intros Hstride Hfuel. unfold e820_map_from_efi_map.
  replace 0 with (stride * Z.of_nat 0) at 1 by lia.
  rewrite (efi_map_loop_packed stride ds Hstride (List.length ds) 0)
    by lia.
  reflexivity.
Qed.

(** C5 (as the code has it): the merge rule of [add_memory_region].  When
    the table is not full and the entry stored last has the type of the
    new region and ends, in 64-bit arithmetic, where it starts, the call
    adds the new length (in 64-bit arithmetic) to that entry and stores
    nothing else: the count and the other entries stay.  On a full table
    the call prints a message and stores nothing, whatever the last entry
    is.  Hence two descriptors of one legacy type, whose ranges fit in
    64 bits and which, when they are RAM, lie from [0x100000] on or end
    at or below [0xA0000] (so that line 321 does not split them),
    translated into an empty table with room for two entries, give one
    entry with the sum of their lengths when the second starts where the
    first ends, and two entries when it does not; this is stated for a
    first append that is stored in the table, and says nothing of one
    that is merged into the memory below the table. *)
Theorem add_memory_region_merge_rule :
  (forall start size type st,
     let x := grub_e820_nr_map st in
     let prev := grub_e820_map st (x - 1) in
     x <> E820_MAX -> 0 < x ->
     e_type prev = type -> wrap64 (e_addr prev + e_size prev) = start ->
     add_memory_region start size type st
     = set_e820_map
         (store_entry (x - 1)
            (mk_e820 (e_addr prev) (wrap64 (e_size prev + size)) type)
            (grub_e820_map st)) st)
  /\
  (forall d1 d2 ty stride fuel st,
     2 <= E820_MAX -> 0 < stride -> (3 <= fuel)%nat ->
     plain_descriptor d1 ty -> plain_descriptor d2 ty ->
     below_table_differs st (md_physical_start d1) ty ->
     exists st',
       e820_map_from_efi_map fuel (packed stride [d1; d2]) stride
                             (2 * stride) st = Some st'
       /\ (md_physical_start d2
           = md_physical_start d1 + 4096 * md_num_pages d1 ->
           stored_regions st'
           = [mk_e820 (md_physical_start d1)
                (4096 * md_num_pages d1 + 4096 * md_num_pages d2) ty])
       /\ (md_physical_start d2
           <> md_physical_start d1 + 4096 * md_num_pages d1 ->
           stored_regions st'
           = [mk_e820 (md_physical_start d1) (4096 * md_num_pages d1) ty;
              mk_e820 (md_physical_start d2) (4096 * md_num_pages d2) ty]))
  /\
  (forall start size type st,
     grub_e820_nr_map st = E820_MAX ->
     add_memory_region start size type st
     = grub_printf ("Too many entries in the memory map!" ++ newline) st).
Proof.
  split; [|split].
  - intros start size type st x prev Hmax Hx Hty Hend.
    subst x prev.
    rewrite add_memory_region_merge; [rewrite Hty; reflexivity|exact Hmax|].
    split; [exact Hend|exact Hty].
  - intros d1 d2 ty stride fuel st Hmax Hstride Hfuel P1 P2 Hbelow.
    replace (2 * stride) with (stride * Z.of_nat (List.length [d1; d2]))
      by (cbn [List.length]; lia).
    rewrite e820_map_from_packed by (cbn [List.length]; lia).
    eexists; split; [reflexivity|].
    cbn [fold_left].
    rewrite (translate_plain d1 ty _ P1), (translate_plain d2 ty _ P2).
    destruct P1 as (_ & Hs1 & Hn1 & Hfit1 & _).
    destruct P2 as (_ & Hs2 & Hn2 & Hfit2 & _).
    remember (4096 * md_num_pages d1) as z1 eqn:Hz1.
    remember (4096 * md_num_pages d2) as z2 eqn:Hz2.
    rewrite (add_memory_region_new (md_physical_start d1));
      [|cbn; lia|exact Hbelow].
    cbn [grub_e820_nr_map set_e820_nr_map set_e820_map grub_e820_map].
    split.
    + intros Hadj.
      rewrite add_memory_region_merge.
      * unfold stored_regions. cbn. rewrite wrap64_small by lia. reflexivity.
      * cbn; lia.
      * cbn. split; [|reflexivity]. cbn. rewrite wrap64_small; lia.
    + intros Hgap.
      rewrite add_memory_region_new.
      * unfold stored_regions. cbn. reflexivity.
      * cbn; lia.
      * cbn. intros [C _]. cbn in C. rewrite wrap64_small in C; lia.
  - intros start size type st Hfull. unfold add_memory_region.
    rewrite Hfull, Z.eqb_refl. reflexivity.
Qed.

(** *** The hole between 640 KiB and 1 MiB *)

Lemma translate_ram_low (d : grub_efi_memory_descriptor_t) (st : mm_state) :
  legacy_type (md_type d) = Some E820_RAM ->
  let s := md_physical_start d in
  let e := s + 4096 * md_num_pages d in
  0 <= s < 0x100000 -> 0 <= md_num_pages d -> 0xA0000 < e < 2 ^ 64 ->
  translate_descriptor d st
  = let st1 := if s <? 0xA0000
               then add_memory_region s (0xA0000 - s) E820_RAM st
               else st in
    if 0x100000 <? e
    then add_memory_region 0x100000 (e - 0x100000) E820_RAM st1
    else st1.
Proof.
  intros Hty s e Hs Hn He. unfold translate_descriptor.
  assert (Hsize : wrap64 (Z.shiftl (md_num_pages d) 12)
                  = 4096 * md_num_pages d).
  { rewrite pages_to_bytes. apply wrap64_small. lia. }
  rewrite Hsize. fold s. fold e.
  rewrite (wrap64_small e) by lia.
  assert (Hbody :
    (if (s <? 0x100000) && (0xA0000 <? e)
     then
       let st0 := if s <? 0xA0000
                  then add_memory_region s (wrap64 (0xA0000 - s)) E820_RAM st
                  else st in
       if e <=? 0x100000 then st0
       else add_memory_region 0x100000 (wrap64 (e - 0x100000)) E820_RAM st0
     else add_memory_region s (4096 * md_num_pages d) E820_RAM st)
    = let st1 := if s <? 0xA0000
                 then add_memory_region s (0xA0000 - s) E820_RAM st
                 else st in
      if 0x100000 <? e
      then add_memory_region 0x100000 (e - 0x100000) E820_RAM st1
      else st1).
  { destruct (Z.ltb_spec s 0x100000) as [_|C]; [|lia].
    destruct (Z.ltb_spec 0xA0000 e) as [_|C]; [|lia].
    cbn [andb]. cbv zeta.
    destruct (Z.ltb_spec s 0xA0000) as [Hlow|Hlow];
      [rewrite (wrap64_small (0xA0000 - s)) by lia|];
      (destruct (Z.leb_spec e 0x100000) as [Hin|Hout];
       destruct (Z.ltb_spec 0x100000 e) as [Hup|Hup]; try lia;
       [reflexivity | rewrite (wrap64_small (e - 0x100000)) by lia;
                      reflexivity]). }
  destruct (md_type d); cbn [legacy_type] in Hty;
    try discriminate Hty; exact Hbody.
Qed.

(** What the split at the hole gives when no append is merged into the
    memory below the table.  A RAM descriptor that starts below 1 MiB and
    ends above 640 KiB, its range fitting in 64 bits: the translator
    appends, as RAM, the part below [0xA0000] when the descriptor starts
    below it, then the part from [0x100000] when the descriptor ends
    above it, and appends nothing else.  Translated alone into an empty
    table with room for two entries, such a descriptor leaves exactly
    those parts as the stored regions: two entries on either side of the
    hole when it spans the hole, none when it lies inside it.  The latter
    holds of any table. *)
Theorem ram_descriptor_split_at_hole :
  (forall d st,
     legacy_type (md_type d) = Some E820_RAM ->
     let s := md_physical_start d in
     let e := s + 4096 * md_num_pages d in
     0 <= s < 0x100000 -> 0 <= md_num_pages d -> 0xA0000 < e < 2 ^ 64 ->
     translate_descriptor d st
     = let st1 := if s <? 0xA0000
                  then add_memory_region s (0xA0000 - s) E820_RAM st
                  else st in
       if 0x100000 <? e
       then add_memory_region 0x100000 (e - 0x100000) E820_RAM st1
       else st1)
  /\
  (forall d stride fuel st,
     legacy_type (md_type d) = Some E820_RAM ->
     let s := md_physical_start d in
     let e := s + 4096 * md_num_pages d in
     2 <= E820_MAX -> 0 < stride -> (2 <= fuel)%nat ->
     0 <= s < 0x100000 -> 0 <= md_num_pages d -> 0xA0000 < e < 2 ^ 64 ->
     below_table_differs st s E820_RAM ->
     below_table_differs st 0x100000 E820_RAM ->
     exists st',
       e820_map_from_efi_map fuel (packed stride [d]) stride (1 * stride) st
       = Some st'
       /\ stored_regions st'
          = (if s <? 0xA0000 then [mk_e820 s (0xA0000 - s) E820_RAM]
             else [])
            ++ (if 0x100000 <? e
                then [mk_e820 0x100000 (e - 0x100000) E820_RAM]
                else []))
  /\
  (forall d stride fuel st,
     legacy_type (md_type d) = Some E820_RAM ->
     let s := md_physical_start d in
     let e := s + 4096 * md_num_pages d in
     0 < stride -> (2 <= fuel)%nat ->
     0xA0000 <= s -> 0 < md_num_pages d -> e <= 0x100000 ->
     exists st',
       e820_map_from_efi_map fuel (packed stride [d]) stride (1 * stride) st
       = Some st'
       /\ stored_regions st' = []).
Proof.
  split; [exact translate_ram_low|split].
  - intros d stride fuel st Hty s e Hmax Hstride Hfuel Hs Hn He Hlow Hhigh.
    replace (1 * stride) with (stride * Z.of_nat (List.length [d]))
      by (cbn [List.length]; lia).
    rewrite e820_map_from_packed by (cbn [List.length]; lia).
    eexists; split; [reflexivity|].
    cbn [fold_left].
    rewrite translate_ram_low; [|exact Hty|lia|lia|lia].
    fold s. fold e. cbv zeta.
    remember (0xA0000 - s) as z1 eqn:Hz1.
    remember (e - 0x100000) as z2 eqn:Hz2.
    destruct (Z.ltb_spec s 0xA0000) as [Hs1|Hs1];
      destruct (Z.ltb_spec 0x100000 e) as [He1|He1]; cbn [app].
    + rewrite (add_memory_region_new s); [|cbn; lia|exact Hlow].
      rewrite add_memory_region_new.
      * unfold stored_regions. cbn. reflexivity.
      * cbn; lia.
      * cbn. intros [C _]. cbn in C. rewrite wrap64_small in C; lia.
    + rewrite (add_memory_region_new s); [|cbn; lia|exact Hlow].
      unfold stored_regions. cbn. reflexivity.
    + rewrite (add_memory_region_new 0x100000); [|cbn; lia|exact Hhigh].
      unfold stored_regions. cbn. reflexivity.
    + reflexivity.
  - intros d stride fuel st Hty s e Hstride Hfuel Hs Hn He.
    replace (1 * stride) with (stride * Z.of_nat (List.length [d]))
      by (cbn [List.length]; lia).
    rewrite e820_map_from_packed by (cbn [List.length]; lia).
    eexists; split; [reflexivity|].
    cbn [fold_left].
    rewrite translate_ram_low; [|exact Hty|lia|lia|lia].
    fold s. fold e. cbv zeta.
    destruct (Z.ltb_spec s 0xA0000) as [C|_]; [lia|].
    destruct (Z.ltb_spec 0x100000 e) as [C|_]; [lia|].
    reflexivity.
Qed.

(** *** Building the table from the firmware map *)

Lemma same_e820_refl (st : mm_state) : same_e820 st st.
Proof. split; reflexivity. Qed.

Lemma same_e820_trans (st1 st2 st3 : mm_state) :
  same_e820 st1 st2 -> same_e820 st2 st3 -> same_e820 st1 st3.
Proof. intros [A B] [C D]. split; congruence. Qed.

Lemma remember_pages_e820 (address pages : Z) (st : mm_state) :
  same_e820 st (snd (remember_pages address pages st)).
Proof.
  unfold remember_pages.
  destruct (allocated_pages st =? 0); [apply same_e820_refl|].
  destruct (Nat.eqb _ _); split; reflexivity.
Qed.

Lemma free_pages_e820 (address pages : Z) (st : mm_state) :
  same_e820 st (grub_efi_free_pages address pages st).
Proof.
  unfold grub_efi_free_pages.
  destruct (negb _ && negb _); [|split; reflexivity].
  destruct (Nat.ltb _ _); split; reflexivity.
Qed.

Lemma allocate_pages_e820 (address pages : Z) (st : mm_state) :
  same_e820 st (snd (grub_efi_allocate_pages address pages st)).
Proof.
  unfold grub_efi_allocate_pages, call_allocate_pages.
  destruct (0x7fffffff <? address); [apply same_e820_refl|].
  destruct (fw_allocate_pages fw (fw_calls st) _ _ _ _) as [s1 a1].
  cbn [fst snd].
  destruct s1; try (split; reflexivity).
  destruct (a1 =? 0).
  - cbn [fw_calls log_call].
    destruct (fw_allocate_pages fw _ _ _ _ _) as [s2 a2]. cbn [fst snd].
    destruct s2; cbn [snd].
    + eapply same_e820_trans; [|apply remember_pages_e820].
      eapply same_e820_trans; [|apply free_pages_e820].
      split; reflexivity.
    + eapply same_e820_trans; [|apply free_pages_e820]. split; reflexivity.
    + eapply same_e820_trans; [|apply free_pages_e820]. split; reflexivity.
  - eapply same_e820_trans; [|apply remember_pages_e820].
    split; reflexivity.
Qed.

(** C2 (as the code has it): [update_e820_map] once its buffer is
    allocated.  Only a status other than success and buffer-too-small
    makes it stop, after the message "cannot get memory map", with the
    e820 table as it was (empty after boot).  On success and on
    buffer-too-small alike it translates what the buffer holds, with the
    size and stride the firmware left, and then frees the buffer. *)
Theorem update_e820_map_outcomes (fuel : nat) (st : mm_state) :
  let alloc := grub_efi_allocate_pages 0 (BYTES_TO_PAGES MEMORY_MAP_SIZE) st in
  let memory_map := fst alloc in
  let reply := fw_get_memory_map fw (fw_calls (snd alloc)) MEMORY_MAP_SIZE
                                 memory_map in
  let st2 := log_call (GetMemoryMap MEMORY_MAP_SIZE memory_map
                                    (mm_status reply)) (snd alloc) in
  memory_map <> 0 ->
  same_e820 st st2
  /\
  (mm_status reply = GRUB_EFI_OTHER_STATUS ->
   update_e820_map fuel st
   = Some (grub_printf "cannot get memory map" st2))
  /\
  (mm_status reply <> GRUB_EFI_OTHER_STATUS ->
   update_e820_map fuel st
   = option_map
       (grub_efi_free_pages (grub_addr_t memory_map)
                            (BYTES_TO_PAGES MEMORY_MAP_SIZE))
       (e820_map_from_efi_map fuel (mm_buffer reply) (mm_desc_size reply)
                              (mm_map_size reply) st2)).
Proof.
  intros alloc memory_map reply st2 Hmap.
  split.
  - eapply same_e820_trans; [apply allocate_pages_e820|].
    split; reflexivity.
  - assert (Hrun : update_e820_map fuel st
            = match mm_status reply with
              | GRUB_EFI_OTHER_STATUS =>
                  Some (grub_printf "cannot get memory map" st2)
              | _ =>
                  option_map
                    (grub_efi_free_pages (grub_addr_t memory_map)
                                         (BYTES_TO_PAGES MEMORY_MAP_SIZE))
                    (e820_map_from_efi_map fuel (mm_buffer reply)
                       (mm_desc_size reply) (mm_map_size reply) st2)
              end).
    { unfold update_e820_map. subst st2 reply memory_map. fold alloc.
      destruct alloc as [mm st1]. cbn [fst snd] in *.
      destruct (Z.eqb_spec mm 0) as [C|_]; [contradiction|].
      unfold grub_efi_get_memory_map, call_get_memory_map.
      destruct (mm_status
                  (fw_get_memory_map fw (fw_calls st1) MEMORY_MAP_SIZE mm));
        cbn [Z.ltb Z.compare];
        try reflexivity;
        destruct (e820_map_from_efi_map _ _ _ _ _); reflexivity. }
    split; intros H; rewrite Hrun.
    + rewrite H. reflexivity.
    + destruct (mm_status reply); [reflexivity|reflexivity|].
      exfalso; apply H; reflexivity.
Qed.

(** *** The log of firmware calls *)

Lemma existsb_eqb_false (a : Z) (l : list Z) :
  existsb (Z.eqb a) l = false <-> ~ In a l.
Proof.
  split.
  - intros H Hin. assert (C : existsb (Z.eqb a) l = true).
    { apply existsb_exists. exists a. split; [exact Hin|apply Z.eqb_refl]. }
    congruence.
  - intros H. destruct (existsb (Z.eqb a) l) eqn:E; [|reflexivity].
    exfalso. apply H. apply existsb_exists in E.
    destruct E as (x & Hx & Heq). apply Z.eqb_eq in Heq. subst x. exact Hx.
Qed.

Lemma fresh_grants_tail (e : fw_event) (log : list fw_event) :
  fresh_grants (e :: log) = true -> fresh_grants log = true.
Proof.
  destruct e as [ty mt p lim s a| |]; cbn [fresh_grants];
    try (intros H; exact H).
  destruct s; try (intros H; exact H).
  intros H. apply andb_true_iff in H. apply H.
Qed.

Lemma fresh_grants_app (evs log : list fw_event) :
  fresh_grants (evs ++ log) = true -> fresh_grants log = true.
Proof.
  induction evs as [|e evs IH]; cbn [app]; [intros H; exact H|].
  intros H. apply IH. exact (fresh_grants_tail _ _ H).
Qed.

Lemma fresh_grant_new (ty : grub_efi_allocate_type_t)
  (mt : grub_efi_memory_type_t) (p lim a : Z) (log : list fw_event) :
  fresh_grants (AllocatePages ty mt p lim GRUB_EFI_SUCCESS a :: log) = true ->
  ~ In a (unreleased log).
Proof.
  cbn [fresh_grants]. intros H. apply andb_true_iff in H.
  destruct H as [H _]. apply negb_true_iff in H.
  apply existsb_eqb_false. exact H.
Qed.

Lemma grants_below_limit_tail (e : fw_event) (log : list fw_event) :
  grants_below_limit (e :: log) = true -> grants_below_limit log = true.
Proof.
  destruct e as [ty mt p lim s a| |]; cbn [grants_below_limit];
    try (intros H; exact H).
  destruct ty; try (intros H; exact H).
  destruct s; try (intros H; exact H).
  intros H. apply andb_true_iff in H. apply H.
Qed.

Lemma grants_below_limit_app (evs log : list fw_event) :
  grants_below_limit (evs ++ log) = true -> grants_below_limit log = true.
Proof.
  induction evs as [|e evs IH]; cbn [app]; [intros H; exact H|].
  intros H. apply IH. exact (grants_below_limit_tail _ _ H).
Qed.

Lemma grant_below_limit (mt : grub_efi_memory_type_t) (p lim a : Z)
  (log : list fw_event) :
  grants_below_limit
    (AllocatePages GRUB_EFI_ALLOCATE_MAX_ADDRESS mt p lim GRUB_EFI_SUCCESS a
       :: log) = true ->
  0 <= a <= lim.
Proof.
  cbn [grants_below_limit]. intros H.
  apply andb_true_iff in H. destruct H as [H _].
  apply andb_true_iff in H. destruct H as [H1 H2]. lia.
Qed.


Lemma grub_addr_t_small (x : Z) : 0 <= x <= 0x7fffffff -> grub_addr_t x = x.
Proof.
  intros H. unfold grub_addr_t, wrap_word.
  apply Z.mod_small. destruct word; cbn [word_bits]; lia.
Qed.

(** *** The invariant of the allocation table *)

Lemma tracker_inv_grant (ty : grub_efi_allocate_type_t)
  (mt : grub_efi_memory_type_t) (p lim a : Z) (st : mm_state) :
  tracker_inv st -> ~ In a (unreleased (fw_calls st)) ->
  tracker_inv (log_call (AllocatePages ty mt p lim GRUB_EFI_SUCCESS a) st)
  /\ a <> allocated_pages st
  /\ (forall i, (i < MAX_ALLOCATED_PAGES)%nat ->
                ap_addr (allocated_pages_mem st i) <> 0 ->
                ap_addr (allocated_pages_mem st i) <> a).
Proof.
  intros [Hp Hs Ha Hd Hg] Hnew. split; [|split].
  - constructor; cbn [allocated_pages allocated_pages_mem fw_calls log_call
                      unreleased]; try assumption.
    + right. exact Hs.
    + intros i Hi Hlive. right. exact (Hg i Hi Hlive).
  - intros ->. exact (Hnew Hs).
  - intros i Hi Hlive E. apply Hnew. rewrite <- E. exact (Hg i Hi Hlive).
Qed.

Lemma tracker_inv_refused (e : fw_event) (st : mm_state) :
  unreleased (e :: fw_calls st) = unreleased (fw_calls st) ->
  tracker_inv st -> tracker_inv (log_call e st).
Proof.
  intros He [Hp Hs Ha Hd Hg].
  constructor; cbn [allocated_pages allocated_pages_mem fw_calls log_call];
    try assumption.
  - rewrite He. exact Hs.
  - intros i Hi Hlive. cbn [fw_calls log_call]. rewrite He.
    exact (Hg i Hi Hlive).
Qed.

Lemma tracker_inv_printf (msg : string) (st : mm_state) :
  tracker_inv st -> tracker_inv (grub_printf msg st).
Proof. intros [Hp Hs Ha Hd Hg]. constructor; assumption. Qed.

Lemma tracker_inv_remember (a p : Z) (st : mm_state) :
  tracker_inv st ->
  In a (unreleased (fw_calls st)) ->
  a <> allocated_pages st ->
  (forall i, (i < MAX_ALLOCATED_PAGES)%nat ->
             ap_addr (allocated_pages_mem st i) <> 0 ->
             ap_addr (allocated_pages_mem st i) <> a) ->
  tracker_inv (snd (remember_pages a p st)).
Proof.
  intros Hinv Hin Hne Hnew. unfold remember_pages.
  destruct (allocated_pages st =? 0); [exact Hinv|].
  set (k := scan_slots (allocated_pages_mem st) 0 0 MAX_ALLOCATED_PAGES).
  destruct (Nat.eqb_spec k MAX_ALLOCATED_PAGES) as [Hk|Hk];
    cbn [snd]; [apply tracker_inv_printf; exact Hinv|].
  destruct Hinv as [Hp Hs Ha Hd Hg].
  assert (Hread : forall i,
             ap_addr (store_slot k (mk_allocated_page a p)
                        (allocated_pages_mem st) i)
             = if Nat.eqb i k then a
               else ap_addr (allocated_pages_mem st i)).
  { intros i. unfold store_slot. destruct (Nat.eqb i k); reflexivity. }
  constructor; unfold slots_distinct, slots_granted;
    cbn [allocated_pages allocated_pages_mem fw_calls
         set_allocated_pages_mem]; try assumption.
  - intros i Hi. rewrite Hread.
    destruct (Nat.eqb i k); [exact Hne|exact (Ha i Hi)].
  - intros i j Hi Hj. rewrite !Hread.
    destruct (Nat.eqb_spec i k) as [->|Hik];
      destruct (Nat.eqb_spec j k) as [->|Hjk]; intros Hlive E.
    + reflexivity.
    + exfalso. apply (Hnew j Hj); congruence.
    + exfalso. apply (Hnew i Hi); congruence.
    + exact (Hd i j Hi Hj Hlive E).
  - intros i Hi. rewrite Hread.
    destruct (Nat.eqb i k); [intros _; exact Hin|exact (Hg i Hi)].
Qed.

(** [grub_efi_free_pages] changes the base of at most one slot, from
    [address] to 0. *)
Lemma free_pages_slots (address pages : Z) (st : mm_state) (i : nat) :
  ap_addr (allocated_pages_mem (grub_efi_free_pages address pages st) i)
  = ap_addr (allocated_pages_mem st i)
  \/ (ap_addr (allocated_pages_mem (grub_efi_free_pages address pages st) i)
      = 0
      /\ ap_addr (allocated_pages_mem st i) = address).
Proof.
  unfold grub_efi_free_pages.
  destruct (negb _ && negb _); [|left; reflexivity].
  set (k := scan_slots (allocated_pages_mem st) address 0
                       MAX_ALLOCATED_PAGES).
  destruct (Nat.ltb_spec k MAX_ALLOCATED_PAGES) as [Hk|Hk];
    [|left; reflexivity].
  cbn [allocated_pages_mem call_free_pages log_call set_allocated_pages_mem].
  unfold store_slot. destruct (Nat.eqb_spec i k) as [->|Hik];
    [|left; reflexivity].
  right. split; [reflexivity|].
  apply scan_slots_hit. fold k. lia.
Qed.

Lemma free_pages_pointer (address pages : Z) (st : mm_state) :
  allocated_pages (grub_efi_free_pages address pages st)
  = allocated_pages st.
Proof.
  unfold grub_efi_free_pages.
  destruct (negb _ && negb _); [|reflexivity].
  destruct (Nat.ltb _ _); reflexivity.
Qed.

(** After [grub_efi_free_pages] no slot in use records [address], when
    the slots in use recorded distinct bases and [address] is not that of
    the table itself. *)
Lemma free_pages_clears (address pages : Z) (st : mm_state) :
  allocated_pages st <> 0 -> address <> allocated_pages st ->
  slots_distinct st ->
  forall i, (i < MAX_ALLOCATED_PAGES)%nat ->
    ap_addr (allocated_pages_mem (grub_efi_free_pages address pages st) i)
    <> 0 ->
    ap_addr (allocated_pages_mem (grub_efi_free_pages address pages st) i)
    <> address.
Proof.
  intros Hp Hne Hd i Hi. unfold grub_efi_free_pages.
  destruct (Z.eqb_spec (allocated_pages st) 0) as [C|_]; [contradiction|].
  destruct (Z.eqb_spec (allocated_pages st) address) as [C|_];
    [congruence|].
  cbn [negb andb].
  set (k := scan_slots (allocated_pages_mem st) address 0
                       MAX_ALLOCATED_PAGES).
  destruct (Nat.ltb_spec k MAX_ALLOCATED_PAGES) as [Hk|Hk];
    cbn [allocated_pages_mem call_free_pages log_call
         set_allocated_pages_mem].
  - assert (Hhit : ap_addr (allocated_pages_mem st k) = address)
      by (apply scan_slots_hit; fold k; lia).
    unfold store_slot. destruct (Nat.eqb_spec i k) as [->|Hik].
    + cbn [ap_addr]. intros C; contradiction.
    + intros Hlive E. apply Hik. apply (Hd i k Hi Hk Hlive). congruence.
  - intros _. apply (scan_slots_before _ _ MAX_ALLOCATED_PAGES 0%nat).
    fold k. lia.
Qed.

Lemma tracker_inv_free (address pages : Z) (st : mm_state) :
  tracker_inv st -> address <> allocated_pages st ->
  tracker_inv (grub_efi_free_pages address pages st).
Proof.
  intros Hinv Hne.
  pose proof (free_pages_clears address pages st (inv_present _ Hinv) Hne
                (inv_distinct _ Hinv)) as Hclear.
  destruct Hinv as [Hp Hs Ha Hd Hg].
  constructor; rewrite ?free_pages_pointer, ?free_pages_calls;
    cbn [unreleased].
  - exact Hp.
  - apply in_in_remove; [congruence|exact Hs].
  - intros i Hi.
    destruct (free_pages_slots address pages st i) as [E|[E _]];
      rewrite E; [exact (Ha i Hi)|congruence].
  - intros i j Hi Hj Hlive E.
    destruct (free_pages_slots address pages st i) as [Ei|[Ei _]];
      [|congruence].
    destruct (free_pages_slots address pages st j) as [Ej|[Ej _]];
      [|congruence].
    apply (Hd i j Hi Hj); congruence.
  - intros i Hi Hlive. unfold slots_granted in Hg.
    rewrite free_pages_calls. cbn [unreleased].
    apply in_in_remove; [exact (Hclear i Hi Hlive)|].
    destruct (free_pages_slots address pages st i) as [E|[E _]];
      [|congruence].
    rewrite E. apply (Hg i Hi). congruence.
Qed.

Lemma remember_pages_pointer (a p : Z) (st : mm_state) :
  allocated_pages (snd (remember_pages a p st)) = allocated_pages st.
Proof.
  unfold remember_pages.
  destruct (allocated_pages st =? 0); [reflexivity|].
  destruct (Nat.eqb _ _); reflexivity.
Qed.


Lemma tracker_inv_allocate_pages (address pages : Z) (st : mm_state) :
  tracker_inv st ->
  fresh_grants (fw_calls (snd (grub_efi_allocate_pages address pages st)))
  = true ->
  tracker_inv (snd (grub_efi_allocate_pages address pages st)).
Proof.
  unfold grub_efi_allocate_pages, call_allocate_pages.
  destruct (0x7fffffff <? address); [intros H _; exact H|].
  set (ty := if address =? 0 then GRUB_EFI_ALLOCATE_MAX_ADDRESS
             else GRUB_EFI_ALLOCATE_ADDRESS).
  set (lim := if address =? 0 then 0x7fffffff else address).
  destruct (fw_allocate_pages fw (fw_calls st) ty _ pages lim) as [s1 a1].
  cbn [fst snd]. intros Hinv.
  destruct s1; cbn [snd];
    try (intros _; apply tracker_inv_refused; [reflexivity|exact Hinv]).
  destruct (Z.eqb_spec a1 0) as [->|Hnz].
  - cbn [fw_calls log_call].
    destruct (fw_allocate_pages fw _ ty _ pages 0x7fffffff) as [s2 a2].
    cbn [fst snd].
    assert (Hzero : 0 <> allocated_pages st)
      by (intros C; apply (inv_present _ Hinv); congruence).
    destruct s2; cbn [snd].
    + rewrite remember_pages_calls, free_pages_calls.
      cbn [fw_calls log_call]. intros Hfresh.
      apply fresh_grants_tail in Hfresh.
      pose proof (fresh_grant_new _ _ _ _ _ _ Hfresh) as Hnew2.
      apply fresh_grants_tail in Hfresh.
      pose proof (fresh_grant_new _ _ _ _ _ _ Hfresh) as Hnew1.
      destruct (tracker_inv_grant ty GRUB_EFI_LOADER_DATA pages lim 0 st
                  Hinv Hnew1) as (Hinv1 & _ & _).
      destruct (tracker_inv_grant ty GRUB_EFI_LOADER_DATA pages 0x7fffffff
                  a2 _ Hinv1 Hnew2) as (Hinv2 & Hne2 & Hfree2).
      cbn [unreleased] in Hnew2.
      assert (Ha2 : a2 <> 0) by (intros ->; apply Hnew2; left; reflexivity).
      apply tracker_inv_remember.
      * apply tracker_inv_free; [exact Hinv2|exact Hzero].
      * rewrite free_pages_calls. cbn [fw_calls log_call unreleased].
        apply in_in_remove; [exact Ha2|left; reflexivity].
      * rewrite free_pages_pointer. exact Hne2.
      * intros i Hi Hlive.
        match goal with
        | |- context [grub_efi_free_pages 0 pages ?s] =>
            destruct (free_pages_slots 0 pages s i) as [E|[E _]]
        end; [|congruence].
        rewrite E in *. exact (Hfree2 i Hi Hlive).
    + rewrite free_pages_calls. cbn [fw_calls log_call]. intros Hfresh.
      do 2 apply fresh_grants_tail in Hfresh.
      pose proof (fresh_grant_new _ _ _ _ _ _ Hfresh) as Hnew1.
      destruct (tracker_inv_grant ty GRUB_EFI_LOADER_DATA pages lim 0 st
                  Hinv Hnew1) as (Hinv1 & _ & _).
      apply tracker_inv_free; [|exact Hzero].
      apply tracker_inv_refused; [reflexivity|exact Hinv1].
    + rewrite free_pages_calls. cbn [fw_calls log_call]. intros Hfresh.
      do 2 apply fresh_grants_tail in Hfresh.
      pose proof (fresh_grant_new _ _ _ _ _ _ Hfresh) as Hnew1.
      destruct (tracker_inv_grant ty GRUB_EFI_LOADER_DATA pages lim 0 st
                  Hinv Hnew1) as (Hinv1 & _ & _).
      apply tracker_inv_free; [|exact Hzero].
      apply tracker_inv_refused; [reflexivity|exact Hinv1].
  - rewrite remember_pages_calls. cbn [fw_calls log_call]. intros Hfresh.
    apply fresh_grant_new in Hfresh.
    destruct (tracker_inv_grant ty GRUB_EFI_LOADER_DATA pages lim a1 st
                Hinv Hfresh) as (Hinv' & Hne & Hnew).
    apply tracker_inv_remember;
      [exact Hinv'|left; reflexivity|exact Hne|exact Hnew].
Qed.

(** *** Every call adds to the log *)


Lemma allocate_pages_extends (address pages : Z) (st : mm_state) :
  exists evs,
    fw_calls (snd (grub_efi_allocate_pages address pages st))
    = evs ++ fw_calls st.
Proof.
  unfold grub_efi_allocate_pages, call_allocate_pages.
  destruct (0x7fffffff <? address); [exists []; reflexivity|].
  destruct (fw_allocate_pages fw (fw_calls st) _ _ _ _) as [s1 a1].
  cbn [fst snd].
  destruct s1; cbn [snd]; try (eexists [_]; reflexivity).
  destruct (a1 =? 0).
  - cbn [fw_calls log_call].
    destruct (fw_allocate_pages fw _ _ _ _ _) as [s2 a2]. cbn [fst snd].
    destruct s2; cbn [snd];
      rewrite ?remember_pages_calls, free_pages_calls;
      eexists [_; _; _]; reflexivity.
  - rewrite remember_pages_calls. eexists [_]; reflexivity.
Qed.



Lemma allocate_pages_pointer (address pages : Z) (st : mm_state) :
  allocated_pages (snd (grub_efi_allocate_pages address pages st))
  = allocated_pages st.
Proof.
  unfold grub_efi_allocate_pages, call_allocate_pages.
  destruct (0x7fffffff <? address); [reflexivity|].
  destruct (fw_allocate_pages fw (fw_calls st) _ _ _ _) as [s1 a1].
  cbn [fst snd].
  destruct s1; cbn [snd]; try reflexivity.
  destruct (a1 =? 0).
  - cbn [fw_calls log_call].
    destruct (fw_allocate_pages fw _ _ _ _ _) as [s2 a2]. cbn [fst snd].
    destruct s2; cbn [snd];
      rewrite ?remember_pages_pointer, free_pages_pointer; reflexivity.
  - rewrite remember_pages_pointer. reflexivity.
Qed.



(** *** The translation leaves the allocation table and the log alone *)

Lemma same_tracker_refl (st : mm_state) : same_tracker st st.
Proof. repeat split. Qed.

Lemma same_tracker_trans (st1 st2 st3 : mm_state) :
  same_tracker st1 st2 -> same_tracker st2 st3 -> same_tracker st1 st3.
Proof. intros (A & B & C) (D & E & F). repeat split; congruence. Qed.

Lemma add_memory_region_tracker (start size type : Z) (st : mm_state) :
  same_tracker st (add_memory_region start size type st).
Proof.
  unfold add_memory_region.
  destruct (grub_e820_nr_map st =? E820_MAX); [repeat split|].
  destruct (_ && _); repeat split.
Qed.

Lemma translate_descriptor_tracker (d : grub_efi_memory_descriptor_t)
  (st : mm_state) :
  same_tracker st (translate_descriptor d st).
Proof.
  unfold translate_descriptor.
  destruct (md_type d); try apply add_memory_region_tracker;
    try apply same_tracker_refl.
  all: destruct (_ && _); [|apply add_memory_region_tracker].
  all: cbv zeta.
  all: destruct (md_physical_start d <? 0xA0000);
    destruct (_ <=? 0x100000);
    repeat first [ apply same_tracker_refl
                 | apply add_memory_region_tracker
                 | eapply same_tracker_trans;
                   [apply add_memory_region_tracker|] ].
Qed.

Lemma efi_map_loop_tracker (fuel : nat)
  (memory_map : Z -> grub_efi_memory_descriptor_t)
  (desc_size memory_map_size : Z) :
  forall off st st',
    efi_map_loop fuel memory_map desc_size memory_map_size off st = Some st' ->
    same_tracker st st'.
Proof.
  induction fuel as [|fuel IH]; intros off st st' H; cbn [efi_map_loop] in H.
  - discriminate H.
  - destruct (off <? memory_map_size).
    + eapply same_tracker_trans; [apply translate_descriptor_tracker|].
      exact (IH _ _ _ H).
    + inversion H. apply same_tracker_refl.
Qed.

Lemma e820_map_from_efi_map_tracker (fuel : nat)
  (memory_map : Z -> grub_efi_memory_descriptor_t)
  (desc_size memory_map_size : Z) (st st' : mm_state) :
  e820_map_from_efi_map fuel memory_map desc_size memory_map_size st
  = Some st' ->
  same_tracker st st'.
Proof.
  unfold e820_map_from_efi_map. intros H.
  apply efi_map_loop_tracker in H.
  eapply same_tracker_trans; [|exact H]. repeat split.
Qed.

(** With a stride above zero the loop ends: fuel above the size of the
    map is enough. *)
Lemma efi_map_loop_total (memory_map : Z -> grub_efi_memory_descriptor_t)
  (desc_size memory_map_size : Z) :
  0 < desc_size ->
  forall fuel off st,
    (Z.to_nat (memory_map_size - off) < fuel)%nat ->
    exists st',
      efi_map_loop fuel memory_map desc_size memory_map_size off st
      = Some st'.
Proof.
  intros Hstride. induction fuel as [|fuel IH]; intros off st Hfuel.
  - lia.
  - cbn [efi_map_loop].
    destruct (Z.ltb_spec off memory_map_size) as [Hlt|Hge].
    + apply IH. lia.
    + exists st. reflexivity.
Qed.

Lemma tracker_inv_same (st st' : mm_state) :
  same_tracker st st' -> tracker_inv st -> tracker_inv st'.
Proof.
  intros (Hp & Hm & Hl) [H1 H2 H3 H4 H5].
  constructor; unfold slots_distinct, slots_granted;
    rewrite ?Hp, ?Hm, ?Hl; assumption.
Qed.

(** *** A request for any address, on a table that has room *)

Lemma max_allocated_pages_value : MAX_ALLOCATED_PAGES = 256%nat.
Proof. reflexivity. Qed.

Lemma scan_slots_at_once (m : nat -> allocated_page) (key : Z) (i n : nat) :
  (0 < n)%nat -> ap_addr (m i) = key -> scan_slots m key i n = i.
Proof.
  intros Hn Hkey. destruct n as [|n]; [lia|].
  cbn [scan_slots]. rewrite Hkey, Z.eqb_refl. reflexivity.
Qed.

Lemma table_empty_free (address pages : Z) (st : mm_state) :
  table_empty st -> table_empty (grub_efi_free_pages address pages st).
Proof.
  intros He i Hi.
  destruct (free_pages_slots address pages st i) as [E|[E _]];
    rewrite E; [exact (He i Hi)|reflexivity].
Qed.

Lemma remember_pages_room (a p : Z) (st : mm_state) :
  allocated_pages st = 0 \/ table_empty st ->
  fst (remember_pages a p st) = grub_addr_t a
  /\ (allocated_pages st <> 0 -> table_single (snd (remember_pages a p st)) a p)
  /\ (table_empty st -> a = 0 -> table_empty (snd (remember_pages a p st))).
Proof.
  intros Hroom. unfold remember_pages.
  destruct (Z.eqb_spec (allocated_pages st) 0) as [Hnull|Hpresent].
  - cbn [fst snd]. split; [reflexivity|]. split; [contradiction|].
    intros He _. exact He.
  - destruct Hroom as [C|He]; [contradiction|].
    rewrite scan_slots_at_once;
      [|rewrite max_allocated_pages_value; lia
       |apply He; rewrite max_allocated_pages_value; lia].
    rewrite max_allocated_pages_value. cbn [Nat.eqb fst snd].
    split; [reflexivity|]. split.
    + intros _. split; [reflexivity|].
      intros i Hi. cbn [allocated_pages_mem set_allocated_pages_mem].
      unfold store_slot. destruct (Nat.eqb_spec i 0); [lia|].
      apply He. lia.
    + intros _ -> i Hi. cbn [allocated_pages_mem set_allocated_pages_mem].
      unfold store_slot. destruct (Nat.eqb i 0); [reflexivity|].
      exact (He i Hi).
Qed.

Lemma range_eqb_refl (r : Z * Z) : range_eqb r r = true.
Proof. unfold range_eqb. rewrite !Z.eqb_refl. reflexivity. Qed.

Lemma range_eqb_base (a b p q : Z) : a <> b -> range_eqb (a, p) (b, q) = false.
Proof.
  intros H. unfold range_eqb. cbn [fst snd].
  destruct (Z.eqb_spec a b); [contradiction|reflexivity].
Qed.

(** [grub_efi_allocate_pages 0 pages] on a table that is absent or empty,
    the firmware behaving: either the result is NULL and nothing stays
    granted, or the result is the fresh base now granted, recorded in
    slot 0 of a table that exists. *)
Lemma allocate_zero_spec (pages : Z) (st : mm_state) :
  let r := fst (grub_efi_allocate_pages 0 pages st) in
  let st' := snd (grub_efi_allocate_pages 0 pages st) in
  allocated_pages st = 0 \/ table_empty st ->
  fresh_grants (fw_calls st') = true ->
  grants_below_limit (fw_calls st') = true ->
  (r = 0
   /\ outstanding (fw_calls st') = outstanding (fw_calls st)
   /\ stray_frees (fw_calls st') = stray_frees (fw_calls st)
   /\ (table_empty st -> table_empty st'))
  \/
  (0 < r <= 0x7fffffff
   /\ ~ In r (unreleased (fw_calls st))
   /\ In r (unreleased (fw_calls st'))
   /\ outstanding (fw_calls st') = (r, pages) :: outstanding (fw_calls st)
   /\ stray_frees (fw_calls st') = stray_frees (fw_calls st)
   /\ (allocated_pages st <> 0 -> table_single st' r pages)).
Proof.
  cbv zeta. unfold grub_efi_allocate_pages, call_allocate_pages.
  change (0x7fffffff <? 0) with false. change (0 =? 0) with true. cbv iota.
  destruct (fw_allocate_pages fw (fw_calls st) _ _ pages 0x7fffffff)
    as [s1 a1].
  cbn [fst snd]. intros Hroom.
  destruct s1; cbn [fst snd];
    try (intros _ _; left; repeat split; try reflexivity;
         intros He; exact He).
  destruct (Z.eqb_spec a1 0) as [->|Hnz].
  - cbn [fw_calls log_call].
    destruct (fw_allocate_pages fw _ _ _ pages 0x7fffffff) as [s2 a2].
    cbn [fst snd].
    set (st3 := grub_efi_free_pages 0 pages _).
    assert (Hlog3 : fw_calls st3
              = FreePages 0 pages
                  :: AllocatePages GRUB_EFI_ALLOCATE_MAX_ADDRESS
                       GRUB_EFI_LOADER_DATA pages 0x7fffffff s2 a2
                  :: AllocatePages GRUB_EFI_ALLOCATE_MAX_ADDRESS
                       GRUB_EFI_LOADER_DATA pages 0x7fffffff
                       GRUB_EFI_SUCCESS 0
                  :: fw_calls st)
      by (subst st3; rewrite free_pages_calls; reflexivity).
    assert (Hptr3 : allocated_pages st3 = allocated_pages st)
      by (subst st3; rewrite free_pages_pointer; reflexivity).
    assert (Hroom3 : allocated_pages st3 = 0 \/ table_empty st3).
    { destruct Hroom as [H|H]; [left; congruence|right].
      subst st3. apply table_empty_free. exact H. }
    destruct s2; cbn [fst snd].
    + rewrite remember_pages_calls, Hlog3. intros Hfresh Hlim.
      apply fresh_grants_tail in Hfresh.
      apply grants_below_limit_tail in Hlim.
      pose proof (fresh_grant_new _ _ _ _ _ _ Hfresh) as Hnew.
      pose proof (grant_below_limit _ _ _ _ _ Hlim) as Hrange.
      cbn [unreleased] in Hnew.
      assert (Ha2 : a2 <> 0) by (intros ->; apply Hnew; left; reflexivity).
      destruct (remember_pages_room a2 pages st3 Hroom3)
        as (Hres & Hsingle & _).
      rewrite Hres, (grub_addr_t_small a2) by lia.
      right. split; [lia|]. split; [intros C; apply Hnew; right; exact C|].
      split; [cbn [unreleased]; apply in_in_remove;
              [exact Ha2|left; reflexivity]|].
      split; [|split].
      * cbn [outstanding remove_range].
        rewrite (range_eqb_base 0 a2) by congruence.
        rewrite range_eqb_refl. reflexivity.
      * cbn [stray_frees outstanding existsb].
        rewrite (range_eqb_base 0 a2) by congruence.
        rewrite range_eqb_refl. reflexivity.
      * intros Hp. apply Hsingle. congruence.
    + rewrite Hlog3. intros _ _. left. split; [reflexivity|].
      split; [|split].
      * cbn [outstanding remove_range]. rewrite range_eqb_refl. reflexivity.
      * cbn [stray_frees outstanding existsb]. rewrite range_eqb_refl.
        reflexivity.
      * intros He. subst st3. apply table_empty_free. exact He.
    + rewrite Hlog3. intros _ _. left. split; [reflexivity|].
      split; [|split].
      * cbn [outstanding remove_range]. rewrite range_eqb_refl. reflexivity.
      * cbn [stray_frees outstanding existsb]. rewrite range_eqb_refl.
        reflexivity.
      * intros He. subst st3. apply table_empty_free. exact He.
  - rewrite remember_pages_calls. cbn [fw_calls log_call].
    intros Hfresh Hlim.
    pose proof (fresh_grant_new _ _ _ _ _ _ Hfresh) as Hnew.
    pose proof (grant_below_limit _ _ _ _ _ Hlim) as Hrange.
    destruct (remember_pages_room a1 pages
                (log_call (AllocatePages GRUB_EFI_ALLOCATE_MAX_ADDRESS
                             GRUB_EFI_LOADER_DATA pages 0x7fffffff
                             GRUB_EFI_SUCCESS a1) st) Hroom)
      as (Hres & Hsingle & _).
    rewrite Hres, (grub_addr_t_small a1) by lia.
    right. split; [lia|]. split; [exact Hnew|].
    split; [left; reflexivity|].
    split; [reflexivity|]. split; [reflexivity|].
    exact Hsingle.
Qed.

(** *** Start of the memory manager *)

Lemma table_single_free (M n : Z) (st : mm_state) :
  tracker_inv st -> M <> 0 -> M <> allocated_pages st ->
  table_single st M n ->
  table_empty (grub_efi_free_pages M n st).
Proof.
  intros Hinv HM Hne [H0 Hrest] i Hi.
  destruct (free_pages_slots M n st i) as [E|[E _]]; [|exact E].
  destruct (Nat.eq_dec i 0) as [->|Hi0].
  - destruct (Z.eq_dec
                (ap_addr (allocated_pages_mem (grub_efi_free_pages M n st)
                            0%nat)) 0) as [Hz|Hnz]; [exact Hz|].
    exfalso.
    apply (free_pages_clears M n st (inv_present _ Hinv) Hne
             (inv_distinct _ Hinv) 0%nat Hi Hnz).
    rewrite E, H0. reflexivity.
  - rewrite E. apply Hrest. lia.
Qed.

Lemma wrap64_address (x : Z) : 0 <= x <= 0x7fffffff -> wrap64 x = x.
Proof. intros H. apply wrap64_small. lia. Qed.

(** [update_e820_map] started on an empty allocation table. *)
Lemma update_e820_map_outcome (fuel : nat) (st st1 : mm_state) :
  tracker_inv st -> table_empty st ->
  update_e820_map fuel st = Some st1 ->
  fresh_grants (fw_calls st1) = true ->
  grants_below_limit (fw_calls st1) = true ->
  tracker_inv st1
  /\ allocated_pages st1 = allocated_pages st
  /\ stray_frees (fw_calls st1) = stray_frees (fw_calls st)
  /\ ((table_empty st1
       /\ outstanding (fw_calls st1) = outstanding (fw_calls st))
      \/
      (exists M,
         0 < M <= 0x7fffffff
         /\ M <> allocated_pages st
         /\ table_single st1 M (BYTES_TO_PAGES MEMORY_MAP_SIZE)
         /\ outstanding (fw_calls st1)
            = (M, BYTES_TO_PAGES MEMORY_MAP_SIZE)
                :: outstanding (fw_calls st))).
Proof.
  intros Hinv Hempty. unfold update_e820_map.
  pose proof (allocate_zero_spec (BYTES_TO_PAGES MEMORY_MAP_SIZE) st) as Hspec.
  pose proof (tracker_inv_allocate_pages 0 (BYTES_TO_PAGES MEMORY_MAP_SIZE) st
                Hinv) as Hkeep.
  pose proof (allocate_pages_pointer 0 (BYTES_TO_PAGES MEMORY_MAP_SIZE) st)
    as Hptr.
  cbv zeta in Hspec.
  destruct (grub_efi_allocate_pages 0 (BYTES_TO_PAGES MEMORY_MAP_SIZE) st)
    as [M sA].
  cbn [fst snd] in *.
  specialize (Hspec (or_intror Hempty)).
  destruct (Z.eqb_spec M 0) as [HM0|HMnz].
  - intros H Hfresh Hlim. inversion H; subst st1; clear H.
    cbn [fw_calls grub_printf] in *.
    specialize (Hkeep Hfresh).
    destruct (Hspec Hfresh Hlim) as [(_ & Hout & Hstray & He)|(C & _)];
      [|lia].
    split; [apply tracker_inv_printf; exact Hkeep|].
    split; [exact Hptr|]. split; [exact Hstray|].
    left. split; [exact (He Hempty)|exact Hout].
  - unfold grub_efi_get_memory_map, call_get_memory_map.
    set (reply := fw_get_memory_map fw (fw_calls sA) MEMORY_MAP_SIZE M).
    set (sB := log_call (GetMemoryMap MEMORY_MAP_SIZE M (mm_status reply)) sA).
    assert (Hafter :
      fresh_grants (fw_calls sA) = true ->
      grants_below_limit (fw_calls sA) = true ->
      tracker_inv sB
      /\ 0 < M <= 0x7fffffff /\ M <> allocated_pages st
      /\ table_single sB M (BYTES_TO_PAGES MEMORY_MAP_SIZE)
      /\ outstanding (fw_calls sB)
         = (M, BYTES_TO_PAGES MEMORY_MAP_SIZE) :: outstanding (fw_calls st)
      /\ stray_frees (fw_calls sB) = stray_frees (fw_calls st)).
    { intros Hfresh Hlim. specialize (Hkeep Hfresh).
      destruct (Hspec Hfresh Hlim)
        as [(C & _)|(HM & Hnew & _ & Hout & Hstray & Hsingle)];
        [contradiction|].
      split; [apply tracker_inv_refused; [reflexivity|exact Hkeep]|].
      split; [exact HM|].
      split; [intros C; apply Hnew; rewrite C; exact (inv_storage _ Hinv)|].
      split; [exact (Hsingle (inv_present _ Hinv))|].
      split; [exact Hout|exact Hstray]. }
    destruct (mm_status reply) eqn:Hstatus; cbn [Z.ltb Z.compare].
    3: { intros H Hfresh Hlim. inversion H; subst st1; clear H.
         cbn [fw_calls grub_printf] in *.
         destruct (Hafter (fresh_grants_tail _ _ Hfresh)
                          (grants_below_limit_tail _ _ Hlim))
           as (HinvB & HM & Hne & Hsingle & Hout & Hstray).
         split; [apply tracker_inv_printf; exact HinvB|].
         split; [exact Hptr|]. split; [exact Hstray|].
         right. exists M. split; [exact HM|]. split; [exact Hne|].
         split; [exact Hsingle|exact Hout]. }
    all: destruct (e820_map_from_efi_map fuel (mm_buffer reply)
                     (mm_desc_size reply) (mm_map_size reply) sB)
           as [sC|] eqn:Hrun; [|discriminate].
    all: apply e820_map_from_efi_map_tracker in Hrun.
    all: destruct Hrun as (HpC & HmC & HlC).
    all: intros H Hfresh Hlim; inversion H; subst st1; clear H.
    all: rewrite free_pages_calls, HlC in Hfresh, Hlim |- *.
    all: cbn [fw_calls log_call] in Hfresh, Hlim.
    all: destruct (Hafter (fresh_grants_tail _ _ (fresh_grants_tail _ _ Hfresh))
                     (grants_below_limit_tail _ _
                        (grants_below_limit_tail _ _ Hlim)))
           as (HinvB & HM & Hne & Hsingle & Hout & Hstray).
    all: rewrite (grub_addr_t_small M) by lia.
    all: assert (HinvC : tracker_inv sC)
           by (apply (tracker_inv_same sB); [repeat split; assumption
                                            |exact HinvB]).
    all: assert (HneC : M <> allocated_pages sC)
           by (rewrite HpC; unfold sB; cbn [allocated_pages log_call];
               rewrite Hptr; exact Hne).
    all: split; [apply tracker_inv_free; assumption|].
    all: split; [rewrite free_pages_pointer, HpC; unfold sB;
                 cbn [allocated_pages log_call]; exact Hptr|].
    all: cbn [fw_calls log_call stray_frees outstanding existsb] in *.
    all: rewrite Hout; cbn [existsb remove_range];
         rewrite range_eqb_refl; cbn [orb].
    all: split; [exact Hstray|].
    all: left; split; [|reflexivity].
    all: apply table_single_free; [exact HinvC|lia|exact HneC|].
    all: destruct Hsingle as [H0 Hrest]; split; rewrite HmC; assumption.
Qed.

Lemma update_e820_map_extends (fuel : nat) (st st1 : mm_state) :
  update_e820_map fuel st = Some st1 ->
  exists evs, fw_calls st1 = evs ++ fw_calls st.
Proof.
  unfold update_e820_map.
  destruct (allocate_pages_extends 0 (BYTES_TO_PAGES MEMORY_MAP_SIZE) st)
    as [evs Hevs].
  destruct (grub_efi_allocate_pages 0 (BYTES_TO_PAGES MEMORY_MAP_SIZE) st)
    as [M sA].
  cbn [snd] in Hevs.
  destruct (M =? 0).
  - intros H; inversion H. exists evs. exact Hevs.
  - unfold grub_efi_get_memory_map, call_get_memory_map.
    set (reply := fw_get_memory_map fw (fw_calls sA) MEMORY_MAP_SIZE M).
    destruct (mm_status reply); cbn [Z.ltb Z.compare].
    3: { intros H; inversion H. cbn [fw_calls grub_printf log_call].
         rewrite Hevs. eexists (_ :: evs). reflexivity. }
    all: destruct (e820_map_from_efi_map _ _ _ _ _) as [sC|] eqn:Hrun;
      [|discriminate].
    all: apply e820_map_from_efi_map_tracker in Hrun.
    all: destruct Hrun as (_ & _ & HlC).
    all: intros H; inversion H.
    all: rewrite free_pages_calls, HlC; cbn [fw_calls log_call].
    all: rewrite Hevs; eexists (_ :: _ :: evs); reflexivity.
Qed.

(** What [grub_efi_mm_init] leaves behind when the firmware behaves:
    no table and nothing granted; or a table that is empty, its page the
    only range granted; or a table whose single record is the buffer of
    the memory map, left allocated because the map could not be read. *)
Lemma init_outcome (fuel : nat) (st0 st1 : mm_state) :
  allocated_pages st0 = 0 -> fw_calls st0 = [] ->
  grub_efi_mm_init fuel st0 = Some st1 ->
  fresh_grants (fw_calls st1) = true ->
  grants_below_limit (fw_calls st1) = true ->
  (allocated_pages st1 = 0
   /\ outstanding (fw_calls st1) = []
   /\ stray_frees (fw_calls st1) = [])
  \/
  (0 < allocated_pages st1 <= 0x7fffffff
   /\ tracker_inv st1
   /\ stray_frees (fw_calls st1) = []
   /\ ((table_empty st1
        /\ outstanding (fw_calls st1)
           = [(allocated_pages st1, BYTES_TO_PAGES ALLOCATED_PAGES_SIZE)])
       \/
       (exists M,
          0 < M <= 0x7fffffff
          /\ M <> allocated_pages st1
          /\ table_single st1 M (BYTES_TO_PAGES MEMORY_MAP_SIZE)
          /\ outstanding (fw_calls st1)
             = [(M, BYTES_TO_PAGES MEMORY_MAP_SIZE);
                (allocated_pages st1,
                 BYTES_TO_PAGES ALLOCATED_PAGES_SIZE)]))).
Proof.
  intros Hnull Hlog0. unfold grub_efi_mm_init.
  pose proof (allocate_zero_spec (BYTES_TO_PAGES ALLOCATED_PAGES_SIZE) st0)
    as Hspec.
  cbv zeta in Hspec.
  destruct (grub_efi_allocate_pages 0 (BYTES_TO_PAGES ALLOCATED_PAGES_SIZE)
              st0) as [p sT].
  cbn [fst snd] in Hspec. specialize (Hspec (or_introl Hnull)).
  rewrite Hlog0 in Hspec. cbn [outstanding stray_frees unreleased] in Hspec.
  destruct (Z.eqb_spec p 0) as [Hp0|Hpnz].
  - intros H Hfresh Hlim. inversion H; subst st1; clear H.
    cbn [fw_calls grub_printf set_allocated_pages allocated_pages] in *.
    destruct (Hspec Hfresh Hlim) as [(_ & Hout & Hstray & _)|(C & _)];
      [|lia].
    left. split; [exact Hp0|]. split; assumption.
  - set (sZ := set_allocated_pages_mem (fun _ => zero_page)
                 (set_allocated_pages p sT)).
    intros Hrun Hfresh Hlim.
    destruct (update_e820_map_extends fuel sZ st1 Hrun) as [evs Hevs].
    assert (HfreshT : fresh_grants (fw_calls sT) = true).
    { rewrite Hevs in Hfresh. exact (fresh_grants_app _ _ Hfresh). }
    assert (HlimT : grants_below_limit (fw_calls sT) = true).
    { rewrite Hevs in Hlim. exact (grants_below_limit_app _ _ Hlim). }
    destruct (Hspec HfreshT HlimT)
      as [(C & _)|(Hp & _ & Hin & Hout & Hstray & _)]; [contradiction|].
    assert (HinvZ : tracker_inv sZ).
    { constructor; unfold slots_distinct, slots_granted; subst sZ;
        cbn [allocated_pages allocated_pages_mem fw_calls
             set_allocated_pages_mem set_allocated_pages zero_page ap_addr].
      - exact Hpnz.
      - exact Hin.
      - intros i _. congruence.
      - intros i j _ _ C. contradiction.
      - intros i _ C. contradiction. }
    assert (HemptyZ : table_empty sZ) by (intros i _; reflexivity).
    destruct (update_e820_map_outcome fuel sZ st1 HinvZ HemptyZ Hrun
                Hfresh Hlim) as (Hinv1 & Hptr1 & Hstray1 & Hcases).
    assert (HT : allocated_pages st1 = p) by (rewrite Hptr1; reflexivity).
    right. rewrite HT. split; [exact Hp|]. split; [exact Hinv1|].
    split; [rewrite Hstray1; exact Hstray|].
    destruct Hcases as [(He & Ho)|(M & HM & Hne & Hs & Ho)].
    + left. split; [exact He|]. rewrite Ho. exact Hout.
    + right. exists M. split; [exact HM|]. split; [exact Hne|].
      split; [exact Hs|]. rewrite Ho.
      change (fw_calls sZ) with (fw_calls sT). rewrite Hout. reflexivity.
Qed.

(** *** End of the memory manager *)

Lemma fini_loop_empty (n i : nat) (st : mm_state) :
  (forall j, (i <= j < i + n)%nat -> ap_addr (allocated_pages_mem st j) = 0) ->
  fini_loop n i st = st.
Proof.
  revert i. induction n as [|n IH]; intros i H; cbn [fini_loop].
  - reflexivity.
  - rewrite (H i) by lia. cbn [Z.eqb]. apply IH.
    intros j Hj. apply H. lia.
Qed.

Lemma grub_efi_uintn_t_small (x : Z) :
  0 <= x <= 0x7fffffff -> grub_efi_uintn_t x = x.
Proof. exact (grub_addr_t_small x). Qed.

Lemma free_pages_own (pages : Z) (st : mm_state) :
  grub_efi_free_pages (allocated_pages st) pages st
  = call_free_pages (allocated_pages st) pages st.
Proof.
  unfold grub_efi_free_pages. rewrite Z.eqb_refl.
  cbn [negb]. rewrite andb_false_r. reflexivity.
Qed.

Lemma fini_empty (st : mm_state) :
  0 < allocated_pages st <= 0x7fffffff -> table_empty st ->
  grub_efi_mm_fini st
  = call_free_pages (allocated_pages st)
                    (BYTES_TO_PAGES ALLOCATED_PAGES_SIZE) st.
Proof.
  intros HT He. unfold grub_efi_mm_fini.
  destruct (Z.eqb_spec (allocated_pages st) 0) as [C|_]; [lia|].
  rewrite fini_loop_empty by (intros j Hj; apply He; lia).
  rewrite grub_addr_t_small, wrap64_address by lia.
  apply free_pages_own.
Qed.

Lemma max_allocated_pages_succ :
  MAX_ALLOCATED_PAGES = S (Nat.pred MAX_ALLOCATED_PAGES).
Proof. reflexivity. Qed.

Lemma fini_loop_step (n i : nat) (st : mm_state) :
  fini_loop (S n) i st
  = fini_loop n (S i)
      (if ap_addr (allocated_pages_mem st i) =? 0 then st
       else grub_efi_free_pages
              (wrap64 (grub_addr_t (ap_addr (allocated_pages_mem st i))))
              (grub_efi_uintn_t (ap_num_pages (allocated_pages_mem st i)))
              st).
Proof. reflexivity. Qed.

Lemma fini_single (M n : Z) (st : mm_state) :
  tracker_inv st ->
  0 < allocated_pages st <= 0x7fffffff ->
  0 < M <= 0x7fffffff -> M <> allocated_pages st ->
  0 <= n <= 0x7fffffff ->
  table_single st M n ->
  grub_efi_mm_fini st
  = call_free_pages (allocated_pages st)
      (BYTES_TO_PAGES ALLOCATED_PAGES_SIZE)
      (grub_efi_free_pages M n st)
  /\ table_empty (grub_efi_free_pages M n st).
Proof.
  intros Hinv HT HM Hne Hn Hsingle.
  assert (Hempty : table_empty (grub_efi_free_pages M n st))
    by (apply table_single_free; [exact Hinv|lia|exact Hne|exact Hsingle]).
  split; [|exact Hempty].
  assert (Hloop : fini_loop MAX_ALLOCATED_PAGES 0 st
                  = grub_efi_free_pages M n st).
  { rewrite max_allocated_pages_succ, fini_loop_step.
    destruct Hsingle as [H0 _]. rewrite H0. cbn [ap_addr ap_num_pages].
    destruct (Z.eqb_spec M 0) as [C|_]; [lia|].
    rewrite (grub_addr_t_small M), (wrap64_address M),
      (grub_efi_uintn_t_small n) by lia.
    apply fini_loop_empty.
    intros j Hj. apply Hempty. rewrite max_allocated_pages_succ. lia. }
  unfold grub_efi_mm_fini.
  destruct (Z.eqb_spec (allocated_pages st) 0) as [C|_]; [lia|].
  rewrite Hloop, free_pages_pointer.
  rewrite grub_addr_t_small, wrap64_address by lia.
  rewrite <- (free_pages_pointer M n st) at 1 2.
  apply free_pages_own.
Qed.

Lemma fini_loop_extends (n : nat) :
  forall i st, exists evs, fw_calls (fini_loop n i st) = evs ++ fw_calls st.
Proof.
  induction n as [|n IH]; intros i st; cbn [fini_loop].
  - exists []. reflexivity.
  - destruct (ap_addr (allocated_pages_mem st i) =? 0); [apply IH|].
    match goal with
    | |- context [fini_loop n (S i) ?s] => destruct (IH (S i) s) as [evs H]
    end.
    rewrite H, free_pages_calls. eexists (evs ++ [_]).
    rewrite <- app_assoc. reflexivity.
Qed.

Lemma fini_extends (st : mm_state) :
  exists evs, fw_calls (grub_efi_mm_fini st) = evs ++ fw_calls st.
Proof.
  unfold grub_efi_mm_fini.
  destruct (allocated_pages st =? 0); [exists []; reflexivity|].
  destruct (fini_loop_extends MAX_ALLOCATED_PAGES 0 st) as [evs H].
  rewrite free_pages_calls, H. eexists (_ :: evs). reflexivity.
Qed.

Lemma update_e820_map_total (st : mm_state) :
  (forall log size buffer,
     mm_status (fw_get_memory_map fw log size buffer)
     <> GRUB_EFI_OTHER_STATUS ->
     0 < mm_desc_size (fw_get_memory_map fw log size buffer)) ->
  exists fuel st1, update_e820_map fuel st = Some st1.
Proof.
  intros Hstride. unfold update_e820_map.
  destruct (grub_efi_allocate_pages 0 (BYTES_TO_PAGES MEMORY_MAP_SIZE) st)
    as [M sA].
  destruct (M =? 0); [exists 0%nat; eexists; reflexivity|].
  unfold grub_efi_get_memory_map, call_get_memory_map.
  specialize (Hstride (fw_calls sA) MEMORY_MAP_SIZE M).
  set (reply := fw_get_memory_map fw (fw_calls sA) MEMORY_MAP_SIZE M) in *.
  set (sB := log_call (GetMemoryMap MEMORY_MAP_SIZE M (mm_status reply)) sA).
  exists (S (Z.to_nat (mm_map_size reply - 0))).
  destruct (mm_status reply) eqn:Hstatus; cbn [Z.ltb Z.compare];
    try (eexists; reflexivity).
  all: destruct (efi_map_loop_total (mm_buffer reply) (mm_desc_size reply)
                   (mm_map_size reply) (Hstride ltac:(discriminate))
                   (S (Z.to_nat (mm_map_size reply - 0))) 0
                   (set_e820_nr_map 0 sB) ltac:(lia)) as [sC HsC].
  all: unfold e820_map_from_efi_map; rewrite HsC; eexists; reflexivity.
Qed.

(** C8: [grub_efi_mm_init] followed at once by [grub_efi_mm_fini], from the
    state the program is loaded in.  The start returns when the firmware
    reports a stride above zero with every map it does not refuse.  When the firmware grants fresh bases
    and keeps to the address limit, the log of the two calls is balanced:
    every range the firmware granted was passed to free-pages once, with
    its base and page count, and no free-pages call named anything else.
    When the table was set up, every slot is free at the end and the
    newest call frees the page of the table itself. *)
Theorem init_then_fini_releases_everything (st0 : mm_state) :
  allocated_pages st0 = 0 ->
  fw_calls st0 = [] ->
  ((forall log size buffer,
      mm_status (fw_get_memory_map fw log size buffer)
      <> GRUB_EFI_OTHER_STATUS ->
      0 < mm_desc_size (fw_get_memory_map fw log size buffer)) ->
   exists fuel st1, grub_efi_mm_init fuel st0 = Some st1)
  /\
  (forall fuel st1,
     grub_efi_mm_init fuel st0 = Some st1 ->
     let st2 := grub_efi_mm_fini st1 in
     fresh_grants (fw_calls st2) = true ->
     grants_below_limit (fw_calls st2) = true ->
     outstanding (fw_calls st2) = []
     /\ stray_frees (fw_calls st2) = []
     /\ (allocated_pages st1 <> 0 ->
         table_empty st2
         /\ exists log,
              fw_calls st2
              = FreePages (allocated_pages st1)
                          (BYTES_TO_PAGES ALLOCATED_PAGES_SIZE) :: log)).
Proof.
  intros Hnull Hlog0. split.
  - intros Hstride. unfold grub_efi_mm_init.
    destruct (grub_efi_allocate_pages 0 (BYTES_TO_PAGES ALLOCATED_PAGES_SIZE)
                st0) as [p sT].
    destruct (p =? 0); [exists 0%nat; eexists; reflexivity|].
    apply update_e820_map_total. exact Hstride.
  - intros fuel st1 Hinit st2 Hfresh Hlim.
    destruct (fini_extends st1) as [evs Hevs]. fold st2 in Hevs.
    assert (Hfresh1 : fresh_grants (fw_calls st1) = true)
      by (rewrite Hevs in Hfresh; exact (fresh_grants_app _ _ Hfresh)).
    assert (Hlim1 : grants_below_limit (fw_calls st1) = true)
      by (rewrite Hevs in Hlim; exact (grants_below_limit_app _ _ Hlim)).
    destruct (init_outcome fuel st0 st1 Hnull Hlog0 Hinit Hfresh1 Hlim1)
      as [(Hp & Hout & Hstray)
         |(HT & Hinv & Hstray & [(He & Hout)|(M & HM & Hne & Hs & Hout)])].
    + assert (Hst2 : st2 = st1)
        by (subst st2; unfold grub_efi_mm_fini; rewrite Hp; reflexivity).
      rewrite Hst2. split; [exact Hout|]. split; [exact Hstray|].
      intros C; contradiction.
    + assert (Hst2 : st2 = call_free_pages (allocated_pages st1)
                             (BYTES_TO_PAGES ALLOCATED_PAGES_SIZE) st1)
        by (subst st2; apply fini_empty; assumption).
      rewrite Hst2.
      cbn [fw_calls call_free_pages log_call outstanding stray_frees].
      rewrite Hout. cbn [remove_range existsb].
      rewrite range_eqb_refl. cbn [orb].
      split; [reflexivity|]. split; [exact Hstray|].
      intros _. split; [exact He|]. eexists; reflexivity.
    + assert (Hpages : 0 <= BYTES_TO_PAGES MEMORY_MAP_SIZE <= 0x7fffffff)
        by (split; discriminate).
      destruct (fini_single M (BYTES_TO_PAGES MEMORY_MAP_SIZE) st1 Hinv HT HM
                  Hne Hpages Hs) as [Hst2 Hempty].
      fold st2 in Hst2. rewrite Hst2.
      cbn [fw_calls call_free_pages log_call outstanding stray_frees
           allocated_pages_mem].
      rewrite free_pages_calls.
      cbn [outstanding stray_frees]. rewrite Hout.
      cbn [remove_range existsb]. rewrite !range_eqb_refl.
      cbn [orb remove_range existsb]. rewrite range_eqb_refl. cbn [orb].
      split; [reflexivity|]. split; [exact Hstray|].
      intros _. split; [exact Hempty|]. eexists; reflexivity.
Qed.

(** *** Any run of calls after the start *)





(** ** Further properties *)

(** *** Insertion into and removal from the allocation table *)

Lemma scan_slots_least (m : nat -> allocated_page) (key : Z) (n i k : nat) :
  (i <= k < i + n)%nat -> ap_addr (m k) = key ->
  (forall j, (i <= j < k)%nat -> ap_addr (m j) <> key) ->
  scan_slots m key i n = k.
Proof.
  revert i. induction n as [|n IH]; intros i Hk Hkey Hbefore; [lia|].
  cbn [scan_slots].
  destruct (Z.eqb_spec (ap_addr (m i)) key) as [E|E].
  - destruct (Nat.eq_dec i k) as [->|Hne]; [reflexivity|].
    exfalso. apply (Hbefore i); [lia|exact E].
  - destruct (Nat.eq_dec i k) as [->|Hne]; [contradiction|].
    apply IH; [lia|exact Hkey|]. intros j Hj. apply Hbefore. lia.
Qed.

Lemma scan_slots_found (m : nat -> allocated_page) (key : Z) (n i : nat) :
  (exists k, (i <= k < i + n)%nat /\ ap_addr (m k) = key) ->
  (scan_slots m key i n < i + n)%nat.
Proof.
  intros (k & Hk & Hkey).
  pose proof (scan_slots_range m key n i) as Hrange.
  destruct (Nat.eq_dec (scan_slots m key i n) (i + n)) as [E|E]; [|lia].
  exfalso. apply (scan_slots_before m key n i k); [lia|exact Hkey].
Qed.

(** The least index of a slot that holds [key], when there is one. *)
Lemma scan_slots_spec (m : nat -> allocated_page) (key : Z) :
  (exists k, (k < MAX_ALLOCATED_PAGES)%nat /\ ap_addr (m k) = key) ->
  let k := scan_slots m key 0 MAX_ALLOCATED_PAGES in
  (k < MAX_ALLOCATED_PAGES)%nat
  /\ ap_addr (m k) = key
  /\ forall j, (j < k)%nat -> ap_addr (m j) <> key.
Proof.
  intros (k0 & Hk0 & Hkey) k.
  assert (Hlt : (k < 0 + MAX_ALLOCATED_PAGES)%nat)
    by (apply scan_slots_found; exists k0; split; [lia|exact Hkey]).
  split; [lia|]. split.
  - apply scan_slots_hit. exact Hlt.
  - intros j Hj. apply (scan_slots_before m key MAX_ALLOCATED_PAGES 0%nat).
    fold k. lia.
Qed.

Lemma remember_pages_first_free (a p : Z) (st : mm_state) :
  allocated_pages st <> 0 ->
  (exists i, (i < MAX_ALLOCATED_PAGES)%nat
             /\ ap_addr (allocated_pages_mem st i) = 0) ->
  remember_pages a p st
  = (grub_addr_t a,
     set_allocated_pages_mem
       (store_slot (scan_slots (allocated_pages_mem st) 0 0
                               MAX_ALLOCATED_PAGES)
                   (mk_allocated_page a p) (allocated_pages_mem st)) st).
Proof.
  intros Hp Hfree. unfold remember_pages.
  destruct (Z.eqb_spec (allocated_pages st) 0) as [C|_]; [contradiction|].
  destruct (scan_slots_spec (allocated_pages_mem st) 0 Hfree) as (Hk & _ & _).
  destruct (Nat.eqb_spec (scan_slots (allocated_pages_mem st) 0 0
                                     MAX_ALLOCATED_PAGES)
                         MAX_ALLOCATED_PAGES) as [E|_]; [lia|].
  reflexivity.
Qed.

(** X1: an allocation the firmware grants, on a table that exists and has
    a free slot.  The range is recorded in the free slot of least index,
    every other slot is left as it was, no message is printed and the
    result is the granted base at the width of a pointer.  This holds of
    [grub_efi_allocate_anypages] and of [grub_efi_allocate_pages] when
    the grant is not page 0. *)
Theorem allocation_takes_first_free_slot (pages : Z) (st : mm_state) :
  allocated_pages st <> 0 ->
  (exists i, (i < MAX_ALLOCATED_PAGES)%nat
             /\ ap_addr (allocated_pages_mem st i) = 0) ->
  exists k,
    (k < MAX_ALLOCATED_PAGES)%nat
    /\ ap_addr (allocated_pages_mem st k) = 0
    /\ (forall j, (j < k)%nat -> ap_addr (allocated_pages_mem st j) <> 0)
    /\ (forall a,
          fw_allocate_pages fw (fw_calls st) GRUB_EFI_ALLOCATE_ANY_PAGES
            GRUB_EFI_LOADER_DATA pages 0 = (GRUB_EFI_SUCCESS, a) ->
          grub_efi_allocate_anypages pages st
          = (grub_addr_t a,
             set_allocated_pages_mem
               (store_slot k (mk_allocated_page a pages)
                           (allocated_pages_mem st))
               (log_call (AllocatePages GRUB_EFI_ALLOCATE_ANY_PAGES
                            GRUB_EFI_LOADER_DATA pages 0 GRUB_EFI_SUCCESS a)
                         st)))
    /\ (forall address a,
          address <= 0x7fffffff ->
          let type := if address =? 0 then GRUB_EFI_ALLOCATE_MAX_ADDRESS
                      else GRUB_EFI_ALLOCATE_ADDRESS in
          let limit := if address =? 0 then 0x7fffffff else address in
          fw_allocate_pages fw (fw_calls st) type GRUB_EFI_LOADER_DATA
            pages limit = (GRUB_EFI_SUCCESS, a) ->
          a <> 0 ->
          grub_efi_allocate_pages address pages st
          = (grub_addr_t a,
             set_allocated_pages_mem
               (store_slot k (mk_allocated_page a pages)
                           (allocated_pages_mem st))
               (log_call (AllocatePages type GRUB_EFI_LOADER_DATA pages limit
                            GRUB_EFI_SUCCESS a) st))).
Proof.
  intros Hp Hfree.
  destruct (scan_slots_spec (allocated_pages_mem st) 0 Hfree)
    as (Hk & Hzero & Hbefore).
  exists (scan_slots (allocated_pages_mem st) 0 0 MAX_ALLOCATED_PAGES).
  split; [exact Hk|]. split; [exact Hzero|]. split; [exact Hbefore|].
  split.
  - intros a Ha. unfold grub_efi_allocate_anypages, call_allocate_pages.
    rewrite Ha. cbn [fst snd].
    rewrite remember_pages_first_free; [reflexivity|exact Hp|exact Hfree].
  - intros address a Hle type limit Ha Hnz.
    unfold grub_efi_allocate_pages, call_allocate_pages.
    destruct (Z.ltb_spec 0x7fffffff address) as [C|_]; [lia|].
    fold type limit. rewrite Ha. cbn [fst snd].
    destruct (Z.eqb_spec a 0) as [C|_]; [contradiction|].
    rewrite remember_pages_first_free; [reflexivity|exact Hp|exact Hfree].
Qed.

(** X2: what [grub_efi_free_pages] does to the table.  Without a table,
    or for the address of the table itself, or for an address no slot
    holds, the table is left as it was.  Otherwise the slot of least
    index that holds the address has its base set to 0 and keeps its
    page count, and every other slot, one holding the same address
    included, is left as it was.  In every case the firmware is called
    once, with the address and the page count given. *)
Theorem free_pages_clears_first_match (address pages : Z) (st : mm_state) :
  (allocated_pages st = 0 \/ address = allocated_pages st ->
   allocated_pages_mem (grub_efi_free_pages address pages st)
   = allocated_pages_mem st)
  /\
  ((forall i, (i < MAX_ALLOCATED_PAGES)%nat ->
              ap_addr (allocated_pages_mem st i) <> address) ->
   allocated_pages_mem (grub_efi_free_pages address pages st)
   = allocated_pages_mem st)
  /\
  (forall k,
     allocated_pages st <> 0 -> address <> allocated_pages st ->
     (k < MAX_ALLOCATED_PAGES)%nat ->
     ap_addr (allocated_pages_mem st k) = address ->
     (forall j, (j < k)%nat ->
                ap_addr (allocated_pages_mem st j) <> address) ->
     allocated_pages_mem (grub_efi_free_pages address pages st)
     = store_slot k
         (mk_allocated_page 0 (ap_num_pages (allocated_pages_mem st k)))
         (allocated_pages_mem st))
  /\ fw_calls (grub_efi_free_pages address pages st)
     = FreePages address pages :: fw_calls st
  /\ allocated_pages (grub_efi_free_pages address pages st)
     = allocated_pages st.
Proof.
  split; [|split; [|split; [|split]]].
  - intros H. unfold grub_efi_free_pages.
    destruct (Z.eqb_spec (allocated_pages st) 0) as [E0|E0];
      [reflexivity|].
    destruct H as [H|H]; [contradiction|].
    destruct (Z.eqb_spec (allocated_pages st) address) as [E1|E1];
      [reflexivity|congruence].
  - intros Hnone. unfold grub_efi_free_pages.
    destruct (negb _ && negb _); [|reflexivity].
    rewrite scan_slots_none by (intros j Hj; apply Hnone; lia).
    rewrite Nat.add_0_l, Nat.ltb_irrefl. reflexivity.
  - intros k Hp Hne Hk Hkey Hbefore. unfold grub_efi_free_pages.
    destruct (Z.eqb_spec (allocated_pages st) 0) as [C|_]; [contradiction|].
    destruct (Z.eqb_spec (allocated_pages st) address) as [C|_];
      [congruence|].
    cbn [negb andb].
    rewrite (scan_slots_least _ _ MAX_ALLOCATED_PAGES 0%nat k)
      by (try lia; try exact Hkey; intros j Hj; apply Hbefore; lia).
    destruct (Nat.ltb_spec k MAX_ALLOCATED_PAGES) as [_|C]; [|lia].
    reflexivity.
  - apply free_pages_calls.
  - apply free_pages_pointer.
Qed.

Lemma free_pages_table (address pages : Z) (st : mm_state) :
  allocated_pages_mem (grub_efi_free_pages address pages st)
  = (if negb (allocated_pages st =? 0)
        && negb (allocated_pages st =? address)
     then
       let k := scan_slots (allocated_pages_mem st) address 0
                           MAX_ALLOCATED_PAGES in
       if Nat.ltb k MAX_ALLOCATED_PAGES
       then store_slot k
              (mk_allocated_page 0
                 (ap_num_pages (allocated_pages_mem st k)))
              (allocated_pages_mem st)
       else allocated_pages_mem st
     else allocated_pages_mem st).
Proof.
  unfold grub_efi_free_pages.
  destruct (negb _ && negb _); [|reflexivity].
  cbv zeta. destruct (Nat.ltb _ _); reflexivity.
Qed.

(** X3: allocation followed by the release of what was granted.  When
    the firmware grants [grub_efi_allocate_anypages] a base that no slot
    in use records and that is not the address of the table, freeing
    that base afterwards leaves every slot with the base it had before
    the allocation, whether the table is absent, full or has room. *)
Theorem allocate_then_free_restores_bases (pages a : Z) (st : mm_state) :
  fw_allocate_pages fw (fw_calls st) GRUB_EFI_ALLOCATE_ANY_PAGES
    GRUB_EFI_LOADER_DATA pages 0 = (GRUB_EFI_SUCCESS, a) ->
  a <> allocated_pages st ->
  (forall i, (i < MAX_ALLOCATED_PAGES)%nat ->
             ap_addr (allocated_pages_mem st i) <> 0 ->
             ap_addr (allocated_pages_mem st i) <> a) ->
  forall i, (i < MAX_ALLOCATED_PAGES)%nat ->
    ap_addr (allocated_pages_mem
               (grub_efi_free_pages a pages
                  (snd (grub_efi_allocate_anypages pages st))) i)
    = ap_addr (allocated_pages_mem st i).
Proof.
  intros Ha Hne Hnew i Hi.
  unfold grub_efi_allocate_anypages, call_allocate_pages.
  rewrite Ha. cbn [fst snd].
  set (st0 := log_call _ st).
  rewrite free_pages_table, remember_pages_pointer.
  change (allocated_pages st0) with (allocated_pages st).
  destruct (Z.eqb_spec (allocated_pages st) 0) as [Hnull|Hp].
  - cbn [negb andb]. unfold remember_pages.
    change (allocated_pages st0) with (allocated_pages st).
    rewrite Hnull. reflexivity.
  - destruct (Z.eqb_spec (allocated_pages st) a) as [C|_]; [congruence|].
    cbn [negb andb]. cbv zeta.
    unfold remember_pages.
    change (allocated_pages st0) with (allocated_pages st).
    change (allocated_pages_mem st0) with (allocated_pages_mem st).
    destruct (Z.eqb_spec (allocated_pages st) 0) as [C|_]; [contradiction|].
    set (k := scan_slots (allocated_pages_mem st) 0 0 MAX_ALLOCATED_PAGES).
    pose proof (scan_slots_range (allocated_pages_mem st) 0
                  MAX_ALLOCATED_PAGES 0) as Hrange. fold k in Hrange.
    destruct (Nat.eqb_spec k MAX_ALLOCATED_PAGES) as [Hfull|Hroom];
      cbn [snd allocated_pages_mem grub_printf set_allocated_pages_mem].
    + (* full table: nothing was recorded and nothing is found *)
      assert (Hall : forall j, (j < MAX_ALLOCATED_PAGES)%nat ->
                               ap_addr (allocated_pages_mem st j) <> 0).
      { intros j Hj.
        apply (scan_slots_before _ 0 MAX_ALLOCATED_PAGES 0%nat).
        fold k. lia. }
      rewrite scan_slots_none
        by (intros j Hj; apply Hnew; [lia|apply Hall; lia]).
      rewrite Nat.add_0_l, Nat.ltb_irrefl. reflexivity.
    + assert (Hk : (k < MAX_ALLOCATED_PAGES)%nat) by lia.
      assert (Hzero : ap_addr (allocated_pages_mem st k) = 0)
        by (apply scan_slots_hit; fold k; lia).
      assert (Hbefore : forall j, (j < k)%nat ->
                                  ap_addr (allocated_pages_mem st j) <> 0).
      { intros j Hj.
        apply (scan_slots_before _ 0 MAX_ALLOCATED_PAGES 0%nat).
        fold k. lia. }
      set (m1 := store_slot k (mk_allocated_page a pages)
                            (allocated_pages_mem st)).
      assert (Hscan : scan_slots m1 a 0 MAX_ALLOCATED_PAGES = k).
      { apply scan_slots_least; [lia| |].
        - unfold m1, store_slot. rewrite Nat.eqb_refl. reflexivity.
        - intros j Hj. unfold m1, store_slot.
          destruct (Nat.eqb_spec j k); [lia|].
          apply Hnew; [lia|apply Hbefore; lia]. }
      rewrite Hscan.
      destruct (Nat.ltb_spec k MAX_ALLOCATED_PAGES) as [_|C]; [|lia].
      unfold store_slot at 1.
      destruct (Nat.eqb_spec i k) as [->|Hik].
      * cbn [ap_addr]. symmetry. exact Hzero.
      * unfold m1, store_slot.
        destruct (Nat.eqb_spec i k); [contradiction|reflexivity].
Qed.

(** X4: [grub_efi_allocate_anypages] has no second request for a grant of
    page 0, unlike [grub_efi_allocate_pages].  When the firmware grants
    it base 0 the result is NULL, page 0 is not given back (the log
    grows by the request alone and the range stays outstanding) and no
    slot changes its base. *)
Theorem anypages_keeps_page_zero (pages : Z) (st : mm_state) :
  fw_allocate_pages fw (fw_calls st) GRUB_EFI_ALLOCATE_ANY_PAGES
    GRUB_EFI_LOADER_DATA pages 0 = (GRUB_EFI_SUCCESS, 0) ->
  let r := grub_efi_allocate_anypages pages st in
  fst r = 0
  /\ fw_calls (snd r)
     = AllocatePages GRUB_EFI_ALLOCATE_ANY_PAGES GRUB_EFI_LOADER_DATA
         pages 0 GRUB_EFI_SUCCESS 0 :: fw_calls st
  /\ outstanding (fw_calls (snd r)) = (0, pages) :: outstanding (fw_calls st)
  /\ forall i, ap_addr (allocated_pages_mem (snd r) i)
               = ap_addr (allocated_pages_mem st i).
Proof.
  intros Ha r.
  assert (Hlog : fw_calls (snd r)
                 = AllocatePages GRUB_EFI_ALLOCATE_ANY_PAGES
                     GRUB_EFI_LOADER_DATA pages 0 GRUB_EFI_SUCCESS 0
                     :: fw_calls st).
  { subst r. unfold grub_efi_allocate_anypages, call_allocate_pages.
    rewrite Ha. cbn [fst snd]. rewrite remember_pages_calls. reflexivity. }
  split; [|split; [exact Hlog|split]].
  - subst r. unfold grub_efi_allocate_anypages, call_allocate_pages.
    rewrite Ha. cbn [fst snd].
    match goal with
    | |- fst (remember_pages 0 pages ?s) = 0 =>
        destruct (remember_pages_result 0 pages s) as [R|R]
    end; [exact R|rewrite R; apply grub_addr_t_zero].
  - rewrite Hlog. reflexivity.
  - intros i. subst r. unfold grub_efi_allocate_anypages, call_allocate_pages.
    rewrite Ha. cbn [fst snd]. unfold remember_pages.
    cbn [allocated_pages allocated_pages_mem log_call].
    destruct (allocated_pages st =? 0); [reflexivity|].
    set (k := scan_slots (allocated_pages_mem st) 0 0 MAX_ALLOCATED_PAGES).
    pose proof (scan_slots_range (allocated_pages_mem st) 0
                  MAX_ALLOCATED_PAGES 0) as Hrange. fold k in Hrange.
    destruct (Nat.eqb_spec k MAX_ALLOCATED_PAGES) as [Hfull|Hroom];
      [reflexivity|].
    cbn [snd allocated_pages_mem set_allocated_pages_mem].
    unfold store_slot. destruct (Nat.eqb_spec i k) as [->|_]; [|reflexivity].
    cbn [ap_addr]. symmetry. apply scan_slots_hit. fold k. lia.
Qed.


(** *** Counting the free slots *)

Lemma free_slots_store_out (m : nat -> allocated_page) (k : nat)
  (p : allocated_page) (n : nat) :
  (n <= k)%nat -> free_slots (store_slot k p m) n = free_slots m n.
Proof.
  induction n as [|n IH]; intros Hk; [reflexivity|].
  cbn [free_slots]. rewrite IH by lia. unfold store_slot.
  destruct (Nat.eqb_spec n k); [lia|reflexivity].
Qed.

Lemma free_slots_store (m : nat -> allocated_page) (k : nat)
  (p : allocated_page) (n : nat) :
  (k < n)%nat ->
  (free_slots (store_slot k p m) n
   + (if (ap_addr (m k) =? 0)%Z then 1 else 0)
   = free_slots m n + (if (ap_addr p =? 0)%Z then 1 else 0))%nat.
Proof.
  induction n as [|n IH]; intros Hk; [lia|].
  cbn [free_slots].
  destruct (Nat.eq_dec k n) as [->|Hne].
  - rewrite free_slots_store_out by lia.
    unfold store_slot. rewrite Nat.eqb_refl. lia.
  - specialize (IH ltac:(lia)).
    unfold store_slot at 1. destruct (Nat.eqb_spec n k); [lia|]. lia.
Qed.

Lemma free_slots_bound (m : nat -> allocated_page) (n : nat) :
  (free_slots m n <= n)%nat.
Proof.
  induction n as [|n IH]; [reflexivity|]. cbn [free_slots].
  destruct (ap_addr (m n) =? 0); lia.
Qed.

Lemma free_slots_none (m : nat -> allocated_page) (n : nat) :
  free_slots m n = 0%nat
  <-> forall i, (i < n)%nat -> ap_addr (m i) <> 0.
Proof.
  induction n as [|n IH]; cbn [free_slots].
  - split; [intros _ i Hi; lia|reflexivity].
  - destruct (Z.eqb_spec (ap_addr (m n)) 0) as [E|E].
    + split; [intros H; lia|]. intros H. exfalso. apply (H n); [lia|exact E].
    + rewrite Nat.add_0_l, IH. split.
      * intros H i Hi. destruct (Nat.eq_dec i n) as [->|]; [exact E|].
        apply H. lia.
      * intros H i Hi. apply H. lia.
Qed.

Lemma free_slots_all (m : nat -> allocated_page) (n : nat) :
  free_slots m n = n
  <-> forall i, (i < n)%nat -> ap_addr (m i) = 0.
Proof.
  induction n as [|n IH]; cbn [free_slots].
  - split; [intros _ i Hi; lia|reflexivity].
  - pose proof (free_slots_bound m n) as Hb.
    destruct (Z.eqb_spec (ap_addr (m n)) 0) as [E|E].
    + split.
      * intros H i Hi. destruct (Nat.eq_dec i n) as [->|]; [exact E|].
        apply IH; lia.
      * intros H. apply f_equal. apply IH. intros i Hi. apply H. lia.
    + split; [intros H; lia|]. intros H. exfalso. apply E, H. lia.
Qed.

Lemma free_slots_some (m : nat -> allocated_page) (n : nat) :
  (0 < free_slots m n)%nat -> exists i, (i < n)%nat /\ ap_addr (m i) = 0.
Proof.
  induction n as [|n IH]; cbn [free_slots]; [lia|].
  destruct (Z.eqb_spec (ap_addr (m n)) 0) as [E|E].
  - intros _. exists n. split; [lia|exact E].
  - intros H. destruct (IH ltac:(lia)) as (i & Hi & Hz).
    exists i. split; [lia|exact Hz].
Qed.

(** What recording a grant does to the number of free slots. *)
Lemma remember_pages_free_slots (a p : Z) (st : mm_state) :
  let before := free_slots (allocated_pages_mem st) MAX_ALLOCATED_PAGES in
  let after := free_slots (allocated_pages_mem (snd (remember_pages a p st)))
                          MAX_ALLOCATED_PAGES in
  (after <= before <= S after)%nat
  /\ (allocated_pages st <> 0 -> a <> 0 -> (0 < before)%nat ->
      S after = before).
Proof.
  intros before after. subst before after. unfold remember_pages.
  destruct (Z.eqb_spec (allocated_pages st) 0) as [E|E].
  - cbn [snd]. split; [lia|contradiction].
  - set (k := scan_slots (allocated_pages_mem st) 0 0 MAX_ALLOCATED_PAGES).
    pose proof (scan_slots_range (allocated_pages_mem st) 0
                  MAX_ALLOCATED_PAGES 0) as Hrange. fold k in Hrange.
    destruct (Nat.eqb_spec k MAX_ALLOCATED_PAGES) as [Hfull|Hroom];
      cbn [snd allocated_pages_mem grub_printf set_allocated_pages_mem].
    + split; [lia|]. intros _ _ Hpos. exfalso.
      destruct (free_slots_some _ _ Hpos) as (i & Hi & Hz).
      apply (scan_slots_before (allocated_pages_mem st) 0
               MAX_ALLOCATED_PAGES 0%nat i); [fold k; lia|exact Hz].
    + assert (Hk : (k < MAX_ALLOCATED_PAGES)%nat) by lia.
      assert (Hzero : ap_addr (allocated_pages_mem st k) = 0)
        by (apply scan_slots_hit; fold k; lia).
      pose proof (free_slots_store (allocated_pages_mem st) k
                    (mk_allocated_page a p) MAX_ALLOCATED_PAGES Hk) as Hc.
      rewrite Hzero in Hc. cbn [ap_addr] in Hc.
      change (0 =? 0) with true in Hc. cbv iota in Hc.
      destruct (Z.eqb_spec a 0) as [Ea|Ea].
      * split; [lia|]. intros _ C. contradiction.
      * split; [lia|]. intros _ _ _. lia.
Qed.

(** What a release does to the number of free slots. *)
Lemma free_pages_free_slots (address pages : Z) (st : mm_state) :
  let before := free_slots (allocated_pages_mem st) MAX_ALLOCATED_PAGES in
  let after := free_slots
                 (allocated_pages_mem (grub_efi_free_pages address pages st))
                 MAX_ALLOCATED_PAGES in
  (before <= after <= S before)%nat
  /\ (allocated_pages st <> 0 -> address <> 0 ->
      address <> allocated_pages st ->
      (exists i, (i < MAX_ALLOCATED_PAGES)%nat
                 /\ ap_addr (allocated_pages_mem st i) = address) ->
      after = S before)
  /\ (allocated_pages st = 0 \/ address = 0 \/ address = allocated_pages st
      \/ (forall i, (i < MAX_ALLOCATED_PAGES)%nat ->
                    ap_addr (allocated_pages_mem st i) <> address) ->
      after = before).
Proof.
  intros before after. subst before after. rewrite free_pages_table.
  destruct (Z.eqb_spec (allocated_pages st) 0) as [E0|E0].
  { cbn [negb andb]. split; [lia|]. split; [contradiction|reflexivity]. }
  destruct (Z.eqb_spec (allocated_pages st) address) as [E1|E1].
  { cbn [negb andb]. split; [lia|]. split; [congruence|reflexivity]. }
  cbn [negb andb]. cbv zeta.
  set (k := scan_slots (allocated_pages_mem st) address 0 MAX_ALLOCATED_PAGES).
  pose proof (scan_slots_range (allocated_pages_mem st) address
                MAX_ALLOCATED_PAGES 0) as Hrange. fold k in Hrange.
  destruct (Nat.ltb_spec k MAX_ALLOCATED_PAGES) as [Hk|Hk].
  - assert (Hkey : ap_addr (allocated_pages_mem st k) = address)
      by (apply scan_slots_hit; fold k; lia).
    pose proof (free_slots_store (allocated_pages_mem st) k
                  (mk_allocated_page 0
                     (ap_num_pages (allocated_pages_mem st k)))
                  MAX_ALLOCATED_PAGES Hk) as Hc.
    rewrite Hkey in Hc. cbn [ap_addr] in Hc.
    change (0 =? 0) with true in Hc. cbv iota in Hc.
    destruct (Z.eqb_spec address 0) as [Ea|Ea].
    + split; [lia|]. split; [intros _ C; contradiction|]. intros _. lia.
    + split; [lia|]. split; [intros _ _ _ _; lia|].
      intros [C|[C|[C|C]]]; try congruence.
      exfalso. apply (C k Hk). exact Hkey.
  - split; [lia|]. split; [|reflexivity].
    intros _ _ _ (i & Hi & Hkey). exfalso.
    apply (scan_slots_before (allocated_pages_mem st) address
             MAX_ALLOCATED_PAGES 0%nat i); [fold k; lia|exact Hkey].
Qed.

(** X5: the free slots of the allocation table are counted.  A call of
    either allocation function takes at most one slot and returns none;
    a release returns at most one and takes none.  On a table that
    exists and has a free slot, a grant other than page 0 takes exactly
    one; the release of a base other than 0 that some slot holds returns
    exactly one; the release of 0, of the address of the table or of a
    base no slot holds returns none.  The count is 0 exactly on a full
    table and [MAX_ALLOCATED_PAGES] exactly on an empty one. *)
Theorem free_slot_accounting (st : mm_state) :
  let count := fun s => free_slots (allocated_pages_mem s)
                                   MAX_ALLOCATED_PAGES in
  (forall pages,
     let st' := snd (grub_efi_allocate_anypages pages st) in
     (count st' <= count st <= S (count st'))%nat)
  /\ (forall address pages,
        let st' := snd (grub_efi_allocate_pages address pages st) in
        (count st' <= count st <= S (count st'))%nat)
  /\ (forall address pages,
        let st' := grub_efi_free_pages address pages st in
        (count st <= count st' <= S (count st))%nat)
  /\ (forall pages a,
        allocated_pages st <> 0 -> (0 < count st)%nat ->
        fw_allocate_pages fw (fw_calls st) GRUB_EFI_ALLOCATE_ANY_PAGES
          GRUB_EFI_LOADER_DATA pages 0 = (GRUB_EFI_SUCCESS, a) ->
        a <> 0 ->
        S (count (snd (grub_efi_allocate_anypages pages st))) = count st)
  /\ (forall address pages,
        allocated_pages st <> 0 -> address <> 0 ->
        address <> allocated_pages st ->
        (exists i, (i < MAX_ALLOCATED_PAGES)%nat
                   /\ ap_addr (allocated_pages_mem st i) = address) ->
        count (grub_efi_free_pages address pages st) = S (count st))
  /\ (forall address pages,
        address = 0 \/ address = allocated_pages st
        \/ (forall i, (i < MAX_ALLOCATED_PAGES)%nat ->
                      ap_addr (allocated_pages_mem st i) <> address) ->
        count (grub_efi_free_pages address pages st) = count st)
  /\ (count st = 0%nat <-> table_full st)
  /\ (count st = MAX_ALLOCATED_PAGES <-> table_empty st).
Proof.
  intros count. subst count. cbv beta.
  split; [|split; [|split; [|split; [|split; [|split; [|split]]]]]].
  - intros pages st'. subst st'.
    unfold grub_efi_allocate_anypages, call_allocate_pages.
    destruct (fw_allocate_pages fw (fw_calls st) GRUB_EFI_ALLOCATE_ANY_PAGES
                GRUB_EFI_LOADER_DATA pages 0) as [status a].
    cbn [fst snd].
    destruct status; cbn [snd allocated_pages_mem log_call]; try lia.
    match goal with
    | |- context [remember_pages a pages ?s] =>
        exact (proj1 (remember_pages_free_slots a pages s))
    end.
  - intros address pages st'. subst st'.
    unfold grub_efi_allocate_pages, call_allocate_pages.
    destruct (0x7fffffff <? address); [cbn [snd]; lia|].
    cbv zeta.
    destruct (fw_allocate_pages fw (fw_calls st) _ GRUB_EFI_LOADER_DATA
                pages _) as [status a].
    cbn [fst snd].
    destruct status; cbn [snd allocated_pages_mem log_call]; try lia.
    destruct (a =? 0).
    + match goal with
      | |- context [fw_allocate_pages fw ?l ?t GRUB_EFI_LOADER_DATA pages
                      0x7fffffff] =>
          destruct (fw_allocate_pages fw l t GRUB_EFI_LOADER_DATA pages
                      0x7fffffff) as [status2 a2]
      end.
      cbn [fst snd].
      match goal with
      | |- context [grub_efi_free_pages 0 pages ?s] =>
          pose proof (proj2 (proj2 (free_pages_free_slots 0 pages s))
                        (or_intror (or_introl eq_refl))) as Hfree;
          set (s1 := grub_efi_free_pages 0 pages s) in *
      end.
      cbn [allocated_pages_mem log_call] in Hfree.
      destruct status2; cbn [snd]; try lia.
      pose proof (proj1 (remember_pages_free_slots a2 pages s1)) as Hrem.
      cbv zeta in Hrem. lia.
    + match goal with
      | |- context [remember_pages a pages ?s] =>
          exact (proj1 (remember_pages_free_slots a pages s))
      end.
  - intros address pages st'. subst st'.
    exact (proj1 (free_pages_free_slots address pages st)).
  - intros pages a Hp Hpos Ha Hnz.
    unfold grub_efi_allocate_anypages, call_allocate_pages.
    rewrite Ha. cbn [fst snd].
    match goal with
    | |- context [remember_pages a pages ?s] =>
        exact (proj2 (remember_pages_free_slots a pages s) Hp Hnz Hpos)
    end.
  - intros address pages Hp Hnz Hne Hheld.
    exact (proj1 (proj2 (free_pages_free_slots address pages st))
             Hp Hnz Hne Hheld).
  - intros address pages H.
    apply (proj2 (proj2 (free_pages_free_slots address pages st))).
    right. exact H.
  - apply free_slots_none.
  - apply free_slots_all.
Qed.


(** *** The end of the memory manager on any table *)

Lemma pending_frees_ext (m m' : nat -> allocated_page) (n : nat) :
  forall i, (forall j, (i <= j < i + n)%nat -> m' j = m j) ->
            pending_frees m' i n = pending_frees m i n.
Proof.
  induction n as [|n IH]; intros i H; [reflexivity|].
  cbn [pending_frees]. rewrite (H i) by lia.
  rewrite (IH (S i)) by (intros j Hj; apply H; lia). reflexivity.
Qed.

(** The loop of [grub_efi_mm_fini] from slot [i], the slots before [i]
    being free already. *)
Lemma fini_loop_outcome (n : nat) :
  forall i st,
    allocated_pages st <> 0 ->
    (i + n <= MAX_ALLOCATED_PAGES)%nat ->
    (forall j, (j < i)%nat -> ap_addr (allocated_pages_mem st j) = 0) ->
    (forall j, (j < MAX_ALLOCATED_PAGES)%nat ->
               ap_addr (allocated_pages_mem st j) <> allocated_pages st) ->
    slots_fit st ->
    let st' := fini_loop n i st in
    allocated_pages st' = allocated_pages st
    /\ fw_calls st'
       = pending_frees (allocated_pages_mem st) i n ++ fw_calls st
    /\ (forall j, (j < i + n)%nat -> ap_addr (allocated_pages_mem st' j) = 0)
    /\ (forall j, (i + n <= j)%nat ->
                  allocated_pages_mem st' j = allocated_pages_mem st j)
    /\ (forall j, ap_num_pages (allocated_pages_mem st' j)
                  = ap_num_pages (allocated_pages_mem st j))
    /\ same_e820 st st'.
Proof.
  induction n as [|n IH]; intros i st Hp Hle Hpre Hapart Hfit.
  - cbn [fini_loop pending_frees app]. cbv zeta.
    split; [reflexivity|]. split; [reflexivity|].
    split; [intros j Hj; apply Hpre; lia|].
    split; [reflexivity|]. split; [reflexivity|apply same_e820_refl].
  - rewrite fini_loop_step. cbn [pending_frees]. cbv zeta.
    destruct (Z.eqb_spec (ap_addr (allocated_pages_mem st i)) 0) as [E|E].
    + destruct (IH (S i) st Hp ltac:(lia)) as (H1 & H2 & H3 & H4 & H5 & H6);
        [|exact Hapart|exact Hfit|].
      { intros j Hj. destruct (Nat.eq_dec j i) as [->|]; [exact E|].
        apply Hpre. lia. }
      rewrite app_nil_r.
      split; [exact H1|]. split; [exact H2|].
      split; [intros j Hj; apply H3; lia|].
      split; [intros j Hj; apply H4; lia|].
      split; [exact H5|exact H6].
    + assert (Hi : (i < MAX_ALLOCATED_PAGES)%nat) by lia.
      destruct (Hfit i Hi E) as [Hfa Hfn]. rewrite Hfa, Hfn.
      set (a := ap_addr (allocated_pages_mem st i)) in *.
      set (np := ap_num_pages (allocated_pages_mem st i)) in *.
      set (st1 := grub_efi_free_pages a np st).
      assert (Hmem : allocated_pages_mem st1
                     = store_slot i (mk_allocated_page 0 np)
                                  (allocated_pages_mem st)).
      { unfold st1. rewrite free_pages_table.
        destruct (Z.eqb_spec (allocated_pages st) 0) as [C|_];
          [contradiction|].
        destruct (Z.eqb_spec (allocated_pages st) a) as [C|_].
        { exfalso. apply (Hapart i Hi). symmetry. exact C. }
        cbn [negb andb]. cbv zeta.
        rewrite (scan_slots_least _ a MAX_ALLOCATED_PAGES 0%nat i);
          [|lia|reflexivity|].
        - destruct (Nat.ltb_spec i MAX_ALLOCATED_PAGES) as [_|C]; [|lia].
          reflexivity.
        - intros j Hj. rewrite Hpre by lia. intros C. apply E.
          symmetry. exact C. }
      assert (Hptr : allocated_pages st1 = allocated_pages st)
        by apply free_pages_pointer.
      assert (Hlog : fw_calls st1 = FreePages a np :: fw_calls st)
        by apply free_pages_calls.
      destruct (IH (S i) st1) as (H1 & H2 & H3 & H4 & H5 & H6).
      * rewrite Hptr. exact Hp.
      * lia.
      * intros j Hj. rewrite Hmem. unfold store_slot.
        destruct (Nat.eqb_spec j i); [reflexivity|]. apply Hpre. lia.
      * intros j Hj. rewrite Hmem, Hptr. unfold store_slot.
        destruct (Nat.eqb_spec j i); [cbn [ap_addr]; congruence|].
        apply Hapart. exact Hj.
      * intros j Hj. rewrite Hmem. unfold store_slot.
        destruct (Nat.eqb_spec j i); [cbn [ap_addr]; congruence|].
        apply Hfit. exact Hj.
      * split; [rewrite H1; exact Hptr|]. split.
        { rewrite H2, Hlog.
          rewrite (pending_frees_ext (allocated_pages_mem st)).
          - rewrite <- app_assoc. reflexivity.
          - intros j Hj. rewrite Hmem. unfold store_slot.
            destruct (Nat.eqb_spec j i); [lia|reflexivity]. }
        split; [intros j Hj; apply H3; lia|].
        split.
        { intros j Hj. rewrite H4 by lia. rewrite Hmem. unfold store_slot.
          destruct (Nat.eqb_spec j i); [lia|reflexivity]. }
        split.
        { intros j. rewrite H5, Hmem. unfold store_slot.
          destruct (Nat.eqb_spec j i) as [->|]; reflexivity. }
        apply (same_e820_trans st st1); [|exact H6].
        apply free_pages_e820.
Qed.

Lemma fini_loop_e820 (n : nat) :
  forall i st, same_e820 st (fini_loop n i st).
Proof.
  induction n as [|n IH]; intros i st; cbn [fini_loop].
  - apply same_e820_refl.
  - destruct (ap_addr (allocated_pages_mem st i) =? 0); [apply IH|].
    eapply same_e820_trans; [apply free_pages_e820|apply IH].
Qed.

Lemma fini_outcome (st : mm_state) :
  allocated_pages st <> 0 ->
  wrap64 (grub_addr_t (allocated_pages st)) = allocated_pages st ->
  (forall j, (j < MAX_ALLOCATED_PAGES)%nat ->
             ap_addr (allocated_pages_mem st j) <> allocated_pages st) ->
  slots_fit st ->
  let st' := grub_efi_mm_fini st in
  table_empty st'
  /\ fw_calls st'
     = FreePages (allocated_pages st) (BYTES_TO_PAGES ALLOCATED_PAGES_SIZE)
       :: pending_frees (allocated_pages_mem st) 0 MAX_ALLOCATED_PAGES
       ++ fw_calls st
  /\ allocated_pages st' = allocated_pages st.
Proof.
  intros Hp Hfits Hapart Hfit st'.
  pose proof (fini_loop_outcome MAX_ALLOCATED_PAGES 0 st Hp
                (Nat.le_refl MAX_ALLOCATED_PAGES)) as H.
  cbv zeta in H. subst st'. unfold grub_efi_mm_fini.
  destruct (Z.eqb_spec (allocated_pages st) 0) as [C|_]; [contradiction|].
  cbv zeta.
  remember (fini_loop MAX_ALLOCATED_PAGES 0 st) as st1 eqn:Hst1.
  destruct H as (H1 & H2 & H3 & H4 & H5 & H6);
    [intros j Hj; lia|exact Hapart|exact Hfit|].
  assert (Hown : grub_efi_free_pages (allocated_pages st)
                    (BYTES_TO_PAGES ALLOCATED_PAGES_SIZE) st1
                  = call_free_pages (allocated_pages st)
                      (BYTES_TO_PAGES ALLOCATED_PAGES_SIZE) st1)
    by (rewrite <- H1; apply free_pages_own).
  rewrite H1, Hfits, Hown.
  unfold call_free_pages.
  cbn [allocated_pages_mem fw_calls allocated_pages log_call].
  split; [intros j Hj; apply H3; lia|].
  split; [rewrite H2; reflexivity|exact H1].
Qed.

Lemma free_pages_counts (address pages : Z) (st : mm_state) (j : nat) :
  ap_num_pages (allocated_pages_mem (grub_efi_free_pages address pages st) j)
  = ap_num_pages (allocated_pages_mem st j).
Proof.
  rewrite free_pages_table.
  destruct (negb _ && negb _); [|reflexivity]. cbv zeta.
  destruct (Nat.ltb _ _); [|reflexivity].
  unfold store_slot.
  destruct (Nat.eqb_spec j (scan_slots (allocated_pages_mem st) address 0
                                       MAX_ALLOCATED_PAGES)) as [->|_];
    reflexivity.
Qed.

Lemma fini_loop_counts (n : nat) :
  forall i st j,
    ap_num_pages (allocated_pages_mem (fini_loop n i st) j)
    = ap_num_pages (allocated_pages_mem st j).
Proof.
  induction n as [|n IH]; intros i st j; cbn [fini_loop]; [reflexivity|].
  rewrite IH.
  destruct (ap_addr (allocated_pages_mem st i) =? 0); [reflexivity|].
  apply free_pages_counts.
Qed.

(** X6: [grub_efi_mm_fini] on any allocation table.  When the table
    exists, no slot records the address of the table itself and the
    recorded bases and page counts fit a pointer, the firmware is asked
    to free the recorded ranges, once each, in the order of the slots,
    each with the base and the page count of its slot, and then the page
    of the table; nothing else is asked of it.  Afterwards every slot is
    free, the page counts are still in the slots, and the pointer to the
    table and the e820 table are as before. *)
Theorem fini_frees_recorded_ranges_in_slot_order (st : mm_state) :
  allocated_pages st <> 0 ->
  wrap64 (grub_addr_t (allocated_pages st)) = allocated_pages st ->
  (forall j, (j < MAX_ALLOCATED_PAGES)%nat ->
             ap_addr (allocated_pages_mem st j) <> allocated_pages st) ->
  slots_fit st ->
  let st' := grub_efi_mm_fini st in
  table_empty st'
  /\ fw_calls st'
     = FreePages (allocated_pages st) (BYTES_TO_PAGES ALLOCATED_PAGES_SIZE)
       :: pending_frees (allocated_pages_mem st) 0 MAX_ALLOCATED_PAGES
       ++ fw_calls st
  /\ allocated_pages st' = allocated_pages st
  /\ (forall j, ap_num_pages (allocated_pages_mem st' j)
                = ap_num_pages (allocated_pages_mem st j))
  /\ same_e820 st st'.
Proof.
  intros Hp Hfits Hapart Hfit st'.
  destruct (fini_outcome st Hp Hfits Hapart Hfit) as (Hempty & Hlog & Hptr).
  fold st' in Hempty, Hlog, Hptr.
  split; [exact Hempty|]. split; [exact Hlog|]. split; [exact Hptr|].
  subst st'. unfold grub_efi_mm_fini.
  destruct (Z.eqb_spec (allocated_pages st) 0) as [C|_]; [contradiction|].
  cbv zeta. split.
  - intros j. rewrite free_pages_counts. apply fini_loop_counts.
  - eapply same_e820_trans; [apply fini_loop_e820|apply free_pages_e820].
Qed.

(** X7: [grub_efi_mm_fini] does not reset the pointer to the table.  When
    the table exists, no slot records the address of the table itself
    and the recorded bases and page counts fit a pointer, a second call
    finds every slot free and asks the firmware to free the page of the
    table once more; without a table a call does nothing at all. *)
Theorem fini_twice_frees_table_twice (st : mm_state) :
  (allocated_pages st = 0 -> grub_efi_mm_fini st = st)
  /\ (allocated_pages st <> 0 ->
      wrap64 (grub_addr_t (allocated_pages st)) = allocated_pages st ->
      (forall j, (j < MAX_ALLOCATED_PAGES)%nat ->
                 ap_addr (allocated_pages_mem st j) <> allocated_pages st) ->
      slots_fit st ->
      let st' := grub_efi_mm_fini st in
      grub_efi_mm_fini st'
      = call_free_pages (allocated_pages st)
          (BYTES_TO_PAGES ALLOCATED_PAGES_SIZE) st'
      /\ fw_calls (grub_efi_mm_fini st')
         = FreePages (allocated_pages st)
             (BYTES_TO_PAGES ALLOCATED_PAGES_SIZE)
           :: FreePages (allocated_pages st)
                (BYTES_TO_PAGES ALLOCATED_PAGES_SIZE)
           :: pending_frees (allocated_pages_mem st) 0 MAX_ALLOCATED_PAGES
           ++ fw_calls st).
Proof.
  split.
  - intros H. unfold grub_efi_mm_fini. rewrite H. reflexivity.
  - intros Hp Hfits Hapart Hfit st'.
    destruct (fini_outcome st Hp Hfits Hapart Hfit)
      as (Hempty & Hlog & Hptr). fold st' in Hempty, Hlog, Hptr.
    assert (Hsecond : grub_efi_mm_fini st'
                      = call_free_pages (allocated_pages st)
                          (BYTES_TO_PAGES ALLOCATED_PAGES_SIZE) st').
    { unfold grub_efi_mm_fini at 1.
      destruct (Z.eqb_spec (allocated_pages st') 0) as [C|_]; [congruence|].
      rewrite fini_loop_empty by (intros j Hj; apply Hempty; lia).
      rewrite Hptr, Hfits. rewrite <- Hptr. apply free_pages_own. }
    split; [exact Hsecond|].
    rewrite Hsecond. unfold call_free_pages. cbn [fw_calls log_call].
    rewrite Hlog. reflexivity.
Qed.


(** *** What the allocation functions leave alone, and what they ask *)

Lemma anypages_e820 (pages : Z) (st : mm_state) :
  same_e820 st (snd (grub_efi_allocate_anypages pages st)).
Proof.
  unfold grub_efi_allocate_anypages, call_allocate_pages.
  destruct (fw_allocate_pages fw (fw_calls st) _ _ _ _) as [s a].
  cbn [fst snd]. destruct s; try (split; reflexivity).
  eapply same_e820_trans; [|apply remember_pages_e820]. split; reflexivity.
Qed.

Lemma run_call_e820 (c : mm_call) (st : mm_state) :
  same_e820 st (run_call st c).
Proof.
  destruct c as [pages|address pages|address pages]; cbn [run_call].
  - apply anypages_e820.
  - apply allocate_pages_e820.
  - apply free_pages_e820.
Qed.

Lemma run_calls_e820 (calls : list mm_call) :
  forall st, same_e820 st (run_calls calls st).
Proof.
  unfold run_calls.
  induction calls as [|c calls IH]; intros st; cbn [fold_left].
  - apply same_e820_refl.
  - eapply same_e820_trans; [apply run_call_e820|apply IH].
Qed.

(** X8: the allocation table and the e820 table are kept apart.  No run
    of calls of [grub_efi_allocate_anypages], [grub_efi_allocate_pages]
    and [grub_efi_free_pages], and no call of [grub_efi_mm_fini], changes
    the e820 table or its count, whatever the firmware answers and
    whatever the allocation table holds. *)
Theorem allocation_calls_keep_e820_table (calls : list mm_call)
  (st : mm_state) :
  same_e820 st (run_calls calls st)
  /\ same_e820 st (grub_efi_mm_fini st)
  /\ same_e820 st (grub_efi_mm_fini (run_calls calls st)).
Proof.
  assert (Hfini : forall s, same_e820 s (grub_efi_mm_fini s)).
  { intros s. unfold grub_efi_mm_fini.
    destruct (allocated_pages s =? 0); [apply same_e820_refl|].
    eapply same_e820_trans; [apply fini_loop_e820|apply free_pages_e820]. }
  split; [apply run_calls_e820|]. split; [apply Hfini|].
  eapply same_e820_trans; [apply run_calls_e820|apply Hfini].
Qed.

(** X9: building the e820 table asks nothing of the firmware and leaves
    the allocation table alone.  [add_memory_region] and a completed
    [e820_map_from_efi_map] leave the pointer to the allocation table,
    its slots and the log of firmware calls as they were, whatever the
    descriptors are. *)
Theorem translation_keeps_allocation_table (fuel : nat)
  (memory_map : Z -> grub_efi_memory_descriptor_t)
  (desc_size memory_map_size : Z) (st st' : mm_state) :
  e820_map_from_efi_map fuel memory_map desc_size memory_map_size st
  = Some st' ->
  same_tracker st st'
  /\ forall start size type,
       same_tracker st' (add_memory_region start size type st').
Proof.
  intros H. split.
  - exact (e820_map_from_efi_map_tracker _ _ _ _ _ _ H).
  - intros start size type. apply add_memory_region_tracker.
Qed.

Lemma remember_pages_bounded (address pages : Z) (st : mm_state) :
  Forall request_bounded (fw_calls st) ->
  Forall request_bounded (fw_calls (snd (remember_pages address pages st))).
Proof. rewrite remember_pages_calls. exact (fun H => H). Qed.

Lemma free_pages_bounded (address pages : Z) (st : mm_state) :
  Forall request_bounded (fw_calls st) ->
  Forall request_bounded (fw_calls (grub_efi_free_pages address pages st)).
Proof.
  rewrite free_pages_calls. intros H. constructor; [exact I|exact H].
Qed.

Lemma anypages_bounded (pages : Z) (st : mm_state) :
  Forall request_bounded (fw_calls st) ->
  Forall request_bounded
    (fw_calls (snd (grub_efi_allocate_anypages pages st))).
Proof.
  intros H. unfold grub_efi_allocate_anypages, call_allocate_pages.
  destruct (fw_allocate_pages fw (fw_calls st) _ _ _ _) as [s a].
  cbn [fst snd].
  assert (Hnew : Forall request_bounded
                   (fw_calls (log_call
                      (AllocatePages GRUB_EFI_ALLOCATE_ANY_PAGES
                         GRUB_EFI_LOADER_DATA pages 0 s a) st))).
  { cbn [fw_calls log_call]. constructor; [|exact H].
    split; [reflexivity|]. intros C. exfalso. apply C. reflexivity. }
  destruct s; try exact Hnew.
  apply remember_pages_bounded. exact Hnew.
Qed.

Lemma allocate_pages_bounded (address pages : Z) (st : mm_state) :
  Forall request_bounded (fw_calls st) ->
  Forall request_bounded
    (fw_calls (snd (grub_efi_allocate_pages address pages st))).
Proof.
  intros H. unfold grub_efi_allocate_pages, call_allocate_pages.
  destruct (Z.ltb_spec 0x7fffffff address) as [Hgt|Hle]; [exact H|].
  cbv zeta.
  set (type := if address =? 0 then GRUB_EFI_ALLOCATE_MAX_ADDRESS
               else GRUB_EFI_ALLOCATE_ADDRESS).
  set (limit := if address =? 0 then 0x7fffffff else address).
  assert (Hlimit : limit <= 0x7fffffff)
    by (unfold limit; destruct (address =? 0); lia).
  destruct (fw_allocate_pages fw (fw_calls st) type GRUB_EFI_LOADER_DATA
              pages limit) as [s a].
  cbn [fst snd].
  set (st1 := log_call (AllocatePages type GRUB_EFI_LOADER_DATA pages limit
                          s a) st).
  assert (H1 : Forall request_bounded (fw_calls st1)).
  { unfold st1. cbn [fw_calls log_call]. constructor; [|exact H].
    split; [reflexivity|]. intros _. exact Hlimit. }
  destruct s; try exact H1.
  destruct (a =? 0); [|apply remember_pages_bounded; exact H1].
  destruct (fw_allocate_pages fw (fw_calls st1) type GRUB_EFI_LOADER_DATA
              pages 0x7fffffff) as [s2 a2].
  cbn [fst snd].
  set (st2 := log_call (AllocatePages type GRUB_EFI_LOADER_DATA pages
                          0x7fffffff s2 a2) st1).
  assert (H2 : Forall request_bounded (fw_calls st2)).
  { unfold st2. cbn [fw_calls log_call]. constructor; [|exact H1].
    split; [reflexivity|]. intros _. lia. }
  destruct s2; cbn [snd];
    try (apply free_pages_bounded; exact H2).
  apply remember_pages_bounded, free_pages_bounded. exact H2.
Qed.

Lemma run_calls_bounded (calls : list mm_call) :
  forall st, Forall request_bounded (fw_calls st) ->
             Forall request_bounded (fw_calls (run_calls calls st)).
Proof.
  unfold run_calls.
  induction calls as [|c calls IH]; intros st H; cbn [fold_left];
    [exact H|].
  apply IH. destruct c as [pages|address pages|address pages];
    cbn [run_call].
  - apply anypages_bounded. exact H.
  - apply allocate_pages_bounded. exact H.
  - apply free_pages_bounded. exact H.
Qed.

Lemma fini_loop_bounded (n : nat) :
  forall i st, Forall request_bounded (fw_calls st) ->
               Forall request_bounded (fw_calls (fini_loop n i st)).
Proof.
  induction n as [|n IH]; intros i st H; cbn [fini_loop]; [exact H|].
  apply IH. destruct (ap_addr (allocated_pages_mem st i) =? 0); [exact H|].
  apply free_pages_bounded. exact H.
Qed.

Lemma fini_bounded (st : mm_state) :
  Forall request_bounded (fw_calls st) ->
  Forall request_bounded (fw_calls (grub_efi_mm_fini st)).
Proof.
  intros H. unfold grub_efi_mm_fini.
  destruct (allocated_pages st =? 0); [exact H|].
  apply free_pages_bounded, fini_loop_bounded. exact H.
Qed.

Lemma update_e820_map_bounded (fuel : nat) (st st' : mm_state) :
  update_e820_map fuel st = Some st' ->
  Forall request_bounded (fw_calls st) ->
  Forall request_bounded (fw_calls st').
Proof.
  intros Hrun H. unfold update_e820_map in Hrun.
  pose proof (allocate_pages_bounded 0 (BYTES_TO_PAGES MEMORY_MAP_SIZE) st H)
    as H1.
  destruct (grub_efi_allocate_pages 0 (BYTES_TO_PAGES MEMORY_MAP_SIZE) st)
    as [memory_map st1].
  cbn [snd] in H1.
  destruct (memory_map =? 0).
  { inversion Hrun; subst st'. exact H1. }
  unfold grub_efi_get_memory_map, call_get_memory_map in Hrun.
  cbv zeta in Hrun.
  remember (fw_get_memory_map fw (fw_calls st1) MEMORY_MAP_SIZE memory_map)
    as reply eqn:Hreply.
  remember (log_call (GetMemoryMap MEMORY_MAP_SIZE memory_map
                        (mm_status reply)) st1) as st2 eqn:Hst2.
  assert (H2 : Forall request_bounded (fw_calls st2))
    by (rewrite Hst2; cbn [fw_calls log_call]; constructor;
        [exact I|exact H1]).
  destruct (mm_status reply); cbv beta iota zeta in Hrun.
  all: match type of Hrun with
       | (if ?c then _ else _) = _ => destruct c
       end; [inversion Hrun; subst st'; exact H2|].
  all: destruct (e820_map_from_efi_map fuel (mm_buffer reply)
                   (mm_desc_size reply) (mm_map_size reply) st2)
         as [s|] eqn:Hs; [|discriminate Hrun].
  all: inversion Hrun; subst st'.
  all: apply free_pages_bounded.
  all: destruct (e820_map_from_efi_map_tracker _ _ _ _ _ _ Hs)
         as (_ & _ & Hlog).
  all: rewrite Hlog; exact H2.
Qed.

(** X10: what the firmware is asked for.  Every request for pages made
    by this file is for loader data, and a request that names an address
    or a highest address never names one above [0x7fffffff]: if the log
    of firmware calls has this property it still has it after any run of
    allocation and release calls, after [grub_efi_mm_fini] and after a
    completed [grub_efi_mm_init]. *)
Theorem requests_stay_below_two_gib (calls : list mm_call) (fuel : nat)
  (st : mm_state) :
  Forall request_bounded (fw_calls st) ->
  Forall request_bounded (fw_calls (run_calls calls st))
  /\ Forall request_bounded (fw_calls (grub_efi_mm_fini st))
  /\ forall st', grub_efi_mm_init fuel st = Some st' ->
                 Forall request_bounded (fw_calls st').
Proof.
  intros H. split; [apply run_calls_bounded; exact H|].
  split; [apply fini_bounded; exact H|].
  intros st' Hrun. unfold grub_efi_mm_init in Hrun.
  pose proof (allocate_pages_bounded 0
                (BYTES_TO_PAGES ALLOCATED_PAGES_SIZE) st H) as H1.
  destruct (grub_efi_allocate_pages 0 (BYTES_TO_PAGES ALLOCATED_PAGES_SIZE)
              st) as [p st1].
  cbn [snd] in H1. cbv zeta in Hrun.
  destruct (p =? 0).
  - inversion Hrun; subst st'. exact H1.
  - apply (update_e820_map_bounded fuel _ st' Hrun). exact H1.
Qed.


(** *** Walking the e820 table with the iterator *)

Lemma get_mmap_entry_in (desc : mmar_desc) (cont : Z) (st : mm_state) :
  0 <= cont < grub_e820_nr_map st ->
  get_mmap_entry desc cont st
  = (if cont + 1 <? grub_e820_nr_map st then cont + 1 else 0,
     mmar_of_entry (grub_e820_map st cont)).
Proof.
  intros H. unfold get_mmap_entry.
  destruct (Z.ltb_spec cont 0); [lia|].
  destruct (Z.leb_spec (grub_e820_nr_map st) cont); [lia|].
  cbn [orb]. destruct (cont + 1 <? grub_e820_nr_map st); reflexivity.
Qed.

Lemma get_mmap_entry_out (desc : mmar_desc) (cont : Z) (st : mm_state) :
  cont < 0 \/ grub_e820_nr_map st <= cont ->
  get_mmap_entry desc cont st
  = (0, mk_mmar 0 (mmar_addr desc) (mmar_length desc) (mmar_type desc)).
Proof.
  intros H. unfold get_mmap_entry.
  destruct (Z.ltb_spec cont 0); [reflexivity|].
  destruct (Z.leb_spec (grub_e820_nr_map st) cont); [reflexivity|lia].
Qed.

Lemma mmap_walk_from (desc : mmar_desc) (st : mm_state) :
  forall fuel cont,
    0 <= cont < grub_e820_nr_map st ->
    (Z.to_nat (grub_e820_nr_map st - cont) <= fuel)%nat ->
    mmap_walk fuel desc cont st
    = map mmar_of_entry
        (map (fun i => grub_e820_map st (Z.of_nat i))
             (seq (Z.to_nat cont)
                  (Z.to_nat (grub_e820_nr_map st - cont)))).
Proof.
  induction fuel as [|fuel IH]; intros cont Hc Hfuel; [lia|].
  cbn [mmap_walk]. cbv zeta. rewrite get_mmap_entry_in by exact Hc.
  cbn [fst snd]. unfold mmar_of_entry at 1. cbn [desc_len].
  change (MMAR_DESC_LENGTH =? 0) with false. cbv iota.
  replace (Z.to_nat (grub_e820_nr_map st - cont))
    with (S (Z.to_nat (grub_e820_nr_map st - (cont + 1)))) by lia.
  cbn [seq map]. rewrite Z2Nat.id by lia.
  f_equal.
  destruct (Z.ltb_spec (cont + 1) (grub_e820_nr_map st)) as [Hlt|Hge].
  - destruct (Z.eqb_spec (cont + 1) 0) as [C|_]; [lia|].
    rewrite IH by lia.
    replace (Z.to_nat (cont + 1)) with (S (Z.to_nat cont)) by lia.
    reflexivity.
  - cbn [Z.eqb].
    replace (Z.to_nat (grub_e820_nr_map st - (cont + 1))) with 0%nat by lia.
    reflexivity.
Qed.

(** X11: walking the e820 table with [get_mmap_entry].  A caller that
    starts at continuation 0, passes each returned continuation to the
    next call and stops at a returned 0 or at a descriptor of length 0
    receives the copies of all stored regions, each once, in stored
    order; as many calls as there are regions are enough (one call when
    there is none) and further calls are not made.  On a table without
    regions the first call writes a length of 0 and the caller receives
    nothing. *)
Theorem mmap_walk_lists_stored_regions (fuel : nat) (desc : mmar_desc)
  (st : mm_state) :
  (Z.to_nat (grub_e820_nr_map st) <= fuel)%nat ->
  mmap_walk fuel desc 0 st = map mmar_of_entry (stored_regions st)
  /\ List.length (mmap_walk fuel desc 0 st)
     = Z.to_nat (grub_e820_nr_map st)
  /\ (grub_e820_nr_map st <= 0 ->
      desc_len (snd (get_mmap_entry desc 0 st)) = 0
      /\ mmap_walk fuel desc 0 st = []).
Proof.
  intros Hfuel.
  assert (Hwalk : mmap_walk fuel desc 0 st
                  = map mmar_of_entry (stored_regions st)).
  { unfold stored_regions.
    destruct (Z.le_gt_cases (grub_e820_nr_map st) 0) as [Hle|Hgt].
    - replace (Z.to_nat (grub_e820_nr_map st)) with 0%nat by lia.
      cbn [seq map]. destruct fuel as [|fuel]; [reflexivity|].
      cbn [mmap_walk]. cbv zeta.
      rewrite get_mmap_entry_out by (right; exact Hle). reflexivity.
    - rewrite (mmap_walk_from desc st fuel 0) by (rewrite ?Z.sub_0_r; lia).
      rewrite Z.sub_0_r. reflexivity. }
  split; [exact Hwalk|]. split.
  - rewrite Hwalk. unfold stored_regions.
    rewrite !List.length_map, List.length_seq. reflexivity.
  - intros Hle. split.
    + rewrite get_mmap_entry_out by (right; exact Hle). reflexivity.
    + rewrite Hwalk. unfold stored_regions.
      replace (Z.to_nat (grub_e820_nr_map st)) with 0%nat by lia.
      reflexivity.
Qed.


(** *** Building the e820 table from any firmware map *)

Lemma add_memory_region_cases (start size type : Z) (st : mm_state) :
  let x := grub_e820_nr_map st in
  let prev := grub_e820_map st (x - 1) in
  let st' := add_memory_region start size type st in
  (x = E820_MAX
   /\ grub_e820_nr_map st' = x /\ grub_e820_map st' = grub_e820_map st)
  \/ (x <> E820_MAX /\ ends_at prev start type
      /\ grub_e820_nr_map st' = x
      /\ grub_e820_map st'
         = store_entry (x - 1)
             (mk_e820 (e_addr prev) (wrap64 (e_size prev + size))
                      (e_type prev))
             (grub_e820_map st))
  \/ (x <> E820_MAX /\ ~ ends_at prev start type
      /\ grub_e820_nr_map st' = x + 1
      /\ grub_e820_map st'
         = store_entry x (mk_e820 start size type) (grub_e820_map st)).
Proof.
  intros x prev st'. subst x prev st'.
  destruct (Z.eq_dec (grub_e820_nr_map st) E820_MAX) as [E|E].
  - left. unfold add_memory_region.
    destruct (Z.eqb_spec (grub_e820_nr_map st) E820_MAX) as [_|C];
      [|contradiction].
    split; [exact E|]. split; reflexivity.
  - right.
    destruct (Z.eq_dec
                (wrap64 (e_addr (grub_e820_map st (grub_e820_nr_map st - 1))
                         + e_size (grub_e820_map st
                                     (grub_e820_nr_map st - 1)))) start)
      as [E1|E1];
      [destruct (Z.eq_dec
                   (e_type (grub_e820_map st (grub_e820_nr_map st - 1)))
                   type) as [E2|E2]|].
    + left. split; [exact E|]. split; [split; assumption|].
      rewrite add_memory_region_merge by (try exact E; split; assumption).
      split; reflexivity.
    + right. split; [exact E|].
      assert (Hd : ~ ends_at (grub_e820_map st (grub_e820_nr_map st - 1))
                             start type) by (intros [_ C]; contradiction).
      split; [exact Hd|].
      rewrite add_memory_region_new by assumption. split; reflexivity.
    + right. split; [exact E|].
      assert (Hd : ~ ends_at (grub_e820_map st (grub_e820_nr_map st - 1))
                             start type) by (intros [C _]; contradiction).
      split; [exact Hd|].
      rewrite add_memory_region_new by assumption. split; reflexivity.
Qed.

(** A property every append keeps is kept by the translation of a
    descriptor, and by the whole loop. *)
Lemma translate_descriptor_keeps (P : mm_state -> Prop) :
  (forall start size type st,
     P st -> P (add_memory_region start size type st)) ->
  forall d st, P st -> P (translate_descriptor d st).
Proof.
  intros Hadd d st H. unfold translate_descriptor.
  destruct (md_type d); try (apply Hadd; exact H); try exact H.
  all: cbv zeta.
  all: destruct (_ && _); [|apply Hadd; exact H].
  all: destruct (md_physical_start d <? 0xA0000);
    destruct (_ <=? 0x100000);
    repeat first [ exact H | apply Hadd ].
Qed.

Lemma efi_map_loop_keeps (P : mm_state -> Prop)
  (memory_map : Z -> grub_efi_memory_descriptor_t)
  (desc_size memory_map_size : Z) :
  (forall d st, P st -> P (translate_descriptor d st)) ->
  forall fuel off st st',
    efi_map_loop fuel memory_map desc_size memory_map_size off st = Some st' ->
    P st -> P st'.
Proof.
  intros Hstep. induction fuel as [|fuel IH]; intros off st st' H HP;
    cbn [efi_map_loop] in H; [discriminate H|].
  destruct (off <? memory_map_size).
  - apply (IH _ _ _ H). apply Hstep. exact HP.
  - inversion H; subst st'. exact HP.
Qed.

(** The loop reads the descriptors at the multiples of the stride. *)
Lemma efi_map_loop_visits
  (memory_map : Z -> grub_efi_memory_descriptor_t)
  (desc_size memory_map_size : Z) :
  0 < desc_size ->
  forall n fuel k st,
    Z.to_nat ((memory_map_size - desc_size * Z.of_nat k + desc_size - 1)
              / desc_size) = n ->
    (n < fuel)%nat ->
    efi_map_loop fuel memory_map desc_size memory_map_size
                 (desc_size * Z.of_nat k) st
    = Some (fold_left (fun s d => translate_descriptor d s)
              (map (fun j => memory_map (desc_size * Z.of_nat j)) (seq k n))
              st).
Proof.
  intros Hstride. induction n as [|n IH]; intros fuel k st Hn Hfuel.
  - destruct fuel as [|fuel]; [lia|]. cbn [efi_map_loop seq map fold_left].
    destruct (Z.ltb_spec (desc_size * Z.of_nat k) memory_map_size)
      as [Hlt|_]; [|reflexivity].
    exfalso.
    assert (1 <= (memory_map_size - desc_size * Z.of_nat k + desc_size - 1)
                 / desc_size)
      by (apply Z.div_le_lower_bound; lia).
    lia.
  - destruct fuel as [|fuel]; [lia|]. cbn [efi_map_loop seq map fold_left].
    assert (Hq : (memory_map_size - desc_size * Z.of_nat (S k)
                  + desc_size - 1) / desc_size
                 = (memory_map_size - desc_size * Z.of_nat k
                    + desc_size - 1) / desc_size - 1).
    { replace (memory_map_size - desc_size * Z.of_nat (S k) + desc_size - 1)
        with (memory_map_size - desc_size * Z.of_nat k + desc_size - 1
              + (-1) * desc_size) by lia.
      rewrite Z.div_add by lia. lia. }
    destruct (Z.ltb_spec (desc_size * Z.of_nat k) memory_map_size)
      as [_|Hge].
    + replace (desc_size * Z.of_nat k + desc_size)
        with (desc_size * Z.of_nat (S k)) by lia.
      apply IH; [rewrite Hq; lia|lia].
    + exfalso.
      assert ((memory_map_size - desc_size * Z.of_nat k + desc_size - 1)
              / desc_size <= 0).
      { apply Z.lt_succ_r. apply Z.div_lt_upper_bound; lia. }
      lia.
Qed.

Lemma e820_map_from_visited (fuel : nat)
  (memory_map : Z -> grub_efi_memory_descriptor_t)
  (desc_size memory_map_size : Z) (st : mm_state) :
  0 < desc_size ->
  (List.length (visited memory_map desc_size memory_map_size) < fuel)%nat ->
  e820_map_from_efi_map fuel memory_map desc_size memory_map_size st
  = Some (fold_left (fun s d => translate_descriptor d s)
            (visited memory_map desc_size memory_map_size)
            (set_e820_nr_map 0 st)).
Proof.
  intros Hstride Hfuel. unfold e820_map_from_efi_map, visited in *.
  rewrite List.length_map, List.length_seq in Hfuel.
  replace 0 with (desc_size * Z.of_nat 0) at 1 by lia.
  apply efi_map_loop_visits; [exact Hstride| |exact Hfuel].
  f_equal. f_equal. lia.
Qed.

Lemma efi_map_loop_stuck
  (memory_map : Z -> grub_efi_memory_descriptor_t) (memory_map_size : Z) :
  0 < memory_map_size ->
  forall fuel st,
    efi_map_loop fuel memory_map 0 memory_map_size 0 st = None.
Proof.
  intros Hsize. induction fuel as [|fuel IH]; intros st; [reflexivity|].
  cbn [efi_map_loop].
  destruct (Z.ltb_spec 0 memory_map_size) as [_|C]; [|lia].
  change (0 + 0) with 0. apply IH.
Qed.

(** X12: which descriptors [e820_map_from_efi_map] reads.  With a stride
    above zero it returns after translating, in order, the descriptors
    at offsets 0, stride, 2 * stride, ... below the size of the map and
    no others; with a map of size 0 it returns an empty table whatever
    the stride is; with a stride of zero and a map that is not empty it
    never returns. *)
Theorem e820_map_from_efi_map_reads_each_stride (fuel : nat)
  (memory_map : Z -> grub_efi_memory_descriptor_t)
  (desc_size memory_map_size : Z) (st : mm_state) :
  (0 < desc_size ->
   (List.length (visited memory_map desc_size memory_map_size) < fuel)%nat ->
   e820_map_from_efi_map fuel memory_map desc_size memory_map_size st
   = Some (fold_left (fun s d => translate_descriptor d s)
             (visited memory_map desc_size memory_map_size)
             (set_e820_nr_map 0 st)))
  /\ (memory_map_size <= 0 -> (0 < fuel)%nat ->
      e820_map_from_efi_map fuel memory_map desc_size memory_map_size st
      = Some (set_e820_nr_map 0 st))
  /\ (desc_size = 0 -> 0 < memory_map_size ->
      e820_map_from_efi_map fuel memory_map desc_size memory_map_size st
      = None).
Proof.
  split; [|split].
  - apply e820_map_from_visited.
  - intros Hsize Hfuel. unfold e820_map_from_efi_map.
    destruct fuel as [|fuel]; [lia|]. cbn [efi_map_loop].
    destruct (Z.ltb_spec 0 memory_map_size) as [C|_]; [lia|reflexivity].
  - intros -> Hsize. unfold e820_map_from_efi_map.
    apply efi_map_loop_stuck. exact Hsize.
Qed.


Lemma fold_translate_keeps (P : mm_state -> Prop)
  (Q : grub_efi_memory_descriptor_t -> Prop) :
  (forall d st, Q d -> P st -> P (translate_descriptor d st)) ->
  forall ds st, Forall Q ds -> P st ->
                P (fold_left (fun s d => translate_descriptor d s) ds st).
Proof.
  intros Hstep. induction ds as [|d ds IH]; intros st HQ HP;
    cbn [fold_left]; [exact HP|].
  inversion HQ; subst. apply IH; [assumption|]. apply Hstep; assumption.
Qed.

Lemma add_memory_region_no_mergeable (start size type : Z) (st : mm_state) :
  0 <= grub_e820_nr_map st /\ no_mergeable_neighbours st ->
  0 <= grub_e820_nr_map (add_memory_region start size type st)
  /\ no_mergeable_neighbours (add_memory_region start size type st).
Proof.
  intros [Hnr Hinv].
  destruct (add_memory_region_cases start size type st)
    as [(Hx & Hn & Hm)|[(Hx & Hends & Hn & Hm)|(Hx & Hdiff & Hn & Hm)]];
    unfold no_mergeable_neighbours; rewrite Hn, Hm.
  - split; [exact Hnr|exact Hinv].
  - split; [exact Hnr|]. intros i Hi. unfold store_entry.
    destruct (Z.eqb_spec (i - 1) (grub_e820_nr_map st - 1)); [lia|].
    destruct (Z.eqb_spec i (grub_e820_nr_map st - 1)) as [->|_];
      cbn [e_addr e_type]; apply Hinv; lia.
  - split; [lia|]. intros i Hi. unfold store_entry.
    destruct (Z.eqb_spec (i - 1) (grub_e820_nr_map st)); [lia|].
    destruct (Z.eqb_spec i (grub_e820_nr_map st)) as [->|Hne].
    + cbn [e_addr e_type]. exact Hdiff.
    + apply Hinv. lia.
Qed.

(** X13: the table [e820_map_from_efi_map] builds holds no two
    neighbours that [add_memory_region] would have merged.  Whatever the
    descriptors are, when the translation returns, no stored region has
    the type of the region stored before it and starts where that one
    ends (in 64-bit arithmetic); the count is not negative. *)
Theorem built_table_has_no_mergeable_neighbours (fuel : nat)
  (memory_map : Z -> grub_efi_memory_descriptor_t)
  (desc_size memory_map_size : Z) (st st' : mm_state) :
  e820_map_from_efi_map fuel memory_map desc_size memory_map_size st
  = Some st' ->
  0 <= grub_e820_nr_map st' /\ no_mergeable_neighbours st'.
Proof.
  unfold e820_map_from_efi_map. intros H.
  apply (efi_map_loop_keeps
           (fun s => 0 <= grub_e820_nr_map s /\ no_mergeable_neighbours s)
           memory_map desc_size memory_map_size) in H.
  - exact H.
  - apply translate_descriptor_keeps. intros start size type s.
    apply add_memory_region_no_mergeable.
  - cbn [grub_e820_nr_map set_e820_nr_map]. split; [lia|].
    intros i Hi. cbn [grub_e820_nr_map set_e820_nr_map] in Hi. lia.
Qed.

Lemma add_memory_region_within (m0 : Z -> e820_entry)
  (start size type : Z) (st : mm_state) :
  (0 <= grub_e820_nr_map st <= E820_MAX
   /\ forall i, i < -1 \/ E820_MAX <= i -> grub_e820_map st i = m0 i) ->
  let st' := add_memory_region start size type st in
  0 <= grub_e820_nr_map st' <= E820_MAX
  /\ forall i, i < -1 \/ E820_MAX <= i -> grub_e820_map st' i = m0 i.
Proof.
  intros [Hnr Hout] st'. subst st'.
  destruct (add_memory_region_cases start size type st)
    as [(Hx & Hn & Hm)|[(Hx & Hends & Hn & Hm)|(Hx & Hdiff & Hn & Hm)]];
    rewrite Hn, Hm.
  - split; [exact Hnr|exact Hout].
  - split; [exact Hnr|]. intros i Hi. unfold store_entry.
    destruct (Z.eqb_spec i (grub_e820_nr_map st - 1)); [lia|].
    apply Hout. exact Hi.
  - split; [lia|]. intros i Hi. unfold store_entry.
    destruct (Z.eqb_spec i (grub_e820_nr_map st)); [lia|].
    apply Hout. exact Hi.
Qed.

(** X14: the e820 table is never overrun.  With a capacity [E820_MAX]
    that is not negative, when the translation returns the count lies
    between 0 and [E820_MAX], and no entry at index [E820_MAX] or above,
    nor any below index -1, has been written, however many descriptors
    the firmware map holds. *)
Theorem built_table_stays_within_capacity (fuel : nat)
  (memory_map : Z -> grub_efi_memory_descriptor_t)
  (desc_size memory_map_size : Z) (st st' : mm_state) :
  0 <= E820_MAX ->
  e820_map_from_efi_map fuel memory_map desc_size memory_map_size st
  = Some st' ->
  0 <= grub_e820_nr_map st' <= E820_MAX
  /\ forall i, i < -1 \/ E820_MAX <= i ->
               grub_e820_map st' i = grub_e820_map st i.
Proof.
  unfold e820_map_from_efi_map. intros Hmax H.
  apply (efi_map_loop_keeps
           (fun s => 0 <= grub_e820_nr_map s <= E820_MAX
                     /\ forall i, i < -1 \/ E820_MAX <= i ->
                                  grub_e820_map s i = grub_e820_map st i)
           memory_map desc_size memory_map_size) in H.
  - exact H.
  - apply translate_descriptor_keeps. intros start size type s.
    apply add_memory_region_within.
  - cbn [grub_e820_nr_map grub_e820_map set_e820_nr_map].
    split; [lia|reflexivity].
Qed.

Lemma add_memory_region_clear (start size type : Z) (st : mm_state) :
  region_clear_of_hole (mk_e820 start size type) ->
  0 <= grub_e820_nr_map st /\ table_clear_of_hole st ->
  0 <= grub_e820_nr_map (add_memory_region start size type st)
  /\ table_clear_of_hole (add_memory_region start size type st).
Proof.
  intros (Hs & Hz & Hfit & Hram) [Hnr Hinv]. cbn [e_addr e_size e_type] in *.
  destruct (add_memory_region_cases start size type st)
    as [(Hx & Hn & Hm)|[(Hx & Hends & Hn & Hm)|(Hx & Hdiff & Hn & Hm)]];
    unfold table_clear_of_hole; rewrite Hn, Hm.
  - split; [exact Hnr|exact Hinv].
  - split; [exact Hnr|]. intros i Hi. unfold store_entry.
    destruct (Z.eqb_spec i (grub_e820_nr_map st - 1)) as [->|_];
      [|apply Hinv; exact Hi].
    destruct (Hinv (grub_e820_nr_map st - 1) ltac:(lia))
      as (Pa & Ps & Pfit & Pram).
    destruct Hends as [Hend Hty].
    rewrite wrap64_small in Hend by lia.
    unfold region_clear_of_hole. cbn [e_addr e_size e_type].
    rewrite wrap64_small by lia.
    split; [lia|]. split; [lia|]. split; [lia|].
    intros HT. specialize (Pram HT).
    assert (Hram' : start + size <= 0xA0000 \/ 0x100000 <= start)
      by (apply Hram; congruence).
    lia.
  - split; [lia|]. intros i Hi. unfold store_entry.
    destruct (Z.eqb_spec i (grub_e820_nr_map st)) as [->|Hne];
      [|apply Hinv; lia].
    unfold region_clear_of_hole. cbn [e_addr e_size e_type].
    split; [exact Hs|]. split; [exact Hz|]. split; [exact Hfit|exact Hram].
Qed.

Lemma translate_descriptor_clear (d : grub_efi_memory_descriptor_t)
  (st : mm_state) :
  well_formed_descriptor d ->
  0 <= grub_e820_nr_map st /\ table_clear_of_hole st ->
  0 <= grub_e820_nr_map (translate_descriptor d st)
  /\ table_clear_of_hole (translate_descriptor d st).
Proof.
  intros (Hs & Hn & Hfit) HP. unfold translate_descriptor.
  rewrite pages_to_bytes.
  remember (md_physical_start d) as start eqn:Hstart.
  remember (4096 * md_num_pages d) as size eqn:Hsize.
  assert (Hz : 0 <= size) by lia.
  rewrite (wrap64_small size) by lia.
  cbv zeta. rewrite (wrap64_small (start + size)) by lia.
  assert (Hplain : forall ty, ty <> E820_RAM ->
            region_clear_of_hole (mk_e820 start size ty)).
  { intros ty Hty. unfold region_clear_of_hole. cbn [e_addr e_size e_type].
    split; [lia|]. split; [lia|]. split; [lia|]. intros C. contradiction. }
  destruct (md_type d);
    try (apply add_memory_region_clear;
         [apply Hplain; discriminate|exact HP]);
    try exact HP.
  all: destruct (Z.ltb_spec start 0x100000) as [Hlo|Hlo];
    destruct (Z.ltb_spec 0xA0000 (start + size)) as [Hhi|Hhi];
    cbn [andb].
  all: try (apply add_memory_region_clear; [|exact HP];
            unfold region_clear_of_hole; cbn [e_addr e_size e_type];
            split; [lia|]; split; [lia|]; split; [lia|]; intros _; lia).
  all: destruct (Z.ltb_spec start 0xA0000) as [Hbelow|Hbelow];
    destruct (Z.leb_spec (start + size) 0x100000) as [Hend|Hend];
    try exact HP.
  all: rewrite ?(wrap64_small (0xA0000 - start)) by lia.
  all: rewrite ?(wrap64_small (start + size - 0x100000)) by lia.
  all: repeat (apply add_memory_region_clear;
               [unfold region_clear_of_hole; cbn [e_addr e_size e_type];
                split; [lia|]; split; [lia|]; split; [lia|]; intros _; lia
               |]).
  all: exact HP.
Qed.

(** X15: no RAM region of the built table overlaps the hole.  For a
    firmware map read with a stride above zero whose descriptors have
    ranges that fit in 64 bits, the translation returns, and every
    stored region then has a range that fits in 64 bits and, when it is
    RAM, lies wholly below [0xA0000] or wholly from [0x100000] on,
    merged regions included. *)
Theorem built_table_ram_avoids_hole (fuel : nat)
  (memory_map : Z -> grub_efi_memory_descriptor_t)
  (desc_size memory_map_size : Z) (st : mm_state) :
  0 < desc_size ->
  (List.length (visited memory_map desc_size memory_map_size) < fuel)%nat ->
  Forall well_formed_descriptor
         (visited memory_map desc_size memory_map_size) ->
  exists st',
    e820_map_from_efi_map fuel memory_map desc_size memory_map_size st
    = Some st'
    /\ table_clear_of_hole st'.
Proof.
  intros Hstride Hfuel Hwf.
  rewrite e820_map_from_visited by assumption.
  eexists. split; [reflexivity|].
  apply (fold_translate_keeps
           (fun s => 0 <= grub_e820_nr_map s /\ table_clear_of_hole s)
           well_formed_descriptor).
  - intros d s Hd Hs. apply translate_descriptor_clear; assumption.
  - exact Hwf.
  - cbn [grub_e820_nr_map set_e820_nr_map]. split; [lia|].
    intros i Hi. cbn [grub_e820_nr_map set_e820_nr_map] in Hi. lia.
Qed.


(** *** The bytes the built table covers *)

Lemma sum_Z_app (l1 l2 : list Z) : sum_Z (l1 ++ l2) = sum_Z l1 + sum_Z l2.
Proof.
  unfold sum_Z. induction l1 as [|x l1 IH]; cbn [app fold_right]; lia.
Qed.

Lemma region_sizes_succ (f : Z -> e820_entry) (n : nat) :
  sum_Z (map e_size (map (fun i => f (Z.of_nat i)) (seq 0 (S n))))
  = sum_Z (map e_size (map (fun i => f (Z.of_nat i)) (seq 0 n)))
    + e_size (f (Z.of_nat n)).
Proof.
  rewrite seq_S, !map_app, sum_Z_app. cbn [map Nat.add].
  unfold sum_Z at 2. cbn [fold_right]. lia.
Qed.

Lemma region_sizes_ext (f g : Z -> e820_entry) (n : nat) :
  (forall i, (i < n)%nat -> g (Z.of_nat i) = f (Z.of_nat i)) ->
  sum_Z (map e_size (map (fun i => g (Z.of_nat i)) (seq 0 n)))
  = sum_Z (map e_size (map (fun i => f (Z.of_nat i)) (seq 0 n))).
Proof.
  induction n as [|n IH]; intros H; [reflexivity|].
  rewrite !region_sizes_succ, IH by (intros i Hi; apply H; lia).
  rewrite H by lia. reflexivity.
Qed.

Lemma add_memory_region_bytes (start size type : Z) (st : mm_state) :
  sound_table st ->
  grub_e820_nr_map st < E820_MAX ->
  region_clear_of_hole (mk_e820 start size type) ->
  E820_RAM <= type <= E820_NVS ->
  let st' := add_memory_region start size type st in
  sound_table st'
  /\ grub_e820_nr_map st <= grub_e820_nr_map st' <= grub_e820_nr_map st + 1
  /\ stored_bytes st' = stored_bytes st + size.
Proof.
  intros (Hnr & Hclear & Hinert) Hroom Hregion Hty st'. subst st'.
  destruct (add_memory_region_clear start size type st Hregion
              (conj Hnr Hclear)) as [Hnr' Hclear'].
  destruct Hregion as (Hs & Hz & Hfit & _). cbn [e_addr e_size] in *.
  unfold sound_table, below_table_inert, stored_bytes, stored_regions.
  destruct (add_memory_region_cases start size type st)
    as [(Hx & _)|[(Hx & Hends & Hn & Hm)|(Hx & Hdiff & Hn & Hm)]];
    [lia| |].
  - assert (Hpos : 0 < grub_e820_nr_map st).
    { destruct (Z.eq_dec (grub_e820_nr_map st) 0) as [E|E]; [|lia].
      exfalso. rewrite E in Hends. destruct Hends as [_ Ht].
      change (0 - 1) with (-1) in Ht.
      unfold below_table_inert in Hinert. lia. }
    split; [|split; [lia|]].
    + split; [exact Hnr'|]. split; [exact Hclear'|].
      rewrite Hm. unfold store_entry.
      destruct (Z.eqb_spec (-1) (grub_e820_nr_map st - 1)); [lia|].
      exact Hinert.
    + rewrite Hn, Hm.
      replace (Z.to_nat (grub_e820_nr_map st))
        with (S (Z.to_nat (grub_e820_nr_map st - 1))) by lia.
      rewrite !region_sizes_succ.
      rewrite (region_sizes_ext (grub_e820_map st)).
      * unfold store_entry. rewrite Z2Nat.id by lia.
        rewrite Z.eqb_refl. cbn [e_size].
        destruct (Hclear (grub_e820_nr_map st - 1) ltac:(lia))
          as (Pa & Ps & Pfit & _).
        destruct Hends as [Hend _]. rewrite wrap64_small in Hend by lia.
        rewrite wrap64_small by lia. lia.
      * intros i Hi. unfold store_entry.
        destruct (Z.eqb_spec (Z.of_nat i) (grub_e820_nr_map st - 1));
          [lia|reflexivity].
  - split; [|split; [lia|]].
    + split; [exact Hnr'|]. split; [exact Hclear'|].
      rewrite Hm. unfold store_entry.
      destruct (Z.eqb_spec (-1) (grub_e820_nr_map st)); [lia|].
      exact Hinert.
    + rewrite Hn, Hm.
      replace (Z.to_nat (grub_e820_nr_map st + 1))
        with (S (Z.to_nat (grub_e820_nr_map st))) by lia.
      rewrite region_sizes_succ.
      rewrite (region_sizes_ext (grub_e820_map st)).
      * unfold store_entry. rewrite Z2Nat.id by lia.
        rewrite Z.eqb_refl. reflexivity.
      * intros i Hi. unfold store_entry.
        destruct (Z.eqb_spec (Z.of_nat i) (grub_e820_nr_map st));
          [lia|reflexivity].
Qed.

(** The case of the [switch] for the firmware types that are RAM. *)
Lemma ram_descriptor_bytes (d : grub_efi_memory_descriptor_t)
  (st : mm_state) :
  well_formed_descriptor d ->
  sound_table st ->
  grub_e820_nr_map st + 2 <= E820_MAX ->
  let st' :=
    let start := md_physical_start d in
    let size := wrap64 (Z.shiftl (md_num_pages d) 12) in
    let end_ := wrap64 (start + size) in
    if (start <? 0x100000) && (0xA0000 <? end_)
    then
      let st := if start <? 0xA0000
                then add_memory_region start (wrap64 (0xA0000 - start))
                                       E820_RAM st
                else st in
      if end_ <=? 0x100000 then st
      else add_memory_region 0x100000 (wrap64 (end_ - 0x100000))
                             E820_RAM st
    else add_memory_region start size E820_RAM st in
  sound_table st'
  /\ grub_e820_nr_map st <= grub_e820_nr_map st' <= grub_e820_nr_map st + 2
  /\ stored_bytes st'
     = stored_bytes st
       + bytes_outside_hole (md_physical_start d)
           (md_physical_start d + 4096 * md_num_pages d).
Proof.
  intros (Hs & Hn & Hfit) Hsound Hroom.
  rewrite pages_to_bytes.
  remember (md_physical_start d) as start eqn:Hstart.
  remember (4096 * md_num_pages d) as size eqn:Hsize.
  assert (Hz : 0 <= size) by lia.
  rewrite (wrap64_small size) by lia.
  cbv zeta. rewrite (wrap64_small (start + size)) by lia.
  unfold bytes_outside_hole.
  assert (Hram : E820_RAM <= E820_RAM <= E820_NVS)
    by (unfold E820_RAM, E820_NVS; lia).
  assert (Hone : forall a z s,
            sound_table s -> grub_e820_nr_map s < E820_MAX ->
            0 <= a -> 0 <= z -> a + z < 2 ^ 64 ->
            a + z <= 0xA0000 \/ 0x100000 <= a ->
            sound_table (add_memory_region a z E820_RAM s)
            /\ grub_e820_nr_map s
               <= grub_e820_nr_map (add_memory_region a z E820_RAM s)
               <= grub_e820_nr_map s + 1
            /\ stored_bytes (add_memory_region a z E820_RAM s)
               = stored_bytes s + z).
  { intros a z s Hso Hro Ha Hzz Hf Hout.
    apply add_memory_region_bytes; [exact Hso|exact Hro| |exact Hram].
    unfold region_clear_of_hole. cbn [e_addr e_size e_type].
    split; [exact Ha|]. split; [exact Hzz|]. split; [exact Hf|].
    intros _. exact Hout. }
  destruct (Z.ltb_spec start 0x100000) as [Hlo|Hlo];
    destruct (Z.ltb_spec 0xA0000 (start + size)) as [Hhi|Hhi];
    cbn [andb].
  2,3,4: destruct (Hone start size st Hsound) as (A & B & C);
    [lia|lia|lia|lia|lia|];
    (split; [exact A|]); (split; [lia|]); rewrite C; lia.
  destruct (Z.ltb_spec start 0xA0000) as [Hbelow|Hbelow];
    destruct (Z.leb_spec (start + size) 0x100000) as [Hend|Hend].
  - rewrite (wrap64_small (0xA0000 - start)) by lia.
    destruct (Hone start (0xA0000 - start) st Hsound) as (A & B & C);
      [lia|lia|lia|lia|lia|].
    split; [exact A|]. split; [lia|]. rewrite C. lia.
  - rewrite (wrap64_small (0xA0000 - start)) by lia.
    rewrite (wrap64_small (start + size - 0x100000)) by lia.
    destruct (Hone start (0xA0000 - start) st Hsound) as (A & B & C);
      [lia|lia|lia|lia|lia|].
    destruct (Hone 0x100000 (start + size - 0x100000) _ A) as (A2 & B2 & C2);
      [lia|lia|lia|lia|lia|].
    split; [exact A2|]. split; [lia|]. rewrite C2, C. lia.
  - split; [exact Hsound|]. split; [lia|]. lia.
  - rewrite (wrap64_small (start + size - 0x100000)) by lia.
    destruct (Hone 0x100000 (start + size - 0x100000) st Hsound)
      as (A & B & C); [lia|lia|lia|lia|lia|].
    split; [exact A|]. split; [lia|]. rewrite C. lia.
Qed.

Lemma translate_descriptor_bytes (d : grub_efi_memory_descriptor_t)
  (st : mm_state) :
  well_formed_descriptor d ->
  sound_table st ->
  grub_e820_nr_map st + 2 <= E820_MAX ->
  sound_table (translate_descriptor d st)
  /\ grub_e820_nr_map st <= grub_e820_nr_map (translate_descriptor d st)
     <= grub_e820_nr_map st + 2
  /\ stored_bytes (translate_descriptor d st)
     = stored_bytes st + reported_bytes d.
Proof.
  intros Hwf Hsound Hroom.
  pose proof (ram_descriptor_bytes d st Hwf Hsound Hroom) as Hramcase.
  assert (Hplain : forall ty,
            E820_RAM < ty <= E820_NVS ->
            sound_table
              (add_memory_region (md_physical_start d)
                 (wrap64 (Z.shiftl (md_num_pages d) 12)) ty st)
            /\ grub_e820_nr_map st
               <= grub_e820_nr_map
                    (add_memory_region (md_physical_start d)
                       (wrap64 (Z.shiftl (md_num_pages d) 12)) ty st)
               <= grub_e820_nr_map st + 2
            /\ stored_bytes
                 (add_memory_region (md_physical_start d)
                    (wrap64 (Z.shiftl (md_num_pages d) 12)) ty st)
               = stored_bytes st + 4096 * md_num_pages d).
  { intros ty Hty. destruct Hwf as (Hs & Hn & Hfit).
    rewrite pages_to_bytes.
    remember (4096 * md_num_pages d) as size eqn:Hsize.
    assert (Hz : 0 <= size) by lia.
    rewrite (wrap64_small size) by lia.
    destruct (add_memory_region_bytes (md_physical_start d) size ty st)
      as (A & B & C); [exact Hsound|lia| |lia|].
    - unfold region_clear_of_hole. cbn [e_addr e_size e_type].
      split; [lia|]. split; [lia|]. split; [lia|]. intros C. lia.
    - split; [exact A|]. split; [lia|exact C]. }
  unfold translate_descriptor, reported_bytes.
  destruct (md_type d); cbn [legacy_type].
  all: try exact Hramcase.
  all: try (apply Hplain; unfold E820_RAM, E820_ACPI, E820_RESERVED,
                          E820_NVS; lia).
  split; [exact Hsound|]. split; lia.
Qed.

Lemma fold_translate_bytes :
  forall ds st,
    Forall well_formed_descriptor ds ->
    sound_table st ->
    grub_e820_nr_map st + 2 * Z.of_nat (List.length ds) <= E820_MAX ->
    stored_bytes (fold_left (fun s d => translate_descriptor d s) ds st)
    = stored_bytes st + sum_Z (map reported_bytes ds).
Proof.
  induction ds as [|d ds IH]; intros st Hwf Hsound Hroom;
    cbn [fold_left map].
  - unfold sum_Z. cbn [fold_right]. lia.
  - inversion Hwf as [|d' ds' Hd Hds]; subst.
    cbn [List.length] in Hroom.
    destruct (translate_descriptor_bytes d st Hd Hsound) as (A & B & C);
      [lia|].
    rewrite IH by (try assumption; lia).
    rewrite C. unfold sum_Z. cbn [fold_right]. lia.
Qed.

(** X16: the built table covers the bytes the firmware reported.  For a
    firmware map read with a stride above zero, whose descriptors have
    ranges that fit in 64 bits and for which the table has room (two
    entries for each descriptor), and with nothing below the table that
    looks like a region, the translation returns and the sizes of the
    stored regions add up to the bytes of the descriptors of the types
    the translation keeps, those of RAM being counted outside the hole
    from [0xA0000] to [0x100000] only: merging and splitting lose and add
    no byte. *)
Theorem built_table_covers_reported_bytes (fuel : nat)
  (memory_map : Z -> grub_efi_memory_descriptor_t)
  (desc_size memory_map_size : Z) (st : mm_state) :
  0 < desc_size ->
  (List.length (visited memory_map desc_size memory_map_size) < fuel)%nat ->
  Forall well_formed_descriptor
         (visited memory_map desc_size memory_map_size) ->
  2 * Z.of_nat (List.length (visited memory_map desc_size memory_map_size))
  <= E820_MAX ->
  below_table_inert st ->
  exists st',
    e820_map_from_efi_map fuel memory_map desc_size memory_map_size st
    = Some st'
    /\ stored_bytes st'
       = sum_Z (map reported_bytes
                    (visited memory_map desc_size memory_map_size)).
Proof.
  intros Hstride Hfuel Hwf Hroom Hinert.
  rewrite e820_map_from_visited by assumption.
  eexists. split; [reflexivity|].
  rewrite fold_translate_bytes.
  - unfold stored_bytes, stored_regions.
    cbn [grub_e820_nr_map set_e820_nr_map]. reflexivity.
  - exact Hwf.
  - split; [cbn [grub_e820_nr_map set_e820_nr_map]; lia|]. split.
    + intros i Hi. cbn [grub_e820_nr_map set_e820_nr_map] in Hi. lia.
    + exact Hinert.
  - cbn [grub_e820_nr_map set_e820_nr_map]. lia.
Qed.


(** *** The scratch buffer of [update_e820_map] *)

(** X17: what becomes of the buffer [update_e820_map] allocates for the
    firmware map, on a table that exists and has a free slot, when the
    firmware grants a base [M] that no slot records and that is not the
    address of the table.  If reading the map
    fails, the function returns without a free-pages call: the buffer
    stays granted and stays recorded in the slot it was given.  In every
    other case, when the translation returns, the buffer is freed with
    its base and its two pages as the last call, and every slot has the
    base it had before. *)
Theorem update_e820_map_buffer_fate (fuel : nat) (M : Z) (st : mm_state) :
  allocated_pages st <> 0 ->
  (exists i, (i < MAX_ALLOCATED_PAGES)%nat
             /\ ap_addr (allocated_pages_mem st i) = 0) ->
  fw_allocate_pages fw (fw_calls st) GRUB_EFI_ALLOCATE_MAX_ADDRESS
    GRUB_EFI_LOADER_DATA (BYTES_TO_PAGES MEMORY_MAP_SIZE) 0x7fffffff
  = (GRUB_EFI_SUCCESS, M) ->
  0 < M <= 0x7fffffff ->
  M <> allocated_pages st ->
  (forall i, (i < MAX_ALLOCATED_PAGES)%nat ->
             ap_addr (allocated_pages_mem st i) <> M) ->
  let request :=
    AllocatePages GRUB_EFI_ALLOCATE_MAX_ADDRESS GRUB_EFI_LOADER_DATA
      (BYTES_TO_PAGES MEMORY_MAP_SIZE) 0x7fffffff GRUB_EFI_SUCCESS M in
  let reply :=
    fw_get_memory_map fw (request :: fw_calls st) MEMORY_MAP_SIZE M in
  let asked := GetMemoryMap MEMORY_MAP_SIZE M (mm_status reply) in
  (mm_status reply = GRUB_EFI_OTHER_STATUS ->
   exists st',
     update_e820_map fuel st = Some st'
     /\ fw_calls st' = asked :: request :: fw_calls st
     /\ exists k,
          (k < MAX_ALLOCATED_PAGES)%nat
          /\ ap_addr (allocated_pages_mem st k) = 0
          /\ allocated_pages_mem st' k
             = mk_allocated_page M (BYTES_TO_PAGES MEMORY_MAP_SIZE)
          /\ forall j, j <> k ->
                       allocated_pages_mem st' j = allocated_pages_mem st j)
  /\ (mm_status reply <> GRUB_EFI_OTHER_STATUS ->
      forall st',
        update_e820_map fuel st = Some st' ->
        fw_calls st'
        = FreePages M (BYTES_TO_PAGES MEMORY_MAP_SIZE)
          :: asked :: request :: fw_calls st
        /\ forall i, ap_addr (allocated_pages_mem st' i)
                     = ap_addr (allocated_pages_mem st i)).
Proof.
  intros Hp Hfree Ha HM Hne Hnew request reply asked.
  destruct (scan_slots_spec (allocated_pages_mem st) 0 Hfree)
    as (Hk & Hzero & Hbefore).
  set (k := scan_slots (allocated_pages_mem st) 0 0 MAX_ALLOCATED_PAGES) in *.
  set (P := BYTES_TO_PAGES MEMORY_MAP_SIZE) in *.
  set (st1 := set_allocated_pages_mem
                (store_slot k (mk_allocated_page M P)
                            (allocated_pages_mem st))
                (log_call request st)).
  assert (Halloc : grub_efi_allocate_pages 0 P st = (M, st1)).
  { unfold grub_efi_allocate_pages, call_allocate_pages.
    change (0x7fffffff <? 0) with false. change (0 =? 0) with true.
    cbv iota zeta. rewrite Ha. cbn [fst snd].
    destruct (Z.eqb_spec M 0) as [C|_]; [lia|].
    rewrite remember_pages_first_free; [|exact Hp|exact Hfree].
    rewrite (grub_addr_t_small M) by lia. reflexivity. }
  assert (Hrun : update_e820_map fuel st
                 = match mm_status reply with
                   | GRUB_EFI_OTHER_STATUS =>
                       Some (grub_printf "cannot get memory map"
                               (log_call asked st1))
                   | _ =>
                       option_map (grub_efi_free_pages M P)
                         (e820_map_from_efi_map fuel (mm_buffer reply)
                            (mm_desc_size reply) (mm_map_size reply)
                            (log_call asked st1))
                   end).
  { unfold update_e820_map. fold P. rewrite Halloc.
    destruct (Z.eqb_spec M 0) as [C|_]; [lia|].
    rewrite (grub_addr_t_small M) by lia.
    unfold grub_efi_get_memory_map, call_get_memory_map.
    change (fw_calls st1) with (request :: fw_calls st).
    fold reply. fold asked.
    destruct (mm_status reply); cbn [Z.ltb Z.compare];
      try reflexivity;
      destruct (e820_map_from_efi_map _ _ _ _ _); reflexivity. }
  split.
  - intros Hstatus. rewrite Hrun, Hstatus. eexists.
    split; [reflexivity|]. split; [reflexivity|].
    exists k. split; [exact Hk|]. split; [exact Hzero|].
    cbn [allocated_pages_mem grub_printf log_call set_allocated_pages_mem
         st1].
    unfold st1. cbn [allocated_pages_mem set_allocated_pages_mem].
    unfold store_slot. rewrite Nat.eqb_refl. split; [reflexivity|].
    intros j Hj. destruct (Nat.eqb_spec j k); [contradiction|reflexivity].
  - intros Hstatus st' Hres. rewrite Hrun in Hres.
    assert (Hsome : option_map (grub_efi_free_pages M P)
                      (e820_map_from_efi_map fuel (mm_buffer reply)
                         (mm_desc_size reply) (mm_map_size reply)
                         (log_call asked st1)) = Some st')
      by (destruct (mm_status reply); [exact Hres|exact Hres|
            exfalso; apply Hstatus; reflexivity]).
    destruct (e820_map_from_efi_map fuel (mm_buffer reply)
                (mm_desc_size reply) (mm_map_size reply)
                (log_call asked st1)) as [sC|] eqn:HsC;
      [|discriminate Hsome].
    cbn [option_map] in Hsome. inversion Hsome as [Hst']. clear Hsome.
    destruct (e820_map_from_efi_map_tracker _ _ _ _ _ _ HsC)
      as (Hptr & Hmem & Hlog).
    cbn [allocated_pages allocated_pages_mem fw_calls log_call] in
      Hptr, Hmem, Hlog.
    unfold st1 in Hptr, Hmem, Hlog.
    cbn [allocated_pages allocated_pages_mem fw_calls log_call
         set_allocated_pages_mem] in Hptr, Hmem, Hlog.
    split.
    + rewrite free_pages_calls, Hlog. reflexivity.
    + intros i. rewrite free_pages_table, Hptr, Hmem.
      destruct (Z.eqb_spec (allocated_pages st) 0) as [C|_];
        [contradiction|].
      destruct (Z.eqb_spec (allocated_pages st) M) as [C|_];
        [congruence|].
      cbn [negb andb]. cbv zeta.
      assert (Hscan : scan_slots
                        (store_slot k (mk_allocated_page M P)
                                    (allocated_pages_mem st))
                        M 0 MAX_ALLOCATED_PAGES = k).
      { apply scan_slots_least; [lia| |].
        - unfold store_slot. rewrite Nat.eqb_refl. reflexivity.
        - intros j Hj. unfold store_slot.
          destruct (Nat.eqb_spec j k); [lia|]. apply Hnew. lia. }
      rewrite Hscan.
      destruct (Nat.ltb_spec k MAX_ALLOCATED_PAGES) as [_|C]; [|lia].
      unfold store_slot.
      destruct (Nat.eqb_spec i k) as [->|_]; [|reflexivity].
      cbn [ap_addr]. symmetry. exact Hzero.
Qed.


(** *** Calls made without an allocation table *)

Lemma remember_pages_untracked (address pages : Z) (st : mm_state) :
  allocated_pages st = 0 ->
  remember_pages address pages st = (grub_addr_t address, st).
Proof. intros H. unfold remember_pages. rewrite H. reflexivity. Qed.

Lemma free_pages_untracked (address pages : Z) (st : mm_state) :
  allocated_pages st = 0 ->
  grub_efi_free_pages address pages st = call_free_pages address pages st.
Proof. intros H. unfold grub_efi_free_pages. rewrite H. reflexivity. Qed.

Lemma run_call_untracked (c : mm_call) (st : mm_state) :
  allocated_pages st = 0 ->
  allocated_pages (run_call st c) = 0
  /\ allocated_pages_mem (run_call st c) = allocated_pages_mem st
  /\ console (run_call st c) = console st.
Proof.
  intros H. destruct c as [pages|address pages|address pages];
    cbn [run_call].
  - unfold grub_efi_allocate_anypages, call_allocate_pages.
    destruct (fw_allocate_pages fw (fw_calls st) _ _ _ _) as [s a].
    cbn [fst snd].
    destruct s; try rewrite remember_pages_untracked by exact H;
      cbn [snd]; repeat split; exact H.
  - unfold grub_efi_allocate_pages, call_allocate_pages.
    destruct (0x7fffffff <? address); [repeat split; exact H|].
    cbv zeta.
    destruct (fw_allocate_pages fw (fw_calls st) _ _ _ _) as [s a].
    cbn [fst snd].
    destruct s; try (cbn [snd]; repeat split; exact H).
    destruct (a =? 0).
    + cbn [fw_calls log_call].
      destruct (fw_allocate_pages fw _ _ _ _ _) as [s2 a2].
      cbn [fst snd].
      rewrite free_pages_untracked by exact H.
      destruct s2; try rewrite remember_pages_untracked by exact H;
        cbn [snd]; repeat split; exact H.
    + rewrite remember_pages_untracked by exact H.
      cbn [snd]. repeat split; exact H.
  - rewrite free_pages_untracked by exact H. repeat split; exact H.
Qed.

(** X18: calls made while there is no allocation table (before
    [grub_efi_mm_init], or after it failed to obtain the page of the
    table).  Any run of allocations and releases leaves the pointer
    null, writes no slot and prints nothing; a successful request for
    any pages returns the granted base; and [grub_efi_mm_fini] then does
    nothing at all, so that what was granted meanwhile is not released
    by it. *)
Theorem without_table_nothing_is_recorded (calls : list mm_call)
  (st : mm_state) :
  allocated_pages st = 0 ->
  let st' := run_calls calls st in
  allocated_pages st' = 0
  /\ allocated_pages_mem st' = allocated_pages_mem st
  /\ console st' = console st
  /\ grub_efi_mm_fini st' = st'
  /\ forall pages a,
       fw_allocate_pages fw (fw_calls st') GRUB_EFI_ALLOCATE_ANY_PAGES
         GRUB_EFI_LOADER_DATA pages 0 = (GRUB_EFI_SUCCESS, a) ->
       fst (grub_efi_allocate_anypages pages st') = grub_addr_t a.
Proof.
  intros H st'.
  assert (Hrun : forall cs s,
            allocated_pages s = 0 ->
            allocated_pages (run_calls cs s) = 0
            /\ allocated_pages_mem (run_calls cs s) = allocated_pages_mem s
            /\ console (run_calls cs s) = console s).
  { unfold run_calls.
    induction cs as [|c cs IH]; intros s Hs; cbn [fold_left];
      [repeat split; exact Hs|].
    destruct (run_call_untracked c s Hs) as (A & B & C).
    destruct (IH (run_call s c) A) as (A' & B' & C').
    split; [exact A'|]. split; congruence. }
  destruct (Hrun calls st H) as (A & B & C). fold st' in A, B, C.
  split; [exact A|]. split; [exact B|]. split; [exact C|]. split.
  - unfold grub_efi_mm_fini. rewrite A. reflexivity.
  - intros pages a Ha.
    unfold grub_efi_allocate_anypages, call_allocate_pages.
    rewrite Ha. cbn [fst snd].
    rewrite remember_pages_untracked by exact A. reflexivity.
Qed.

End Efimm.

(** ** Instances *)

Lemma full_state_is_full : table_full full_state.
Proof.
  intros i _. unfold full_state, allocated_pages_mem, ap_addr. lia.
Qed.

(** [full_table_allocation_returns_null] on the full table: the firmware
    grants one page at 1 MiB and the caller is given NULL. *)
Lemma full_table_allocation_returns_null_witness :
  grub_efi_allocate_anypages Word64 sample_firmware 1 full_state
  = (0, grub_printf "too many page allocations"
          (log_call (AllocatePages GRUB_EFI_ALLOCATE_ANY_PAGES
                       GRUB_EFI_LOADER_DATA 1 0 GRUB_EFI_SUCCESS 0x100000)
                    full_state)).
Proof.
  apply (proj1 (full_table_allocation_returns_null Word64 sample_firmware
                  1 full_state
                  ltac:(unfold full_state, allocated_pages; lia)
                  full_state_is_full)).
  reflexivity.
Defined.

(** C1 as the spec states it fails: the table is full, the firmware grants
    the pages, and neither function returns the granted base. *)
Lemma full_table_allocation_not_returned :
  table_full full_state
  /\ fw_allocate_pages sample_firmware (fw_calls full_state)
       GRUB_EFI_ALLOCATE_ANY_PAGES GRUB_EFI_LOADER_DATA 1 0
     = (GRUB_EFI_SUCCESS, 0x100000)
  /\ fst (grub_efi_allocate_anypages Word64 sample_firmware 1 full_state)
     <> 0x100000
  /\ fw_allocate_pages sample_firmware (fw_calls full_state)
       GRUB_EFI_ALLOCATE_ADDRESS GRUB_EFI_LOADER_DATA 1 0x200000
     = (GRUB_EFI_SUCCESS, 0x200000)
  /\ fst (grub_efi_allocate_pages Word64 sample_firmware 0x200000 1
            full_state)
     <> 0x200000.
Proof.
  split; [exact full_state_is_full|].
  split; [reflexivity|].
  split; [vm_compute; discriminate|].
  split; [reflexivity|].
  vm_compute; discriminate.
Qed.

(** [update_e820_map_outcomes] when the firmware refuses the map request:
    the table stays empty. *)
Lemma update_e820_map_outcomes_witness :
  option_map stored_regions
    (update_e820_map 128 Word64 failing_map_firmware 0 boot_state)
  = Some [].
Proof.
  rewrite (proj1 (proj2 (update_e820_map_outcomes 128 Word64
                           failing_map_firmware 0 boot_state
                           ltac:(vm_compute; discriminate)))
             eq_refl).
  reflexivity.
Defined.

(** C2 as the spec states it fails: the firmware reports that the buffer
    is too small, and [update_e820_map] translates the buffer all the
    same; the table ends with one entry, not empty. *)
Lemma buffer_too_small_is_translated :
  mm_status (fw_get_memory_map short_buffer_firmware
               [AllocatePages GRUB_EFI_ALLOCATE_MAX_ADDRESS
                  GRUB_EFI_LOADER_DATA 2 0x7fffffff GRUB_EFI_SUCCESS
                  0x100000]
               MEMORY_MAP_SIZE 0x100000)
  = GRUB_EFI_BUFFER_TOO_SMALL
  /\ stored_regions boot_state = []
  /\ option_map stored_regions
       (update_e820_map 128 Word64 short_buffer_firmware 300 boot_state)
     = Some [mk_e820 0 0 E820_RESERVED]
  /\ option_map fw_calls
       (update_e820_map 128 Word64 short_buffer_firmware 300 boot_state)
     = Some [FreePages 0x100000 2;
             GetMemoryMap 0x2000 0x100000 GRUB_EFI_BUFFER_TOO_SMALL;
             AllocatePages GRUB_EFI_ALLOCATE_MAX_ADDRESS
               GRUB_EFI_LOADER_DATA 2 0x7fffffff GRUB_EFI_SUCCESS 0x100000].
Proof.
  repeat split; vm_compute; reflexivity.
Qed.

(** [allocate_pages_zero_retry] when the firmware first grants page 0: the
    second request is granted at [0x110000], page 0 is given back, and the
    caller receives [0x110000]. *)
Lemma allocate_pages_zero_retry_witness :
  let request := AllocatePages GRUB_EFI_ALLOCATE_MAX_ADDRESS
                               GRUB_EFI_LOADER_DATA 1 0x7fffffff in
  fw_calls (snd (grub_efi_allocate_pages Word64 zero_first_firmware 0 1
                   boot_state))
  = [FreePages 0 1; request GRUB_EFI_SUCCESS 0x110000;
     request GRUB_EFI_SUCCESS 0]
  /\ fst (grub_efi_allocate_pages Word64 zero_first_firmware 0 1 boot_state)
     = 0x110000.
Proof.
  intros request. split; [|reflexivity].
  exact (proj1 (proj1 (allocate_pages_zero_retry Word64 zero_first_firmware
                         1 boot_state) eq_refl)).
Defined.

(** [ram_descriptor_split_at_hole] on the two ranges the spec names:
    [0x90000, 0x110000) and [0xA0000, 0xF0000). *)
Lemma ram_descriptor_split_at_hole_witness :
  (exists st',
     e820_map_from_efi_map 128 2
       (packed 48 [mk_descriptor GRUB_EFI_CONVENTIONAL_MEMORY 0x90000 0x80])
       48 (1 * 48) boot_state = Some st'
     /\ stored_regions st'
        = [mk_e820 0x90000 0x10000 E820_RAM;
           mk_e820 0x100000 0x10000 E820_RAM])
  /\
  (exists st',
     e820_map_from_efi_map 128 2
       (packed 48 [mk_descriptor GRUB_EFI_CONVENTIONAL_MEMORY 0xA0000 0x50])
       48 (1 * 48) boot_state = Some st'
     /\ stored_regions st' = []).
Proof.
  split.
  - apply (proj1 (proj2 (ram_descriptor_split_at_hole 128))
             (mk_descriptor GRUB_EFI_CONVENTIONAL_MEMORY 0x90000 0x80)
             48 2%nat boot_state); cbn; try reflexivity; try lia.
    + unfold below_table_differs, ends_at. cbn. intros [_ C]. discriminate C.
    + unfold below_table_differs, ends_at. cbn. intros [_ C]. discriminate C.
  - apply (proj2 (proj2 (ram_descriptor_split_at_hole 128))
             (mk_descriptor GRUB_EFI_CONVENTIONAL_MEMORY 0xA0000 0x50)
             48 2%nat boot_state); cbn; try reflexivity; lia.
Defined.

(** [add_memory_region_merge_rule]: on a table holding RAM
    [0x100000, 0x200000), appending RAM from [0x200000] extends that entry;
    on a table whose last entry ends at [0x1000] once its end is taken
    modulo [2 ^ 64], appending from [0x1000] extends it too; and two RAM
    descriptors below the hole, and two from 1 MiB on, translated from
    the boot state. *)
Lemma add_memory_region_merge_rule_witness :
  add_memory_region 128 0x200000 0x10000 E820_RAM one_region_state
  = set_e820_map
      (store_entry 0 (mk_e820 0x100000 0x110000 E820_RAM) sample_regions)
      one_region_state
  /\
  (let st := mk_state 0 (fun _ => zero_page) 1
               (fun _ => mk_e820 0xFFFFFFFFFFFFF000 0x2000 E820_RESERVED)
               [] [] in
   stored_regions (add_memory_region 128 0x1000 0x1000 E820_RESERVED st)
   = [mk_e820 0xFFFFFFFFFFFFF000 0x3000 E820_RESERVED])
  /\
  (exists st',
     e820_map_from_efi_map 128 3
       (packed 48 [mk_descriptor GRUB_EFI_CONVENTIONAL_MEMORY 0x1000 1;
                   mk_descriptor GRUB_EFI_CONVENTIONAL_MEMORY 0x2000 1])
       48 (2 * 48) boot_state = Some st'
     /\ stored_regions st' = [mk_e820 0x1000 0x2000 E820_RAM])
  /\
  (exists st',
     e820_map_from_efi_map 128 3
       (packed 48 [mk_descriptor GRUB_EFI_CONVENTIONAL_MEMORY 0x100000 0x10;
                   mk_descriptor GRUB_EFI_LOADER_CODE 0x110000 0x20])
       48 (2 * 48) boot_state = Some st'
     /\ stored_regions st' = [mk_e820 0x100000 0x30000 E820_RAM])
  /\
  (exists st',
     e820_map_from_efi_map 128 3
       (packed 48 [mk_descriptor GRUB_EFI_CONVENTIONAL_MEMORY 0x100000 0x10;
                   mk_descriptor GRUB_EFI_LOADER_CODE 0x120000 0x20])
       48 (2 * 48) boot_state = Some st'
     /\ stored_regions st' = [mk_e820 0x100000 0x10000 E820_RAM;
                              mk_e820 0x120000 0x20000 E820_RAM]).
Proof.
  assert (Hpair : forall d1 d2,
            plain_descriptor d1 E820_RAM -> plain_descriptor d2 E820_RAM ->
            below_table_differs boot_state (md_physical_start d1) E820_RAM ->
            exists st',
              e820_map_from_efi_map 128 3 (packed 48 [d1; d2]) 48 (2 * 48)
                                    boot_state = Some st'
              /\ (md_physical_start d2
                  = md_physical_start d1 + 4096 * md_num_pages d1 ->
                  stored_regions st'
                  = [mk_e820 (md_physical_start d1)
                       (4096 * md_num_pages d1 + 4096 * md_num_pages d2)
                       E820_RAM])
              /\ (md_physical_start d2
                  <> md_physical_start d1 + 4096 * md_num_pages d1 ->
                  stored_regions st'
                  = [mk_e820 (md_physical_start d1) (4096 * md_num_pages d1)
                       E820_RAM;
                     mk_e820 (md_physical_start d2) (4096 * md_num_pages d2)
                       E820_RAM])).
  { intros d1 d2 P1 P2 Hbelow.
    apply (proj1 (proj2 (add_memory_region_merge_rule 128))
             d1 d2 E820_RAM 48 3%nat boot_state); try lia; assumption. }
  assert (Hbelow : forall start,
            below_table_differs boot_state start E820_RAM).
  { intros start. unfold below_table_differs, ends_at. cbn.
    intros [_ C]. discriminate C. }
  split; [|split; [|split; [|split]]].
  - apply (proj1 (add_memory_region_merge_rule 128)
             0x200000 0x10000 E820_RAM one_region_state);
      cbn; try reflexivity; lia.
  - intros st.
    rewrite (proj1 (add_memory_region_merge_rule 128)
               0x1000 0x1000 E820_RESERVED st);
      [reflexivity|cbn; lia|cbn; lia|reflexivity|reflexivity].
  - destruct (Hpair (mk_descriptor GRUB_EFI_CONVENTIONAL_MEMORY 0x1000 1)
                    (mk_descriptor GRUB_EFI_CONVENTIONAL_MEMORY 0x2000 1))
      as (st' & Hrun & Hmerged & _).
    + unfold plain_descriptor; cbn; repeat split; try reflexivity; lia.
    + unfold plain_descriptor; cbn; repeat split; try reflexivity; lia.
    + apply Hbelow.
    + exists st'. split; [exact Hrun|]. apply Hmerged. reflexivity.
  - destruct (Hpair (mk_descriptor GRUB_EFI_CONVENTIONAL_MEMORY 0x100000 0x10)
                    (mk_descriptor GRUB_EFI_LOADER_CODE 0x110000 0x20))
      as (st' & Hrun & Hmerged & _).
    + unfold plain_descriptor; cbn; repeat split; try reflexivity; lia.
    + unfold plain_descriptor; cbn; repeat split; try reflexivity; lia.
    + apply Hbelow.
    + exists st'. split; [exact Hrun|]. apply Hmerged. reflexivity.
  - destruct (Hpair (mk_descriptor GRUB_EFI_CONVENTIONAL_MEMORY 0x100000 0x10)
                    (mk_descriptor GRUB_EFI_LOADER_CODE 0x120000 0x20))
      as (st' & Hrun & _ & Hapart).
    + unfold plain_descriptor; cbn; repeat split; try reflexivity; lia.
    + unfold plain_descriptor; cbn; repeat split; try reflexivity; lia.
    + apply Hbelow.
    + exists st'. split; [exact Hrun|]. apply Hapart. cbn. lia.
Defined.

(** C5 as the spec states it fails on a full table: the entry stored last
    is RAM and ends where the new RAM region starts, yet the call drops
    the region with a message and the length of that entry stays. *)
Lemma full_table_append_is_dropped :
  let prev := grub_e820_map full_e820_state
                (grub_e820_nr_map full_e820_state - 1) in
  let st := add_memory_region 128 0xFF00000 0x10000 E820_RAM
                              full_e820_state in
  e_type prev = E820_RAM
  /\ e_addr prev + e_size prev = 0xFF00000
  /\ e_size (grub_e820_map st 127) = e_size prev
  /\ e_size (grub_e820_map st 127) <> e_size prev + 0x10000
  /\ grub_e820_nr_map st = 128
  /\ console st = ["Too many entries in the memory map!" ++ newline]%string.
Proof.
  cbv zeta. repeat split; try (vm_compute; reflexivity).
  vm_compute. discriminate.
Qed.

(** C6: the first append reads the entry below the table.  With an empty
    table, [add_memory_region] tests [e820_map[-1]]: when the bytes there
    read as a RAM region ending at the new start, the new region is added
    to them and the table stays empty, although the table proper is the
    same as in the boot state, where the same call stores the region at
    index 0.  The translation of a descriptor spanning
    [0x90000, 0x110000) then loses its part below the hole. *)
Lemma first_append_reads_below_table :
  grub_e820_nr_map below_aliased_state = 0
  /\ (forall i, 0 <= i ->
        grub_e820_map below_aliased_state i = grub_e820_map boot_state i)
  /\ stored_regions
       (add_memory_region 128 0x90000 0x10000 E820_RAM boot_state)
     = [mk_e820 0x90000 0x10000 E820_RAM]
  /\ stored_regions
       (add_memory_region 128 0x90000 0x10000 E820_RAM below_aliased_state)
     = []
  /\ grub_e820_map
       (add_memory_region 128 0x90000 0x10000 E820_RAM below_aliased_state)
       (-1)
     = mk_e820 0x80000 0x20000 E820_RAM
  /\ option_map stored_regions
       (e820_map_from_efi_map 128 2
          (packed 48 [mk_descriptor GRUB_EFI_CONVENTIONAL_MEMORY 0x90000 0x80])
          48 48 below_aliased_state)
     = Some [mk_e820 0x100000 0x10000 E820_RAM].
Proof.
  split; [reflexivity|]. split.
  - intros i Hi. unfold below_aliased_state, boot_state, grub_e820_map,
      store_entry.
    destruct (Z.eqb_spec i (-1)); [lia|reflexivity].
  - repeat split; vm_compute; reflexivity.
Qed.

(** C4: the split at the hole on the range [0x90000, 0x110000).  The
    table of [below_aliased_state] is the table of the boot state, and
    both are empty.  From the boot state the descriptor leaves the two
    RAM entries [0x90000, 0xA0000) and [0x100000, 0x110000).  From
    [below_aliased_state] it leaves the second entry alone: the part
    below the hole is passed to [add_memory_region], which finds
    [e820_map[-1]] ending at [0x90000] and adds the [0x10000] bytes to
    it, below the table. *)
Lemma split_at_hole_loses_part_below_table :
  let d := mk_descriptor GRUB_EFI_CONVENTIONAL_MEMORY 0x90000 0x80 in
  let run := e820_map_from_efi_map 128 2 (packed 48 [d]) 48 48 in
  stored_regions below_aliased_state = []
  /\ stored_regions boot_state = []
  /\ (forall i, 0 <= i ->
        grub_e820_map below_aliased_state i = grub_e820_map boot_state i)
  /\ option_map stored_regions (run boot_state)
     = Some [mk_e820 0x90000 0x10000 E820_RAM;
             mk_e820 0x100000 0x10000 E820_RAM]
  /\ option_map stored_regions (run below_aliased_state)
     = Some [mk_e820 0x100000 0x10000 E820_RAM]
  /\ option_map (fun st => grub_e820_map st (-1)) (run below_aliased_state)
     = Some (mk_e820 0x80000 0x20000 E820_RAM)
  /\ translate_descriptor 128 d (set_e820_nr_map 0 below_aliased_state)
     = add_memory_region 128 0x100000 0x10000 E820_RAM
         (add_memory_region 128 0x90000 0x10000 E820_RAM
            (set_e820_nr_map 0 below_aliased_state)).
Proof.
  intros d run.
  split; [reflexivity|]. split; [reflexivity|]. split.
  - intros i Hi. unfold below_aliased_state, boot_state, grub_e820_map,
      store_entry.
    destruct (Z.eqb_spec i (-1)); [lia|reflexivity].
  - repeat split; vm_compute; reflexivity.
Qed.


(** [get_mmap_entry_protocol] on the empty table of the boot state, where
    continuation 0 is out of range, and on a table of three regions. *)
Lemma get_mmap_entry_protocol_witness :
  (fst (get_mmap_entry (mk_mmar 20 1 2 3) 0 boot_state) = 0
   /\ desc_len (snd (get_mmap_entry (mk_mmar 20 1 2 3) 0 boot_state)) = 0)
  /\
  (let d := mk_mmar 0 0 0 0 in
   let c1 := fst (get_mmap_entry d 0 three_region_state) in
   let c2 := fst (get_mmap_entry d c1 three_region_state) in
   let c3 := fst (get_mmap_entry d c2 three_region_state) in
   c1 = 1 /\ c2 = 2 /\ c3 = 0
   /\ [snd (get_mmap_entry d 0 three_region_state);
       snd (get_mmap_entry d c1 three_region_state);
       snd (get_mmap_entry d c2 three_region_state)]
      = map mmar_of_entry (stored_regions three_region_state)).
Proof.
  split.
  - apply (proj1 (get_mmap_entry_protocol boot_state)).
    right. unfold boot_state, grub_e820_nr_map. lia.
  - intros d.
    exact (proj2 (proj2 (get_mmap_entry_protocol three_region_state))
             eq_refl d d d).
Defined.

(** [init_then_fini_releases_everything] on the sample firmware: the
    start returns, and after the end nothing stays granted. *)
Lemma init_then_fini_releases_everything_witness :
  (exists fuel st1,
     grub_efi_mm_init 128 Word64 sample_firmware fuel boot_state = Some st1)
  /\
  exists st1,
    grub_efi_mm_init 128 Word64 sample_firmware 4 boot_state = Some st1
    /\ outstanding (fw_calls (grub_efi_mm_fini Word64 st1)) = []
    /\ stray_frees (fw_calls (grub_efi_mm_fini Word64 st1)) = [].
Proof.
  pose proof (init_then_fini_releases_everything 128 Word64 sample_firmware
                boot_state eq_refl eq_refl) as [Hreturns Hbalanced].
  split.
  - apply Hreturns. intros log size buffer _. reflexivity.
  - eexists. split; [vm_compute; reflexivity|].
    destruct (Hbalanced 4%nat _ ltac:(vm_compute; reflexivity)
                ltac:(vm_compute; reflexivity)
                ltac:(vm_compute; reflexivity)) as (Hout & Hstray & _).
    split; [exact Hout|exact Hstray].
Defined.

(** The same when the map request is refused: the buffer of the map is
    still recorded when the end comes, and is freed then. *)
Lemma init_then_fini_after_refused_map :
  option_map (fun st => fw_calls (grub_efi_mm_fini Word64 st))
    (grub_efi_mm_init 128 Word64 failing_map_firmware 0 boot_state)
  = Some [FreePages 0x100000 1;
          FreePages 0x110000 2;
          GetMemoryMap 0x2000 0x110000 GRUB_EFI_OTHER_STATUS;
          AllocatePages GRUB_EFI_ALLOCATE_MAX_ADDRESS GRUB_EFI_LOADER_DATA
            2 0x7fffffff GRUB_EFI_SUCCESS 0x110000;
          AllocatePages GRUB_EFI_ALLOCATE_MAX_ADDRESS GRUB_EFI_LOADER_DATA
            1 0x7fffffff GRUB_EFI_SUCCESS 0x100000].
Proof. vm_compute. reflexivity. Qed.

(** Start and end when the firmware first grants page 0: page 0 is given
    back during the start, and the log is balanced at the end. *)
Lemma init_then_fini_after_page_zero :
  option_map (fun st => (outstanding (fw_calls (grub_efi_mm_fini Word64 st)),
                         stray_frees (fw_calls (grub_efi_mm_fini Word64 st)),
                         List.length (fw_calls (grub_efi_mm_fini Word64 st))))
    (grub_efi_mm_init 128 Word64 zero_first_firmware 4 boot_state)
  = Some ([], [], 7%nat).
Proof. vm_compute. reflexivity. Qed.

(** [allocate_pages_above_ceiling] at the first address above the ceiling. *)
Lemma allocate_pages_above_ceiling_witness :
  grub_efi_allocate_pages Word32 sample_firmware 0x80000000 1 boot_state
  = (0, boot_state).
Proof.
  apply (allocate_pages_above_ceiling Word32 sample_firmware
           0x80000000 1 boot_state).
  reflexivity.
Defined.


(** *** Instances of the further properties *)

Lemma two_slot_state_present : allocated_pages two_slot_state <> 0.
Proof. unfold two_slot_state, allocated_pages. lia. Qed.

Lemma two_slot_state_has_room :
  exists i, (i < MAX_ALLOCATED_PAGES)%nat
            /\ ap_addr (allocated_pages_mem two_slot_state i) = 0.
Proof.
  exists 1%nat. split; [rewrite max_allocated_pages_value; lia|reflexivity].
Qed.

Lemma two_slot_state_bases (i : nat) :
  ap_addr (allocated_pages_mem two_slot_state i) = 0x200000
  \/ ap_addr (allocated_pages_mem two_slot_state i) = 0x300000
  \/ ap_addr (allocated_pages_mem two_slot_state i) = 0.
Proof.
  destruct i as [|[|[|i]]]; cbn;
    [left|right; right|right; left|right; right]; reflexivity.
Qed.

Lemma two_slot_state_apart :
  forall j, (j < MAX_ALLOCATED_PAGES)%nat ->
            ap_addr (allocated_pages_mem two_slot_state j)
            <> allocated_pages two_slot_state.
Proof.
  intros j _. change (allocated_pages two_slot_state) with 0x7f000000.
  destruct (two_slot_state_bases j) as [H|[H|H]]; rewrite H; lia.
Qed.

Lemma two_slot_state_fit : slots_fit Word64 two_slot_state.
Proof.
  intros i _ Hnz.
  destruct i as [|[|[|i]]]; cbn in Hnz; try contradiction;
    split; reflexivity.
Qed.

(** [allocation_takes_first_free_slot]: with slots 0 and 2 in use, three
    pages granted at 1 MiB are recorded in slot 1. *)
Lemma allocation_takes_first_free_slot_witness :
  grub_efi_allocate_anypages Word64 sample_firmware 3 two_slot_state
  = (0x100000,
     set_allocated_pages_mem
       (store_slot 1 (mk_allocated_page 0x100000 3)
                   (allocated_pages_mem two_slot_state))
       (log_call (AllocatePages GRUB_EFI_ALLOCATE_ANY_PAGES
                    GRUB_EFI_LOADER_DATA 3 0 GRUB_EFI_SUCCESS 0x100000)
                 two_slot_state)).
Proof.
  destruct (allocation_takes_first_free_slot Word64 sample_firmware 3
              two_slot_state two_slot_state_present two_slot_state_has_room)
    as (k & Hk & Hzero & Hbefore & Hany & _).
  rewrite (Hany 0x100000 eq_refl).
  destruct k as [|[|k]].
  - cbn in Hzero. discriminate Hzero.
  - reflexivity.
  - exfalso. apply (Hbefore 1%nat); [lia|reflexivity].
Defined.

(** [free_pages_clears_first_match]: freeing the base of slot 2 sets the
    base of slot 2 to 0 and keeps its page count. *)
Lemma free_pages_clears_first_match_witness :
  allocated_pages_mem (grub_efi_free_pages 0x300000 1 two_slot_state)
  = store_slot 2 (mk_allocated_page 0 1) (allocated_pages_mem two_slot_state).
Proof.
  apply (proj1 (proj2 (proj2 (free_pages_clears_first_match 0x300000 1
                                two_slot_state)))
           2%nat two_slot_state_present).
  - unfold two_slot_state, allocated_pages. lia.
  - rewrite max_allocated_pages_value. lia.
  - reflexivity.
  - intros j Hj. destruct (two_slot_state_bases j) as [H|[H|H]].
    + rewrite H. lia.
    + exfalso. destruct j as [|[|j]]; [discriminate H|discriminate H|lia].
    + rewrite H. lia.
Defined.

(** [allocate_then_free_restores_bases]: slot 1, free before three pages
    at 1 MiB were allocated, is free again once they are released. *)
Lemma allocate_then_free_restores_bases_witness :
  ap_addr (allocated_pages_mem
             (grub_efi_free_pages 0x100000 3
                (snd (grub_efi_allocate_anypages Word64 sample_firmware 3
                        two_slot_state))) 1)
  = 0.
Proof.
  apply (allocate_then_free_restores_bases Word64 sample_firmware 3 0x100000
           two_slot_state eq_refl).
  - unfold two_slot_state, allocated_pages. lia.
  - intros i _ _. destruct (two_slot_state_bases i) as [H|[H|H]];
      rewrite H; lia.
  - rewrite max_allocated_pages_value. lia.
Defined.

(** [anypages_keeps_page_zero] on the firmware that grants page 0 first:
    the caller is given NULL and page 0 stays granted. *)
Lemma anypages_keeps_page_zero_witness :
  fst (grub_efi_allocate_anypages Word64 zero_first_firmware 1 boot_state) = 0
  /\ outstanding
       (fw_calls (snd (grub_efi_allocate_anypages Word64 zero_first_firmware
                         1 boot_state)))
     = [(0, 1)].
Proof.
  destruct (anypages_keeps_page_zero Word64 zero_first_firmware 1 boot_state
              eq_refl) as (Hnull & _ & Hout & _).
  split; [exact Hnull|exact Hout].
Defined.

(** [free_slot_accounting]: 254 slots are free in the sample table, 253
    after an allocation. *)
Lemma free_slot_accounting_witness :
  free_slots
    (allocated_pages_mem
       (snd (grub_efi_allocate_anypages Word64 sample_firmware 3
               two_slot_state)))
    MAX_ALLOCATED_PAGES
  = 253%nat.
Proof.
  pose proof (free_slot_accounting Word64 sample_firmware two_slot_state)
    as H.
  cbv zeta beta in H.
  destruct H as (_ & _ & _ & Htake & _).
  apply eq_add_S.
  rewrite (Htake 3 0x100000 two_slot_state_present
             ltac:(vm_compute; lia) eq_refl ltac:(lia)).
  vm_compute. reflexivity.
Defined.

(** [fini_frees_recorded_ranges_in_slot_order] on the sample table: the
    ranges of slots 0 and 2 are freed in that order, then the page of
    the table. *)
Lemma fini_frees_recorded_ranges_in_slot_order_witness :
  fw_calls (grub_efi_mm_fini Word64 two_slot_state)
  = [FreePages 0x7f000000 1; FreePages 0x300000 1; FreePages 0x200000 4]
  /\ table_empty (grub_efi_mm_fini Word64 two_slot_state).
Proof.
  destruct (fini_frees_recorded_ranges_in_slot_order Word64 two_slot_state
              two_slot_state_present eq_refl two_slot_state_apart
              two_slot_state_fit) as (Hempty & Hlog & _).
  split; [|exact Hempty].
  rewrite Hlog. vm_compute. reflexivity.
Defined.

(** [fini_twice_frees_table_twice] on the sample table. *)
Lemma fini_twice_frees_table_twice_witness :
  fw_calls (grub_efi_mm_fini Word64 (grub_efi_mm_fini Word64 two_slot_state))
  = [FreePages 0x7f000000 1; FreePages 0x7f000000 1;
     FreePages 0x300000 1; FreePages 0x200000 4].
Proof.
  destruct (proj2 (fini_twice_frees_table_twice Word64 two_slot_state)
              two_slot_state_present eq_refl two_slot_state_apart
              two_slot_state_fit) as (_ & Hlog).
  rewrite Hlog. vm_compute. reflexivity.
Defined.

(** [allocation_calls_keep_e820_table] on a table of three regions. *)
Lemma allocation_calls_keep_e820_table_witness :
  stored_regions
    (run_calls Word64 sample_firmware
       [AllocateAnypages 1; AllocatePagesAt 0 2; FreePagesAt 0x100000 1]
       three_region_state)
  = stored_regions three_region_state.
Proof.
  destruct (proj1 (allocation_calls_keep_e820_table Word64 sample_firmware
                     [AllocateAnypages 1; AllocatePagesAt 0 2;
                      FreePagesAt 0x100000 1] three_region_state))
    as [Hn Hm].
  unfold stored_regions. rewrite Hn, Hm. reflexivity.
Defined.

(** [translation_keeps_allocation_table]: translating the sample map
    leaves the sample allocation table as it is. *)
Lemma translation_keeps_allocation_table_witness :
  exists st',
    e820_map_from_efi_map 128 4 sample_map 48 144 two_slot_state = Some st'
    /\ same_tracker two_slot_state st'.
Proof.
  eexists. split; [vm_compute; reflexivity|].
  apply (translation_keeps_allocation_table 128 4 sample_map 48 144
           two_slot_state).
  vm_compute. reflexivity.
Defined.

(** [requests_stay_below_two_gib] from the boot state. *)
Lemma requests_stay_below_two_gib_witness :
  Forall request_bounded
    (fw_calls (run_calls Word64 sample_firmware
                 [AllocatePagesAt 0 2; AllocateAnypages 1;
                  AllocatePagesAt 0x80000000 1] boot_state)).
Proof.
  exact (proj1 (requests_stay_below_two_gib 128 Word64 sample_firmware
                  [AllocatePagesAt 0 2; AllocateAnypages 1;
                   AllocatePagesAt 0x80000000 1] 4 boot_state
                  (Forall_nil request_bounded))).
Defined.

(** [mmap_walk_lists_stored_regions] on a table of three regions. *)
Lemma mmap_walk_lists_stored_regions_witness :
  mmap_walk 3 (mk_mmar 0 0 0 0) 0 three_region_state
  = [mk_mmar 20 0x100000 0x100000 E820_RAM;
     mk_mmar 20 0x200000 0x10000 E820_NVS;
     mk_mmar 20 0xFED00000 0x1000 E820_RESERVED].
Proof.
  rewrite (proj1 (mmap_walk_lists_stored_regions 3 (mk_mmar 0 0 0 0)
                    three_region_state ltac:(cbn; lia))).
  reflexivity.
Defined.

(** [e820_map_from_efi_map_reads_each_stride]: the sample map of 144
    bytes read with a stride of 48 is the three descriptors at 0, 48 and
    96. *)
Lemma e820_map_from_efi_map_reads_each_stride_witness :
  visited sample_map 48 144 = [sample_map 0; sample_map 48; sample_map 96]
  /\ e820_map_from_efi_map 128 4 sample_map 48 144 boot_state
     = Some (fold_left (fun s d => translate_descriptor 128 d s)
               [sample_map 0; sample_map 48; sample_map 96]
               (set_e820_nr_map 0 boot_state)).
Proof.
  split; [reflexivity|].
  apply (proj1 (e820_map_from_efi_map_reads_each_stride 128 4 sample_map
                  48 144 boot_state)).
  - lia.
  - vm_compute. lia.
Defined.

(** [built_table_has_no_mergeable_neighbours] on the sample map. *)
Lemma built_table_has_no_mergeable_neighbours_witness :
  exists st',
    e820_map_from_efi_map 128 4 sample_map 48 144 boot_state = Some st'
    /\ no_mergeable_neighbours st'.
Proof.
  eexists. split; [vm_compute; reflexivity|].
  apply (built_table_has_no_mergeable_neighbours 128 4 sample_map 48 144
           boot_state).
  vm_compute. reflexivity.
Defined.

(** [built_table_stays_within_capacity]: with room for two regions, the
    three regions of the sample map leave a count of two. *)
Lemma built_table_stays_within_capacity_witness :
  exists st',
    e820_map_from_efi_map 2 4 sample_map 48 144 boot_state = Some st'
    /\ grub_e820_nr_map st' = 2
    /\ 0 <= grub_e820_nr_map st' <= 2.
Proof.
  eexists. split; [vm_compute; reflexivity|].
  split; [reflexivity|].
  apply (built_table_stays_within_capacity 2 4 sample_map 48 144 boot_state).
  - lia.
  - vm_compute. reflexivity.
Defined.

Lemma hole_map_visited :
  visited hole_map 48 96
  = [mk_descriptor GRUB_EFI_CONVENTIONAL_MEMORY 0x90000 0x80;
     mk_descriptor GRUB_EFI_ACPI_RECLAIM_MEMORY 0x110000 0x10].
Proof. reflexivity. Qed.

Lemma hole_map_well_formed :
  Forall well_formed_descriptor (visited hole_map 48 96).
Proof.
  rewrite hole_map_visited.
  repeat constructor; cbn; lia.
Qed.

(** [built_table_ram_avoids_hole] on a map whose conventional memory
    spans the hole. *)
Lemma built_table_ram_avoids_hole_witness :
  exists st',
    e820_map_from_efi_map 128 3 hole_map 48 96 boot_state = Some st'
    /\ table_clear_of_hole st'.
Proof.
  apply (built_table_ram_avoids_hole 128 3 hole_map 48 96 boot_state).
  - lia.
  - rewrite hole_map_visited. cbn. lia.
  - exact hole_map_well_formed.
Defined.

(** [built_table_covers_reported_bytes] on the same map: [0x10000] bytes
    below the hole, [0x10000] above it and [0x10000] of ACPI tables. *)
Lemma built_table_covers_reported_bytes_witness :
  exists st',
    e820_map_from_efi_map 128 3 hole_map 48 96 boot_state = Some st'
    /\ stored_bytes st' = 0x30000.
Proof.
  destruct (built_table_covers_reported_bytes 128 3 hole_map 48 96
              boot_state) as (st' & Hrun & Hbytes).
  - lia.
  - rewrite hole_map_visited. cbn. lia.
  - exact hole_map_well_formed.
  - rewrite hole_map_visited. cbn. lia.
  - left. cbn. unfold E820_RAM. lia.
  - exists st'. split; [exact Hrun|].
    rewrite Hbytes, hole_map_visited. reflexivity.
Defined.

(** [update_e820_map_buffer_fate] when the firmware refuses the map
    request: the buffer at 1 MiB stays recorded and is not freed. *)
Lemma update_e820_map_buffer_fate_witness :
  exists st',
    update_e820_map 128 Word64 failing_map_firmware 0 two_slot_state
    = Some st'
    /\ fw_calls st'
       = [GetMemoryMap 0x2000 0x100000 GRUB_EFI_OTHER_STATUS;
          AllocatePages GRUB_EFI_ALLOCATE_MAX_ADDRESS GRUB_EFI_LOADER_DATA
            2 0x7fffffff GRUB_EFI_SUCCESS 0x100000]
    /\ exists k, allocated_pages_mem st' k = mk_allocated_page 0x100000 2.
Proof.
  destruct (proj1 (update_e820_map_buffer_fate 128 Word64
                     failing_map_firmware 0 0x100000 two_slot_state
                     two_slot_state_present two_slot_state_has_room eq_refl
                     ltac:(lia)
                     ltac:(unfold two_slot_state, allocated_pages; lia)
                     ltac:(intros i _;
                           destruct (two_slot_state_bases i) as [H|[H|H]];
                           rewrite H; lia))
              eq_refl)
    as (st' & Hrun & Hlog & k & _ & _ & Hslot & _).
  exists st'. split; [exact Hrun|]. split; [exact Hlog|].
  exists k. exact Hslot.
Defined.

(** [without_table_nothing_is_recorded] in the boot state. *)
Lemma without_table_nothing_is_recorded_witness :
  let st' := run_calls Word64 sample_firmware
               [AllocateAnypages 1; AllocatePagesAt 0 2] boot_state in
  fw_calls st'
  = [AllocatePages GRUB_EFI_ALLOCATE_MAX_ADDRESS GRUB_EFI_LOADER_DATA
       2 0x7fffffff GRUB_EFI_SUCCESS 0x110000;
     AllocatePages GRUB_EFI_ALLOCATE_ANY_PAGES GRUB_EFI_LOADER_DATA
       1 0 GRUB_EFI_SUCCESS 0x100000]
  /\ grub_efi_mm_fini Word64 st' = st'.
Proof.
  intros st'. split; [reflexivity|].
  exact (proj1 (proj2 (proj2 (proj2
           (without_table_nothing_is_recorded Word64 sample_firmware
              [AllocateAnypages 1; AllocatePagesAt 0 2] boot_state
              eq_refl))))).
Defined.
